(** * Play Store review pipeline: a shallow embedding of the transform,
      aggregation and sentiment-flagging code

    The development follows the Python sources under [src/transform]:

    - [transform_data.py]              -> [Module TransformData]
    - [compute_app_kpis.py]            -> [Module ComputeAppKpis]
    - [compute_daily_metrics.py]       -> [Module ComputeDailyMetrics]
    - [flag_inconsistent_sentiment.py] -> [Module FlagInconsistentSentiment]

    The interpreter's own behaviour (values, [int()], string methods,
    [datetime.strptime], float arithmetic) is collected first, in
    [Module Py] and [Module PyTime].

    Conventions of the model.
    - A Python [str] is a Rocq [string]; one character of the model is one
      code point in the ASCII range.
    - A Python [int] is a [Z]; a Python [float] is an IEEE binary64 value,
      a [spec_float] at precision 53 and maximal exponent 1024.
    - A computation that may raise is a [result]; [try ... except Exception]
      is [try_except].
    - [json.loads] is a parameter of the stream-level functions: they are
      written for an arbitrary decoder, which either returns a value or
      raises.
    - [int()] on a string rejects a literal of more than 4300 digits, the
      default of [sys.set_int_max_str_digits].
    - The strings of the model are ASCII, which UTF-8 encodes, so the write
      of a record, [fout.write(json.dumps(r, ensure_ascii=False))], cannot
      fail on them; on a decoded string that holds a lone surrogate the
      real write raises [UnicodeEncodeError].  [transform_reviews] gives
      the records handed to the write; [transform_reviews_writing] is the
      same loop with the write as a step of its own, which may raise.
    - [sorted] is an insertion sort with [<]; the order of the result does
      not depend on the algorithm when the keys are distinct strings.
    - [datetime.fromtimestamp] takes the calendar fields from the day
      number as [_ord2ymd] of [datetime.py] does, and raises [ValueError]
      for every instant outside the years 1 to 9999. *)

From Stdlib Require Import ZArith List String Ascii Bool Lia Sorted.
From Stdlib Require Import Floats.SpecFloat.
Import ListNotations.

Set Warnings "-register-all".

Open Scope string_scope.
Open Scope Z_scope.

(* ================================================================== *)
(** * Python values, exceptions and builtins *)
(* ================================================================== *)

Module Py.

Inductive exc : Type :=
| ValueError
| TypeError
| OverflowError
| AttributeError
| ZeroDivisionError
| JSONDecodeError.

(** The outcome of evaluating an expression or a statement block. *)
Inductive result (A : Type) : Type :=
| Ok (a : A)
| Raise (e : exc).

Arguments Ok {A} a.
Arguments Raise {A} e.

Definition bind {A B : Type} (m : result A) (k : A -> result B) : result B :=
  match m with
  | Ok a => k a
  | Raise e => Raise e
  end.

(** [try: body / except Exception: handler]. *)
Definition try_except {A : Type} (body handler : result A) : result A :=
  match body with
  | Ok a => Ok a
  | Raise _ => handler
  end.

Definition is_ok {A : Type} (m : result A) : bool :=
  match m with
  | Ok _ => true
  | Raise _ => false
  end.

(** Values that [json.loads] and [csv.DictReader] can produce.  A [dict]
    keeps its items in insertion order; its keys are hashable values. *)
Inductive pyval : Type :=
| VNone
| VBool (b : bool)
| VInt (z : Z)
| VFloat (f : spec_float)
| VStr (s : string)
| VList (items : list pyval)
| VDict (items : list (pyval * pyval)).

Definition pydict : Type := list (pyval * pyval).

(** ** Floats: IEEE binary64 *)

Definition prec : Z := 53.
Definition emax : Z := 1024.

Definition float_of_Z (z : Z) : spec_float := binary_normalize prec emax z 0 false.

(** [float(n)] for an [int]: correctly rounded, [OverflowError] beyond the
    largest double. *)
Definition float_of_int (z : Z) : result spec_float :=
  match float_of_Z z with
  | S754_infinity _ => Raise OverflowError
  | f => Ok f
  end.

(** [int(x)] for a [float]: truncation towards zero. *)
Definition int_of_float (f : spec_float) : result Z :=
  match f with
  | S754_nan => Raise ValueError
  | S754_infinity _ => Raise OverflowError
  | S754_zero _ => Ok 0
  | S754_finite s m e => Ok (cond_Zopp s (Z.shiftl (Zpos m) e))
  end.

(** Exact comparison of a float with an integer, as [float.__lt__] and
    friends do; [None] when the float is a NaN. *)
Definition float_compare_Z (f : spec_float) (z : Z) : option comparison :=
  match f with
  | S754_nan => None
  | S754_infinity s => Some (if s then Lt else Gt)
  | S754_zero _ => Some (0 ?= z)
  | S754_finite s m e =>
      let v := cond_Zopp s (Zpos m) in
      Some (if 0 <=? e then (v * 2 ^ e ?= z) else (v ?= z * 2 ^ (- e)))
  end.

(** The double nearest to [a / b] for [0 <= a] and [0 < b], with sign [s].
    The quotient is computed with two bits more than the precision and a
    sticky bit, so that the final rounding sees on which side of a midpoint
    the exact quotient lies. *)
Definition ratio_to_float (s : bool) (a b : Z) : spec_float :=
  if a =? 0 then S754_zero s
  else
    let k := Z.max 0 (Z.log2 b - Z.log2 a + prec + 3) in
    let q := (a * 2 ^ k) / b in
    let r := (a * 2 ^ k) mod b in
    let m := 2 * q + (if r =? 0 then 0 else 1) in
    binary_normalize prec emax (cond_Zopp s m) (- k - 1) s.

(** [n / d] for two [int]s: the correctly rounded quotient. *)
Definition true_div (n d : Z) : result spec_float :=
  if d =? 0 then Raise ZeroDivisionError
  else
    match ratio_to_float (xorb (n <? 0) (d <? 0)) (Z.abs n) (Z.abs d) with
    | S754_infinity _ => Raise OverflowError
    | f => Ok f
    end.

Definition fadd (x y : spec_float) : spec_float := SFadd prec emax x y.
Definition fmul (x y : spec_float) : spec_float := SFmul prec emax x y.

(** [x / y] for two [float]s. *)
Definition fdiv (x y : spec_float) : result spec_float :=
  match y with
  | S754_zero _ => Raise ZeroDivisionError
  | _ => Ok (SFdiv prec emax x y)
  end.

(** The integer nearest to [n / d] for [0 <= n] and [0 < d], ties to even. *)
Definition round_half_even (n d : Z) : Z :=
  let q := n / d in
  let r := n mod d in
  match 2 * r ?= d with
  | Lt => q
  | Gt => q + 1
  | Eq => if Z.even q then q else q + 1
  end.

(** [round(x, 3)]: the exact value of [x] rounded to three decimals, ties
    to even, then the double nearest to that decimal. *)
Definition round3 (x : spec_float) : spec_float :=
  match x with
  | S754_finite s m e =>
      let t := if 0 <=? e then Zpos m * 1000 * 2 ^ e
               else round_half_even (Zpos m * 1000) (2 ^ (- e)) in
      ratio_to_float s t 1000
  | _ => x
  end.

(** The numeric tower restricted to what JSON gives: [bool] is an [int]. *)
Inductive num : Type :=
| NInt (z : Z)
| NFloat (f : spec_float).

Definition as_num (v : pyval) : option num :=
  match v with
  | VBool b => Some (NInt (if b then 1 else 0))
  | VInt z => Some (NInt z)
  | VFloat f => Some (NFloat f)
  | _ => None
  end.

Definition num_compare (a b : num) : option comparison :=
  match a, b with
  | NInt x, NInt y => Some (x ?= y)
  | NFloat f, NInt y => float_compare_Z f y
  | NInt x, NFloat g => option_map CompOpp (float_compare_Z g x)
  | NFloat f, NFloat g => SFcompare f g
  end.

Definition num_le (a b : num) : bool :=
  match num_compare a b with
  | Some Lt | Some Eq => true
  | _ => false
  end.

Definition num_lt (a b : num) : bool :=
  match num_compare a b with
  | Some Lt => true
  | _ => false
  end.

Definition num_eq (a b : num) : bool :=
  match num_compare a b with
  | Some Eq => true
  | _ => false
  end.

(** ** Truth value, [or], [is None] *)

Definition truthy (v : pyval) : bool :=
  match v with
  | VNone => false
  | VBool b => b
  | VInt z => negb (z =? 0)
  | VFloat f => match f with S754_zero _ => false | _ => true end
  | VStr s => negb (s =? "")%string
  | VList l => match l with [] => false | _ => true end
  | VDict d => match d with [] => false | _ => true end
  end.

Definition py_or (a b : pyval) : pyval := if truthy a then a else b.

Definition is_none (v : pyval) : bool :=
  match v with
  | VNone => true
  | _ => false
  end.

Definition is_str (v : pyval) : bool :=
  match v with
  | VStr _ => true
  | _ => false
  end.

(** [isinstance(v, (int, float))]; a [bool] is an [int]. *)
Definition is_int_or_float (v : pyval) : bool :=
  match v with
  | VBool _ | VInt _ | VFloat _ => true
  | _ => false
  end.

(** ** Strings *)

Definition code (c : ascii) : Z := Z.of_nat (nat_of_ascii c).

Definition in_range (lo hi : Z) (c : ascii) : bool :=
  (lo <=? code c) && (code c <=? hi).

(** [str.isspace] on one character, also the class [\s] of [re]. *)
Definition is_space (c : ascii) : bool := in_range 9 13 c || in_range 28 32 c.

(** The white space [int()] skips around a literal. *)
Definition is_c_space (c : ascii) : bool := in_range 9 13 c || (code c =? 32).

Definition is_digit (c : ascii) : bool := in_range 48 57 c.

Definition digit_val (c : ascii) : Z := code c - 48.

Definition lower_char (c : ascii) : ascii :=
  if in_range 65 90 c then ascii_of_nat (nat_of_ascii c + 32) else c.

Fixpoint str_map (f : ascii -> ascii) (s : string) : string :=
  match s with
  | EmptyString => EmptyString
  | String c s' => String (f c) (str_map f s')
  end.

Fixpoint str_filter (p : ascii -> bool) (s : string) : string :=
  match s with
  | EmptyString => EmptyString
  | String c s' => if p c then String c (str_filter p s') else str_filter p s'
  end.

Fixpoint str_exists (p : ascii -> bool) (s : string) : bool :=
  match s with
  | EmptyString => false
  | String c s' => p c || str_exists p s'
  end.

Fixpoint str_forall (p : ascii -> bool) (s : string) : bool :=
  match s with
  | EmptyString => true
  | String c s' => p c && str_forall p s'
  end.

(** [s.lower()]. *)
Definition lower (s : string) : string := str_map lower_char s.

Definition len (s : string) : Z := Z.of_nat (String.length s).

Fixpoint lstrip_by (p : ascii -> bool) (s : string) : string :=
  match s with
  | EmptyString => EmptyString
  | String c s' => if p c then lstrip_by p s' else s
  end.

Fixpoint rstrip_by (p : ascii -> bool) (s : string) : string :=
  match s with
  | EmptyString => EmptyString
  | String c s' =>
      match rstrip_by p s' with
      | EmptyString => if p c then EmptyString else String c EmptyString
      | r => String c r
      end
  end.

(** [s.strip()]. *)
Definition strip (s : string) : string := rstrip_by is_space (lstrip_by is_space s).

(** [sub in s]. *)
Fixpoint contains (sub s : string) : bool :=
  prefix sub s ||
  match s with
  | EmptyString => false
  | String _ s' => contains sub s'
  end.

(** [s.find(sub)]: the lowest index where [sub] starts, or -1. *)
Fixpoint find_from (sub s : string) (i : Z) : Z :=
  if prefix sub s then i
  else match s with
       | EmptyString => -1
       | String _ s' => find_from sub s' (i + 1)
       end.

Definition find (s sub : string) : Z := find_from sub s 0.

(** [s.rfind(sub)]: the highest index where [sub] starts, or -1. *)
Fixpoint rfind_from (sub s : string) (i : Z) : Z :=
  match s with
  | EmptyString => if prefix sub s then i else -1
  | String _ s' =>
      let r := rfind_from sub s' (i + 1) in
      if 0 <=? r then r else if prefix sub s then i else -1
  end.

Definition rfind (s sub : string) : Z := rfind_from sub s 0.

(** [s[i]] for an index known to be in range is [String.get]; a slice
    [s[a:b]] clamps its bounds, counting a negative bound from the end. *)
Definition clamp_index (n i : Z) : Z :=
  let j := if i <? 0 then i + n else i in
  Z.max 0 (Z.min n j).

Definition slice (s : string) (a b : Z) : string :=
  let n := len s in
  let lo := clamp_index n a in
  let hi := clamp_index n b in
  substring (Z.to_nat lo) (Z.to_nat (hi - lo)) s.

(** [s[:n]]. *)
Definition take (n : nat) (s : string) : string := substring 0 n s.

(** ** [int()] *)

(** Digits of a decimal literal; one underscore may separate two digits. *)
Fixpoint digits_value (s : string) (acc : Z) (after_digit : bool) : option Z :=
  match s with
  | EmptyString => if after_digit then Some acc else None
  | String c s' =>
      if is_digit c then digits_value s' (10 * acc + digit_val c) true
      else if (code c =? 95) && after_digit then digits_value s' acc false
      else None
  end.

(** The default of [sys.set_int_max_str_digits]: [int()] rejects a decimal
    literal that has more digits, whatever their value. *)
Definition max_str_digits : Z := 4300.

Definition int_of_str (s : string) : result Z :=
  let t := rstrip_by is_c_space (lstrip_by is_c_space s) in
  let '(neg, body) :=
    match t with
    | String "-" r => (true, r)
    | String "+" r => (false, r)
    | _ => (false, t)
    end in
  match digits_value body 0 false with
  | Some n =>
      if max_str_digits <? len (str_filter is_digit body) then Raise ValueError
      else Ok (if neg then - n else n)
  | None => Raise ValueError
  end.

Definition py_int (v : pyval) : result Z :=
  match v with
  | VNone => Raise TypeError
  | VBool b => Ok (if b then 1 else 0)
  | VInt z => Ok z
  | VFloat f => int_of_float f
  | VStr s => int_of_str s
  | VList _ => Raise TypeError
  | VDict _ => Raise TypeError
  end.

(** ** Equality, order and dictionaries *)

Definition hashable (v : pyval) : bool :=
  match v with
  | VList _ | VDict _ => false
  | _ => true
  end.

(** [a == b] on hashable values: the test a [dict] applies to its keys. *)
Definition key_eqb (a b : pyval) : bool :=
  match a, b with
  | VNone, VNone => true
  | VStr s, VStr t => (s =? t)%string
  | _, _ =>
      match as_num a, as_num b with
      | Some x, Some y => num_eq x y
      | _, _ => false
      end
  end.

Fixpoint lookup (k : pyval) (d : pydict) : option pyval :=
  match d with
  | [] => None
  | (k', v) :: d' => if key_eqb k' k then Some v else lookup k d'
  end.

(** [d.get(name)]: the value, or [None] when the key is absent. *)
Definition get (d : pydict) (name : string) : pyval :=
  match lookup (VStr name) d with
  | Some v => v
  | None => VNone
  end.

(** [d[k] = v]: in place when the key exists, at the end otherwise. *)
Fixpoint set_key (k v : pyval) (d : pydict) : pydict :=
  match d with
  | [] => [(k, v)]
  | (k', v') :: d' => if key_eqb k' k then (k', v) :: d' else (k', v') :: set_key k v d'
  end.

Definition set (d : pydict) (name : string) (v : pyval) : pydict :=
  set_key (VStr name) v d.

(** [a == b] on arbitrary values. *)
Fixpoint py_eq (a b : pyval) : bool :=
  match a, b with
  | VList xs, VList ys =>
      (fix all2 (xs ys : list pyval) : bool :=
         match xs, ys with
         | [], [] => true
         | x :: xs', y :: ys' => py_eq x y && all2 xs' ys'
         | _, _ => false
         end) xs ys
  | VDict xs, VDict ys =>
      (Nat.eqb (List.length xs) (List.length ys)) &&
      (fix all1 (xs : list (pyval * pyval)) : bool :=
         match xs with
         | [] => true
         | (k, v) :: xs' =>
             (fix any (ys : list (pyval * pyval)) : bool :=
                match ys with
                | [] => false
                | (k', v') :: ys' => if key_eqb k k' then py_eq v v' else any ys'
                end) ys && all1 xs'
         end) xs
  | _, _ => key_eqb a b
  end.

(** [a < b]: numbers with numbers, strings with strings, lists item by
    item; anything else is a [TypeError]. *)
Fixpoint py_lt (a b : pyval) : result bool :=
  match a, b with
  | VStr s, VStr t => Ok (String.ltb s t)
  | VList xs, VList ys =>
      (fix lex (xs ys : list pyval) : result bool :=
         match xs, ys with
         | [], [] => Ok false
         | [], _ :: _ => Ok true
         | _ :: _, [] => Ok false
         | x :: xs', y :: ys' => if py_eq x y then lex xs' ys' else py_lt x y
         end) xs ys
  | _, _ =>
      match as_num a, as_num b with
      | Some x, Some y => Ok (num_lt x y)
      | _, _ => Raise TypeError
      end
  end.

(** [a > b] is [b < a] for these types. *)
Definition py_gt (a b : pyval) : result bool := py_lt b a.

End Py.

(* ================================================================== *)
(** * [datetime]: construction, [strptime], [isoformat], [timestamp] *)
(* ================================================================== *)

Module PyTime.
Import Py.

(** A [datetime] with microsecond 0; the code only builds naive values and
    values in UTC, and the function applied says which one is meant. *)
Record datetime : Type := mk_datetime {
  year : Z;
  month : Z;
  day : Z;
  hour : Z;
  minute : Z;
  second : Z
}.

Definition is_leap (y : Z) : bool :=
  (y mod 4 =? 0) && (negb (y mod 100 =? 0) || (y mod 400 =? 0)).

Definition days_in_month (y m : Z) : Z :=
  if m =? 2 then (if is_leap y then 29 else 28)
  else if (m =? 4) || (m =? 6) || (m =? 9) || (m =? 11) then 30
  else 31.

Definition days_before_year (y : Z) : Z :=
  let p := y - 1 in
  p * 365 + p / 4 - p / 100 + p / 400.

Definition days_before_month (y m : Z) : Z :=
  fold_left (fun acc k => acc + days_in_month y k)
            (map Z.of_nat (seq 1 (Z.to_nat (m - 1)))) 0.

(** Proleptic Gregorian ordinal: 0001-01-01 is day 1. *)
Definition ymd2ord (y m d : Z) : Z :=
  days_before_year y + days_before_month y m + d.

Definition valid_date (y m d : Z) : bool :=
  (1 <=? y) && (y <=? 9999) && (1 <=? m) && (m <=? 12) &&
  (1 <=? d) && (d <=? days_in_month y m).

Definition valid_time (H M S : Z) : bool :=
  (0 <=? H) && (H <=? 23) && (0 <=? M) && (M <=? 59) && (0 <=? S) && (S <=? 59).

Definition valid (dt : datetime) : bool :=
  valid_date (year dt) (month dt) (day dt) &&
  valid_time (hour dt) (minute dt) (second dt).

(** The constructor: a field out of range is a [ValueError]. *)
Definition datetime_new (y m d H M S : Z) : result datetime :=
  if valid_date y m d && valid_time H M S
  then Ok (mk_datetime y m d H M S)
  else Raise ValueError.

(** ** Formatting *)

Definition digit_char (n : Z) : ascii := ascii_of_nat (Z.to_nat (48 + n)).

Definition pad2 (n : Z) : string :=
  String (digit_char (n / 10)) (String (digit_char (n mod 10)) "").

Definition pad4 (n : Z) : string :=
  String (digit_char (n / 1000))
    (String (digit_char (n / 100 mod 10)) (pad2 (n mod 100))).

(** [d.isoformat()] for a [date]. *)
Definition date_isoformat (dt : datetime) : string :=
  (pad4 (year dt) ++ "-" ++ pad2 (month dt) ++ "-" ++ pad2 (day dt))%string.

(** [dt.replace(tzinfo=timezone.utc).isoformat()]. *)
Definition isoformat_utc (dt : datetime) : string :=
  (date_isoformat dt ++ "T" ++ pad2 (hour dt) ++ ":" ++ pad2 (minute dt) ++ ":"
     ++ pad2 (second dt) ++ "+00:00")%string.

(** [dt.timestamp()] for [dt] in UTC: [(dt - epoch).total_seconds()], the
    true quotient of the microseconds by one million. *)
Definition epoch_ordinal : Z := 719163.

Definition seconds_since_epoch (dt : datetime) : Z :=
  (ymd2ord (year dt) (month dt) (day dt) - epoch_ordinal) * 86400
  + hour dt * 3600 + minute dt * 60 + second dt.

Definition timestamp_utc (dt : datetime) : result spec_float :=
  true_div (seconds_since_epoch dt * 1000000) 1000000.

(** ** The regular expressions of [_strptime]

    A backtracking matcher over the constructs the directives use:
    alternatives are tried in order, [RPlus] is greedy, and a failure of
    what follows makes the matcher return to the last choice. *)

Inductive re : Type :=
| REmpty
| RClass (p : ascii -> bool)
| RPlus (p : ascii -> bool)
| RSeq (a b : re)
| RAlt (a b : re)
| RGroup (name : ascii) (r : re).

Definition captures : Type := list (ascii * string).

Fixpoint plus_greedy {A : Type} (p : ascii -> bool) (s : string)
    (k : string -> option A) : option A :=
  match s with
  | EmptyString => None
  | String c s' =>
      if p c then
        match plus_greedy p s' k with
        | Some r => Some r
        | None => k s'
        end
      else None
  end.

Fixpoint rmatch {A : Type} (r : re) (s : string) (caps : captures)
    (k : string -> captures -> option A) : option A :=
  match r with
  | REmpty => k s caps
  | RClass p =>
      match s with
      | EmptyString => None
      | String c s' => if p c then k s' caps else None
      end
  | RPlus p => plus_greedy p s (fun s1 => k s1 caps)
  | RSeq a b => rmatch a s caps (fun s1 c1 => rmatch b s1 c1 k)
  | RAlt a b =>
      match rmatch a s caps k with
      | Some x => Some x
      | None => rmatch b s caps k
      end
  | RGroup name a =>
      rmatch a s caps
        (fun s1 c1 =>
           k s1 ((name, take (String.length s - String.length s1) s) :: c1))
  end.

(** [regex.match(s)]: the first match at the start of [s], as the captured
    groups and the text left over. *)
Definition re_match (r : re) (s : string) : option (captures * string) :=
  rmatch r s [] (fun rest caps => Some (caps, rest)).

Fixpoint group (name : ascii) (caps : captures) : option string :=
  match caps with
  | [] => None
  | (n, s) :: caps' => if Ascii.eqb n name then Some s else group name caps'
  end.

(** One character, compared without case ([re.IGNORECASE]). *)
Definition chr (x : ascii) : re :=
  RClass (fun c => Ascii.eqb (lower_char c) (lower_char x)).

Definition rng (lo hi : ascii) : re := RClass (in_range (code lo) (code hi)).

Definition digit : re := RClass is_digit.

Fixpoint seq_of (rs : list re) : re :=
  match rs with
  | [] => REmpty
  | [r] => r
  | r :: rs' => RSeq r (seq_of rs')
  end.

Fixpoint alt_of (rs : list re) : re :=
  match rs with
  | [] => RClass (fun _ => false)
  | [r] => r
  | r :: rs' => RAlt r (alt_of rs')
  end.

Fixpoint lit (s : string) : re :=
  match s with
  | EmptyString => REmpty
  | String c EmptyString => chr c
  | String c s' => RSeq (chr c) (lit s')
  end.

(** [calendar.month_abbr] and [calendar.month_name] in the C locale, lower
    case, as [LocaleTime] keeps them. *)
Definition a_month : list string :=
  ["jan"; "feb"; "mar"; "apr"; "may"; "jun";
   "jul"; "aug"; "sep"; "oct"; "nov"; "dec"].

Definition f_month : list string :=
  ["january"; "february"; "march"; "april"; "may"; "june";
   "july"; "august"; "september"; "october"; "november"; "december"].

(** [sorted(names, key=len, reverse=True)]: a stable insertion sort. *)
Fixpoint insert_by_len (x : string) (l : list string) : list string :=
  match l with
  | [] => [x]
  | y :: l' =>
      if (String.length y <? String.length x)%nat then x :: l
      else y :: insert_by_len x l'
  end.

Definition sort_by_len_desc (l : list string) : list string :=
  fold_right insert_by_len [] l.

Definition seq_to_re (names : list string) : re :=
  alt_of (map lit (sort_by_len_desc names)).

(** The table of [TimeRE] for the directives of the three formats. *)
Definition directive (d : ascii) : option re :=
  match d with
  | "d"%char =>
      Some (RGroup "d" (alt_of [seq_of [chr "3"; rng "0" "1"];
                                 seq_of [rng "1" "2"; digit];
                                 seq_of [chr "0"; rng "1" "9"];
                                 rng "1" "9";
                                 seq_of [chr " "; rng "1" "9"]]))
  | "H"%char =>
      Some (RGroup "H" (alt_of [seq_of [chr "2"; rng "0" "3"];
                                 seq_of [rng "0" "1"; digit];
                                 digit]))
  | "m"%char =>
      Some (RGroup "m" (alt_of [seq_of [chr "1"; rng "0" "2"];
                                 seq_of [chr "0"; rng "1" "9"];
                                 rng "1" "9"]))
  | "M"%char =>
      Some (RGroup "M" (alt_of [seq_of [rng "0" "5"; digit]; digit]))
  | "S"%char =>
      Some (RGroup "S" (alt_of [seq_of [chr "6"; rng "0" "1"];
                                 seq_of [rng "0" "5"; digit];
                                 digit]))
  | "Y"%char => Some (RGroup "Y" (seq_of [digit; digit; digit; digit]))
  | "B"%char => Some (RGroup "B" (seq_to_re f_month))
  | "b"%char => Some (RGroup "b" (seq_to_re a_month))
  | _ => None
  end.

(** [TimeRE.pattern]: a run of white space in the format is [\s+], a
    directive is replaced by its expression, any other character stands for
    itself.  [None] is a directive outside the table. *)
Fixpoint pattern_from (in_space : bool) (fmt : string) : option re :=
  match fmt with
  | EmptyString => Some REmpty
  | String "%" EmptyString => None
  | String "%" (String d rest) =>
      match directive d, pattern_from false rest with
      | Some r, Some r' => Some (RSeq r r')
      | _, _ => None
      end
  | String c rest =>
      if is_space c then
        if in_space then pattern_from true rest
        else option_map (RSeq (RPlus is_space)) (pattern_from true rest)
      else option_map (RSeq (chr c)) (pattern_from false rest)
  end.

Definition pattern (fmt : string) : option re := pattern_from false fmt.

(** Position of a name in a list, counted from 1. *)
Fixpoint index_from (i : Z) (name : string) (l : list string) : result Z :=
  match l with
  | [] => Raise ValueError
  | x :: l' => if (x =? name)%string then Ok i else index_from (i + 1) name l'
  end.

Definition group_int (name : ascii) (default : Z) (caps : captures) : result Z :=
  match group name caps with
  | Some s => int_of_str s
  | None => Ok default
  end.

Definition group_month (caps : captures) : result Z :=
  match group "m" caps, group "B" caps, group "b" caps with
  | Some s, _, _ => int_of_str s
  | None, Some s, _ => index_from 1 (lower s) f_month
  | None, None, Some s => index_from 1 (lower s) a_month
  | None, None, None => Ok 1
  end.

(** [datetime.strptime(data, fmt)]: match the whole of [data], read the
    fields (missing ones default to 1900-01-01 00:00:00), build the value.
    Every failure is a [ValueError]. *)
Definition strptime (data fmt : string) : result datetime :=
  match pattern fmt with
  | None => Raise ValueError
  | Some r =>
      match re_match r data with
      | None => Raise ValueError
      | Some (caps, rest) =>
          if negb (rest =? "")%string then Raise ValueError
          else
            bind (group_int "Y" 1900 caps) (fun y =>
            bind (group_month caps) (fun m =>
            bind (group_int "d" 1 caps) (fun d =>
            bind (group_int "H" 0 caps) (fun H =>
            bind (group_int "M" 0 caps) (fun M =>
            bind (group_int "S" 0 caps) (fun S =>
            datetime_new y m d H M S))))))
      end
  end.

(** ** From a day number to a date: [_ord2ymd] of [datetime.py] *)

Definition _DAYS_IN_MONTH : list Z :=
  [-1; 31; 28; 31; 30; 31; 30; 31; 31; 30; 31; 30; 31].

Definition _DAYS_BEFORE_MONTH : list Z :=
  [-1; 0; 31; 59; 90; 120; 151; 181; 212; 243; 273; 304; 334].

(** [table[i]] for an index in range. *)
Definition item (table : list Z) (i : Z) : Z := nth (Z.to_nat i) table 0.

(** The end of [_ord2ymd]: month and day for the offset [n] from the first
    of January; the estimate of the month is exact or one too large. *)
Definition month_day (leapyear : bool) (n : Z) : Z * Z :=
  let month := Z.shiftr (n + 50) 5 in
  let preceding :=
    item _DAYS_BEFORE_MONTH month + (if (2 <? month) && leapyear then 1 else 0) in
  if n <? preceding then
    let month := month - 1 in
    let preceding :=
      preceding
      - (item _DAYS_IN_MONTH month + (if (month =? 2) && leapyear then 1 else 0)) in
    (month, n - preceding + 1)
  else (month, n - preceding + 1).

Definition ord2ymd (n : Z) : Z * Z * Z :=
  let n := n - 1 in
  let n400 := n / 146097 in
  let n := n mod 146097 in
  let year := n400 * 400 + 1 in
  let n100 := n / 36524 in
  let n := n mod 36524 in
  let n4 := n / 1461 in
  let n := n mod 1461 in
  let n1 := n / 365 in
  let n := n mod 365 in
  let year := year + n100 * 100 + n4 * 4 + n1 in
  if (n1 =? 4) || (n100 =? 4) then (year - 1, 12, 31)
  else
    let leapyear := (n1 =? 3) && (negb (n4 =? 24) || (n100 =? 3)) in
    let '(month, d) := month_day leapyear n in
    (year, month, d).

(** [datetime.fromtimestamp(t, tz=timezone.utc)] for an [int]: the fields
    of [gmtime], then the constructor, which rejects a year out of range.
    (Far from the range the platform reports an [OverflowError] or an
    [OSError] instead; the callers make no difference.) *)
Definition fromtimestamp_utc (t : Z) : result datetime :=
  let days := t / 86400 in
  let rest := t mod 86400 in
  let '(y, m, d) := ord2ymd (days + epoch_ordinal) in
  datetime_new y m d (rest / 3600) (rest mod 3600 / 60) (rest mod 60).

End PyTime.

(* ================================================================== *)
(** * [transform_data.py] *)
(* ================================================================== *)

Module TransformData.
Import Py PyTime.

(** [parse_epoch_int] and [epoch_to_iso] of [transform_data.py]. *)
Definition parse_epoch_int (ts : pyval) : result pyval :=
  try_except
    (if is_none ts then Ok VNone else bind (py_int ts) (fun z => Ok (VInt z)))
    (Ok VNone).

Definition epoch_to_iso (e : pyval) : result pyval :=
  if negb (truthy e) then Ok VNone
  else
    try_except
      (bind (py_int e) (fun t =>
       bind (fromtimestamp_utc t) (fun dt => Ok (VStr (isoformat_utc dt)))))
      (Ok VNone).

(** [epoch_to_iso(parse_epoch_int(app.get("updated")))], the value
    [transform_apps] stores under [updated_iso]. *)
Definition updated_iso (app : pydict) : result pyval :=
  bind (parse_epoch_int (get app "updated")) epoch_to_iso.

(** The formats [parse_human_datetime] tries, in this order. *)
Definition human_formats : list string :=
  ["%Y-%m-%d %H:%M:%S"; "%b %d, %Y"; "%B %d, %Y"].

(** The [for fmt in ...] loop: the first format that parses gives the ISO
    string; a format that raises is passed over. *)
Fixpoint first_format (s : pyval) (fmts : list string) : option string :=
  match fmts with
  | [] => None
  | fmt :: rest =>
      match
        match s with
        | VStr d => strptime d fmt
        | _ => Raise TypeError
        end
      with
      | Ok dt => Some (isoformat_utc dt)
      | Raise _ => first_format s rest
      end
  end.

Definition parse_human_datetime (s : pyval) : result pyval :=
  if negb (truthy s) then Ok VNone
  else
    match first_format s human_formats with
    | Some iso => Ok (VStr iso)
    | None =>
        (* Fallback: return original trimmed *)
        match s with
        | VStr d => Ok (VStr (strip d))
        | _ => Raise AttributeError
        end
    end.

(** [re.search(r, s)] as a truth value: some position where [r] matches. *)
Fixpoint re_search (r : re) (s : string) : bool :=
  match re_match r s with
  | Some _ => true
  | None =>
      match s with
      | EmptyString => false
      | String _ s' => re_search r s'
      end
  end.

(** The expression [([0-9,]+)\+?]. *)
Definition installs_re : re :=
  RSeq (RGroup "1" (RPlus (fun c => is_digit c || Ascii.eqb c ",")))
       (RAlt (chr "+") REmpty).

(** [s.replace(',', '')]. *)
Definition remove_commas (s : string) : string :=
  str_filter (fun c => negb (Ascii.eqb c ",")) s.

(** [re.sub(r"[^0-9]", "", s)]. *)
Definition keep_digits (s : string) : string := str_filter is_digit s.

(** [int(v) if v is not None else None]. *)
Definition int_or_none (v : pyval) : result pyval :=
  if is_none v then Ok VNone else bind (py_int v) (fun z => Ok (VInt z)).

Definition normalize_installs (app : pydict) : result pydict :=
  let min_installs := get app "minInstalls" in
  let real_installs := get app "realInstalls" in
  let installs_str := get app "installs" in
  let min_installs :=
    match installs_str with
    | VStr s =>
        if negb (truthy min_installs) then
          if re_search installs_re (remove_commas s) then
            match int_of_str (keep_digits s) with
            | Ok z => VInt z
            | Raise _ => VNone
            end
          else min_installs
        else min_installs
    | _ => min_installs
    end in
  bind (int_or_none min_installs) (fun m =>
  let app := set app "minInstalls" m in
  bind (int_or_none real_installs) (fun r =>
  Ok (set app "realInstalls" r))).

Definition safe_int (v : pyval) : result pyval :=
  try_except
    (if is_none v then Ok VNone else bind (py_int v) (fun z => Ok (VInt z)))
    (Ok VNone).

Section Jsonl.

(** [json.loads]: a value, or an exception. *)
Variable json_loads : string -> result pyval.

(** The generator over the lines of the raw file: the objects it yields. *)
Fixpoint _iter_reviews_jsonl (lines : list string) : list pyval :=
  match lines with
  | [] => []
  | line :: rest =>
      let line := strip line in
      if (line =? "")%string then _iter_reviews_jsonl rest
      else
        match
          try_except (json_loads line)
            (let start := find line "{" in
             let end_ := rfind line "}" in
             json_loads (slice line start (end_ + 1)))
        with
        | Ok obj => obj :: _iter_reviews_jsonl rest
        | Raise _ => _iter_reviews_jsonl rest
        end
  end.

End Jsonl.

(** [{k.lower(): v for k, v in mapping.items()}]. *)
Fixpoint lower_keys (items : pydict) (acc : pydict) : result pydict :=
  match items with
  | [] => Ok acc
  | (VStr k, v) :: rest => lower_keys rest (set acc (lower k) v)
  | _ :: _ => Raise AttributeError
  end.

Fixpoint first_not_none (lower_map : pydict) (candidates : list string) : pyval :=
  match candidates with
  | [] => VNone
  | name :: rest =>
      let v := get lower_map (lower name) in
      if negb (is_none v) then v else first_not_none lower_map rest
  end.

Definition _get_first (mapping : pydict) (candidates : list string) : result pyval :=
  bind (lower_keys mapping []) (fun lower_map =>
  Ok (first_not_none lower_map candidates)).

(** The canonical keys with the candidate names of each. *)
Definition review_fields : list (string * list string) :=
  [("reviewId", ["reviewId"; "review_id"; "id"]);
   ("userName", ["userName"; "user_name"; "author"; "author_name"]);
   ("userImage", ["userImage"; "user_image"; "avatar"]);
   ("content", ["content"; "review_text"; "text"; "body"]);
   ("score", ["score"; "rating"; "stars"]);
   ("thumbsUpCount", ["thumbsUpCount"; "likes"; "helpful_count"]);
   ("reviewCreatedVersion", ["reviewCreatedVersion"; "review_version"]);
   ("at", ["at"; "timestamp"; "created_at"]);
   ("replyContent", ["replyContent"; "reply_text"]);
   ("repliedAt", ["repliedAt"; "reply_timestamp"]);
   ("appVersion", ["appVersion"; "app_version"]);
   ("appId", ["appId"; "app_id"])].

Fixpoint normalize_fields (row : pydict) (fields : list (string * list string))
    : result pydict :=
  match fields with
  | [] => Ok []
  | (key, candidates) :: rest =>
      bind (_get_first row candidates) (fun v =>
      bind (normalize_fields row rest) (fun d => Ok ((VStr key, v) :: d)))
  end.

Definition _normalize_review_row (row : pydict) : result pydict :=
  normalize_fields row review_fields.

(** [dict(obj)] for a value that is not a [dict]: every item must be a
    sequence of two elements, the first of them hashable. *)
Definition pair_of (item : pyval) : result (pyval * pyval) :=
  match item with
  | VList [k; v] => Ok (k, v)
  | VList _ => Raise ValueError
  | VStr (String a (String b EmptyString)) =>
      Ok (VStr (String a EmptyString), VStr (String b EmptyString))
  | VStr _ => Raise ValueError
  | VDict [(k1, _); (k2, _)] => Ok (k1, k2)
  | VDict _ => Raise ValueError
  | _ => Raise TypeError
  end.

Fixpoint dict_update (d : pydict) (items : list pyval) : result pydict :=
  match items with
  | [] => Ok d
  | item :: rest =>
      bind (pair_of item) (fun kv =>
      if hashable (fst kv) then dict_update (set_key (fst kv) (snd kv) d) rest
      else Raise TypeError)
  end.

Definition py_dict (obj : pyval) : result pydict :=
  match obj with
  | VDict d => Ok d
  | VList items => dict_update [] items
  | VStr EmptyString => Ok []
  | VStr _ => Raise ValueError
  | _ => Raise TypeError
  end.

(** The timestamp part of the loop body: the pair [(at_iso, at_epoch)]. *)
Definition at_fields (at_raw : pyval) : result (pyval * pyval) :=
  match at_raw with
  | VStr s =>
      if negb (s =? "")%string then
        try_except
          (bind (strptime s "%Y-%m-%d %H:%M:%S") (fun dt =>
           let at_iso := isoformat_utc dt in
           bind (timestamp_utc dt) (fun t =>
           bind (int_of_float t) (fun at_epoch =>
           Ok (VStr at_iso, VInt at_epoch)))))
          (bind (parse_human_datetime at_raw) (fun at_iso =>
           Ok (at_iso, VNone)))
      else Ok (VNone, VNone)
  | _ => Ok (VNone, VNone)
  end.

(** The body of the loop of [transform_reviews], from [r = dict(obj)] to
    the record that is written. *)
Definition transform_record (r : pydict) : result pydict :=
  let at_raw := get r "at" in
  bind (at_fields at_raw) (fun iso_epoch =>
  let r := set r "at_iso" (fst iso_epoch) in
  let r := set r "at_epoch" (snd iso_epoch) in
  bind (safe_int (get r "score")) (fun score =>
  let r := set r "score" score in
  bind (safe_int (get r "thumbsUpCount")) (fun thumbs =>
  Ok (set r "thumbsUpCount" thumbs)))).

(** The raw source: the lines of a JSONL file, or the rows [csv.DictReader]
    gives for a CSV file. *)
Inductive source : Type :=
| Jsonl (lines : list string)
| Csv (rows : list pydict).

Section Reviews.

Variable json_loads : string -> result pyval.

(** The objects the loop receives; for a CSV file a row is normalized when
    the loop asks for it, so that a failure there comes after the rows
    before it have been written. *)
Definition _iter_reviews (src : source) : list (result pyval) :=
  match src with
  | Csv rows =>
      map (fun row => bind (_normalize_review_row row) (fun d => Ok (VDict d))) rows
  | Jsonl lines => map Ok (_iter_reviews_jsonl json_loads lines)
  end.

(** The loop: [count] records written so far, [max_lines] the optional cap
    ([None], or an [int]).  The result is the list of records written, that
    is, handed to [fout.write(json.dumps(r, ensure_ascii=False))] one after
    the other; the write itself is left out here, it succeeds on the ASCII
    strings of the model ([transform_loop_writing] below has it). *)
Fixpoint transform_loop (objs : list (result pyval)) (max_lines : option Z)
    (count : Z) : result (list pydict) :=
  match objs with
  | [] => Ok []
  | next :: rest =>
      bind next (fun obj =>
      bind (py_dict obj) (fun r =>
      bind (transform_record r) (fun r' =>
      let count := count + 1 in
      let stop :=
        match max_lines with
        | Some n => negb (n =? 0) && (n <=? count)
        | None => false
        end in
      if stop then Ok [r']
      else bind (transform_loop rest max_lines count) (fun out => Ok (r' :: out)))))
  end.

Definition transform_reviews (src : source) (max_lines : option Z)
    : result (list pydict) :=
  transform_loop (_iter_reviews src) max_lines 0.

Section Writing.

(** [write r] is [fout.write(json.dumps(r, ensure_ascii=False) + "\n")] on
    the file opened with [encoding="utf-8"]: it returns, or raises (a
    [UnicodeEncodeError] for a string that holds a lone surrogate). *)
Variable write : pydict -> result unit.

(** The loop with the write as a step: a write that raises ends the run,
    before the count is taken and before the cap is looked at. *)
Fixpoint transform_loop_writing (objs : list (result pyval))
    (max_lines : option Z) (count : Z) : result (list pydict) :=
  match objs with
  | [] => Ok []
  | next :: rest =>
      bind next (fun obj =>
      bind (py_dict obj) (fun r =>
      bind (transform_record r) (fun r' =>
      bind (write r') (fun _ =>
      let count := count + 1 in
      let stop :=
        match max_lines with
        | Some n => negb (n =? 0) && (n <=? count)
        | None => false
        end in
      if stop then Ok [r']
      else bind (transform_loop_writing rest max_lines count)
             (fun out => Ok (r' :: out))))))
  end.

Definition transform_reviews_writing (src : source) (max_lines : option Z)
    : result (list pydict) :=
  transform_loop_writing (_iter_reviews src) max_lines 0.

End Writing.

End Reviews.

End TransformData.

(* ================================================================== *)
(** * [compute_app_kpis.py] *)
(* ================================================================== *)

Module ComputeAppKpis.
Import Py.

(** The dataclass [AppAgg]; [first_date] and [last_date] hold whatever the
    records carry as a date, [None] at first. *)
Record AppAgg : Type := mkAppAgg {
  app_id : pyval;
  num_reviews : Z;
  rated_reviews : Z;
  score_sum : spec_float;
  low_rated_reviews : Z;
  first_date : pyval;
  last_date : pyval
}.

(** [AppAgg(app_id=app_id)]: the defaults of the dataclass. *)
Definition new_agg (id : pyval) : AppAgg :=
  mkAppAgg id 0 0 (S754_zero false) 0 VNone VNone.

(** [first is None or date_str < first] and the like. *)
Definition none_or (cmp : result bool) (current : pyval) : result bool :=
  if is_none current then Ok true else cmp.

Definition update (self : AppAgg) (score : option Z) (date_str : pyval)
    : result AppAgg :=
  (* Count every review *)
  let n := num_reviews self + 1 in
  (* Ratings-based stats *)
  bind
    (match score with
     | Some sc =>
         bind (float_of_int sc) (fun f =>
         Ok (rated_reviews self + 1,
             fadd (score_sum self) f,
             if sc <=? 2 then low_rated_reviews self + 1 else low_rated_reviews self))
     | None => Ok (rated_reviews self, score_sum self, low_rated_reviews self)
     end) (fun stats =>
  let '(rated, total, low) := stats in
  (* Dates: keep min / max on comparable strings (ISO) *)
  bind
    (if truthy date_str then
       bind (none_or (py_lt date_str (first_date self)) (first_date self)) (fun lt =>
       let first := if lt then date_str else first_date self in
       bind (none_or (py_gt date_str (last_date self)) (last_date self)) (fun gt =>
       let last := if gt then date_str else last_date self in
       Ok (first, last)))
     else Ok (first_date self, last_date self)) (fun dates =>
  Ok (mkAppAgg (app_id self) n rated total low (fst dates) (snd dates)))).

Definition hundred : spec_float := float_of_Z 100.

(** [round(x, 3) if x is not None else ""]. *)
Definition rounded_or_empty (x : option spec_float) : pyval :=
  match x with
  | Some f => VFloat (round3 f)
  | None => VStr ""
  end.

Definition to_row (self : AppAgg) : result pydict :=
  bind
    (if 0 <? rated_reviews self then
       bind (float_of_int (rated_reviews self)) (fun n =>
       bind (fdiv (score_sum self) n) (fun avg =>
       bind (true_div (low_rated_reviews self) (rated_reviews self)) (fun frac =>
       Ok (Some avg, Some (fmul frac hundred)))))
     else Ok (None, None)) (fun stats =>
  Ok [(VStr "appId", app_id self);
      (VStr "num_reviews", VInt (num_reviews self));
      (VStr "avg_rating", rounded_or_empty (fst stats));
      (VStr "low_rating_pct", rounded_or_empty (snd stats));
      (VStr "first_review_date", py_or (first_date self) (VStr ""));
      (VStr "last_review_date", py_or (last_date self) (VStr ""))]).

(** The [aggregates] dictionary, in insertion order. *)
Definition aggregates : Type := list (pyval * AppAgg).

Fixpoint find_agg (id : pyval) (aggs : aggregates) : option AppAgg :=
  match aggs with
  | [] => None
  | (k, a) :: aggs' => if key_eqb k id then Some a else find_agg id aggs'
  end.

Fixpoint store_agg (id : pyval) (a : AppAgg) (aggs : aggregates) : aggregates :=
  match aggs with
  | [] => [(id, a)]
  | (k, a') :: aggs' =>
      if key_eqb k id then (k, a) :: aggs' else (k, a') :: store_agg id a aggs'
  end.

(** [obj.get(name)]: only a [dict] has the method. *)
Definition obj_get (obj : pyval) (name : string) : result pyval :=
  match obj with
  | VDict d => Ok (get d name)
  | _ => Raise AttributeError
  end.

(** What the loop does with one decoded object. *)
Definition process_obj (aggs : aggregates) (obj : pyval) : result aggregates :=
  bind (obj_get obj "appId") (fun id =>
  if negb (truthy id) then Ok aggs
  else
    bind (obj_get obj "score") (fun score =>
    bind (if is_int_or_float score
          then bind (py_int score) (fun z => Ok (Some z))
          else Ok None) (fun score_val =>
    (* Prefer normalized ISO timestamp from transform_data.py *)
    bind (obj_get obj "at_iso") (fun at_iso =>
    bind (if truthy at_iso then Ok at_iso else obj_get obj "at") (fun date_str =>
    if negb (hashable id) then Raise TypeError
    else
      let agg :=
        match find_agg id aggs with
        | Some a => a
        | None => new_agg id
        end in
      bind (update agg score_val date_str) (fun agg' =>
      Ok (store_agg id agg' aggs))))))).

(** [sorted(keys)]: a stable insertion sort with [<]; it raises exactly
    when two of the keys cannot be compared. *)
Fixpoint insert_key (x : pyval) (l : list pyval) : result (list pyval) :=
  match l with
  | [] => Ok [x]
  | y :: l' =>
      bind (py_lt x y) (fun lt =>
      if lt then Ok (x :: l)
      else bind (insert_key x l') (fun r => Ok (y :: r)))
  end.

Fixpoint sorted (l : list pyval) : result (list pyval) :=
  match l with
  | [] => Ok []
  | x :: l' => bind (sorted l') (insert_key x)
  end.

Fixpoint rows_for (aggs : aggregates) (ids : list pyval) : result (list pydict) :=
  match ids with
  | [] => Ok []
  | id :: ids' =>
      match find_agg id aggs with
      | Some a =>
          bind (to_row a) (fun row =>
          bind (rows_for aggs ids') (fun rows => Ok (row :: rows)))
      | None => rows_for aggs ids'
      end
  end.

(** The rows written after the header, in order. *)
Definition write_rows (aggs : aggregates) : result (list pydict) :=
  bind (sorted (map fst aggs)) (rows_for aggs).

(** The aggregation of a stream of objects already decoded. *)
Fixpoint aggregate (aggs : aggregates) (objs : list pyval) : result aggregates :=
  match objs with
  | [] => Ok aggs
  | obj :: rest => bind (process_obj aggs obj) (fun aggs' => aggregate aggs' rest)
  end.

Section Lines.

Variable json_loads : string -> result pyval.

Fixpoint read_lines (aggs : aggregates) (lines : list string) : result aggregates :=
  match lines with
  | [] => Ok aggs
  | line :: rest =>
      let line := strip line in
      if (line =? "")%string then read_lines aggs rest
      else
        match json_loads line with
        | Raise _ =>
            (* Skip malformed lines *)
            read_lines aggs rest
        | Ok obj => bind (process_obj aggs obj) (fun aggs' => read_lines aggs' rest)
        end
  end.

Definition compute_app_kpis (lines : list string) : result (list pydict) :=
  bind (read_lines [] lines) write_rows.

End Lines.

End ComputeAppKpis.

(* ================================================================== *)
(** * [compute_daily_metrics.py] *)
(* ================================================================== *)

Module ComputeDailyMetrics.
Import Py PyTime.

Definition obj_get := ComputeAppKpis.obj_get.

(** [raw[i] == "-"]. *)
Definition dash_at (i : nat) (raw : string) : bool :=
  match String.get i raw with
  | Some c => Ascii.eqb c "-"
  | None => false
  end.

Definition _extract_date (obj : pyval) : result (option string) :=
  bind (obj_get obj "at_iso") (fun at_iso =>
  bind (if truthy at_iso then Ok at_iso else obj_get obj "at") (fun raw =>
  if negb (truthy raw) then Ok None
  else
    match raw with
    | VStr s =>
        (* If already ISO with date prefix, just slice the date part *)
        if (10 <=? len s) && dash_at 4 s && dash_at 7 s then Ok (Some (take 10 s))
        else
          (* Fallback: try parsing "YYYY-MM-DD HH:MM:SS" *)
          match strptime s "%Y-%m-%d %H:%M:%S" with
          | Ok dt => Ok (Some (date_isoformat dt))
          | Raise _ => Ok None
          end
    | _ => Ok None
    end)).

(** One entry of [daily]: [(count_reviews, count_rated, sum_scores)]. *)
Definition entry : Type := (Z * Z * spec_float)%type.

Definition daily_map : Type := list (string * entry).

Definition default_entry : entry := (0, 0, S754_zero false).

Fixpoint find_day (d : string) (daily : daily_map) : option entry :=
  match daily with
  | [] => None
  | (k, e) :: daily' => if (k =? d)%string then Some e else find_day d daily'
  end.

Fixpoint store_day (d : string) (e : entry) (daily : daily_map) : daily_map :=
  match daily with
  | [] => [(d, e)]
  | (k, e') :: daily' =>
      if (k =? d)%string then (k, e) :: daily' else (k, e') :: store_day d e daily'
  end.

Definition process_obj (daily : daily_map) (obj : pyval) : result daily_map :=
  bind (_extract_date obj) (fun date =>
  match date with
  | None => Ok daily
  | Some date_str =>
      if (date_str =? "")%string then Ok daily
      else
        bind (obj_get obj "score") (fun score =>
        bind (match score with
              | VInt z => bind (float_of_int z) (fun f => Ok (1, f))
              | VBool b => Ok (1, float_of_Z (if b then 1 else 0))
              | VFloat f => Ok (1, f)
              | _ => Ok (0, S754_zero false)
              end) (fun rs =>
        let '(count_reviews, count_rated, sum_scores) :=
          match find_day date_str daily with
          | Some e => e
          | None => default_entry
          end in
        Ok (store_day date_str
              (count_reviews + 1, count_rated + fst rs, fadd sum_scores (snd rs))
              daily)))
  end).

Fixpoint insert_str (x : string) (l : list string) : list string :=
  match l with
  | [] => [x]
  | y :: l' => if String.ltb x y then x :: l else y :: insert_str x l'
  end.

(** [sorted(daily.keys())]. *)
Definition sorted (l : list string) : list string := fold_right insert_str [] l.

Definition row_of (date_str : string) (e : entry) : result pydict :=
  let '(count_reviews, count_rated, sum_scores) := e in
  bind (if 0 <? count_rated then
          bind (float_of_int count_rated) (fun n =>
          bind (fdiv sum_scores n) (fun q => Ok (VFloat (round3 q))))
        else Ok (VStr "")) (fun avg =>
  Ok [(VStr "date", VStr date_str);
      (VStr "daily_num_reviews", VInt count_reviews);
      (VStr "daily_avg_rating", avg)]).

Fixpoint rows_for (daily : daily_map) (dates : list string) : result (list pydict) :=
  match dates with
  | [] => Ok []
  | d :: dates' =>
      match find_day d daily with
      | Some e =>
          bind (row_of d e) (fun row =>
          bind (rows_for daily dates') (fun rows => Ok (row :: rows)))
      | None => rows_for daily dates'
      end
  end.

Definition write_rows (daily : daily_map) : result (list pydict) :=
  rows_for daily (sorted (map fst daily)).

Section Lines.

Variable json_loads : string -> result pyval.

Fixpoint read_lines (daily : daily_map) (lines : list string) : result daily_map :=
  match lines with
  | [] => Ok daily
  | line :: rest =>
      let line := strip line in
      if (line =? "")%string then read_lines daily rest
      else
        match json_loads line with
        | Raise _ => read_lines daily rest
        | Ok obj => bind (process_obj daily obj) (fun daily' => read_lines daily' rest)
        end
  end.

Definition compute_daily_metrics (lines : list string) : result (list pydict) :=
  bind (read_lines [] lines) write_rows.

End Lines.

End ComputeDailyMetrics.

(* ================================================================== *)
(** * [flag_inconsistent_sentiment.py] *)
(* ================================================================== *)

Module FlagInconsistentSentiment.
Import Py.

Definition obj_get := ComputeAppKpis.obj_get.

Definition NEGATIVE_TERMS : list string :=
  ["bad"; "terrible"; "horrible"; "awful"; "worst"; "scam"; "refund"; "bug";
   "broken"; "crash"; "doesn't work"; "doesnt work"; "waste"; "useless"].

Definition POSITIVE_TERMS : list string :=
  ["great"; "excellent"; "amazing"; "love"; "awesome"; "fantastic"; "perfect";
   "very good"; "works well"; "helpful"].

(** [any(term in t for term in terms)]. *)
Definition any_term_in (terms : list string) (t : string) : bool :=
  existsb (fun term => contains term t) terms.

Definition score_text (text : pyval) : result Z :=
  match text with
  | VStr s =>
      let t := lower s in
      let neg := any_term_in NEGATIVE_TERMS t in
      let pos := any_term_in POSITIVE_TERMS t in
      if neg && negb pos then Ok (-1)
      else if pos && negb neg then Ok 1
      else Ok 0
  | _ => Raise AttributeError
  end.

(** [score >= n] and [score <= n] for an [int] constant [n]. *)
Definition ge_int (score : pyval) (n : Z) : result bool :=
  match as_num score with
  | Some x => Ok (num_le (NInt n) x)
  | None => Raise TypeError
  end.

Definition le_int (score : pyval) (n : Z) : result bool :=
  match as_num score with
  | Some x => Ok (num_le x (NInt n))
  | None => Raise TypeError
  end.

(** [a and b], where [b] is evaluated only when [a] holds. *)
Definition and_then (a : bool) (b : result bool) : result bool :=
  if a then b else Ok false.

Definition is_contradictory (review : pyval) : result bool :=
  bind (obj_get review "score") (fun score =>
  bind (obj_get review "content") (fun c =>
  let content := py_or c (VStr "") in
  if is_none score then Ok false
  else
    bind (score_text content) (fun text_score =>
    bind (and_then (text_score <? 0) (ge_int score 4)) (fun c1 =>
    if c1 then Ok true
    else
      bind (and_then (0 <? text_score) (le_int score 2)) (fun c2 =>
      if c2 then Ok true else Ok false))))).

Section Lines.

Variable json_loads : string -> result pyval.

(** The loop of [main]: the rows collected for the report. *)
Fixpoint main (lines : list string) : result (list pydict) :=
  match lines with
  | [] => Ok []
  | line :: rest =>
      let line := strip line in
      if (line =? "")%string then main rest
      else
        bind (json_loads line) (fun obj =>
        bind (is_contradictory obj) (fun flagged =>
        if flagged then
          bind (obj_get obj "reviewId") (fun review_id =>
          bind (obj_get obj "appId") (fun id =>
          bind (obj_get obj "score") (fun score =>
          bind (obj_get obj "content") (fun content =>
          bind (main rest) (fun rows =>
          Ok ([(VStr "reviewId", review_id); (VStr "appId", id);
               (VStr "score", score); (VStr "content", content)] :: rows))))))
        else main rest))
  end.

End Lines.

End FlagInconsistentSentiment.

(* ================================================================== *)
(** * Notions the properties are stated with *)
(* ================================================================== *)

Module Spec.
Import Py PyTime.

(** An integer or null. *)
Definition int_or_null (v : pyval) : Prop := v = VNone \/ exists z, v = VInt z.

(** An integer between 1 and 5, or null. *)
Definition rating_or_null (v : pyval) : Prop :=
  v = VNone \/ exists z, v = VInt z /\ 1 <= z <= 5.

(** A non-negative integer, or null. *)
Definition count_or_null (v : pyval) : Prop :=
  v = VNone \/ exists z, v = VInt z /\ 0 <= z.

(** What [int()] makes of a value, with null for a value it rejects. *)
Definition coerced (v : pyval) : pyval :=
  match py_int v with
  | Ok z => VInt z
  | Raise _ => VNone
  end.

(** The value of a string of decimal digits; [None] for any other string. *)
Fixpoint decimal_from (acc : Z) (s : string) : option Z :=
  match s with
  | EmptyString => Some acc
  | String c s' => if is_digit c then decimal_from (10 * acc + digit_val c) s' else None
  end.

Definition decimal (s : string) : option Z :=
  match s with
  | EmptyString => None
  | _ => decimal_from 0 s
  end.

Definition char_at (i : nat) (c : ascii) (s : string) : bool :=
  match String.get i s with
  | Some x => Ascii.eqb x c
  | None => false
  end.

(** The fields of a string of the shape [YYYY-MM-DDTHH:MM:SS+00:00]. *)
Definition iso_fields (s : string) : option datetime :=
  if (String.length s =? 25)%nat && char_at 4 "-" s && char_at 7 "-" s
     && char_at 10 "T" s && char_at 13 ":" s && char_at 16 ":" s
     && (substring 19 6 s =? "+00:00")%string
  then
    match decimal (substring 0 4 s), decimal (substring 5 2 s),
          decimal (substring 8 2 s), decimal (substring 11 2 s),
          decimal (substring 14 2 s), decimal (substring 17 2 s) with
    | Some y, Some m, Some d, Some hh, Some mm, Some ss =>
        Some (mk_datetime y m d hh mm ss)
    | _, _, _, _, _, _ => None
    end
  else None.

(** A validated ISO-8601 timestamp in UTC: the shape above, with a date
    and a time of day that exist. *)
Definition is_iso_utc (s : string) : bool :=
  match iso_fields s with
  | Some dt => valid dt
  | None => false
  end.

(** [term] occurs in [text]. *)
Definition occurs (term text : string) : Prop :=
  exists pre post, text = (pre ++ term ++ post)%string.

(** Some term of the list occurs in the lower-cased text. *)
Definition matches (terms : list string) (text : string) : Prop :=
  exists term, In term terms /\ occurs term (lower text).

(** The polarity of a text: negative when a negative term matches and no
    positive term does, positive the other way round. *)
Definition negative_text (text : string) : Prop :=
  matches FlagInconsistentSentiment.NEGATIVE_TERMS text
  /\ ~ matches FlagInconsistentSentiment.POSITIVE_TERMS text.

Definition positive_text (text : string) : Prop :=
  matches FlagInconsistentSentiment.POSITIVE_TERMS text
  /\ ~ matches FlagInconsistentSentiment.NEGATIVE_TERMS text.

(** [score >= n] and [score <= n] for a numeric score and an integer [n];
    a float is compared by its exact value, and a NaN is neither. *)
Definition score_ge (x : num) (n : Z) : Prop :=
  match x with
  | NInt z => n <= z
  | NFloat f => float_compare_Z f n = Some Gt \/ float_compare_Z f n = Some Eq
  end.

Definition score_le (x : num) (n : Z) : Prop :=
  match x with
  | NInt z => z <= n
  | NFloat f => float_compare_Z f n = Some Lt \/ float_compare_Z f n = Some Eq
  end.

(** An install count that is absent (null) or a value [int()] accepts: an
    integer, a boolean, a finite float, a string that spells an integer. *)
Definition accepted_count (v : pyval) : bool := is_none v || is_ok (py_int v).

(** [installs] is a string with a digit in it. *)
Definition installs_has_digit (app : pydict) : bool :=
  match get app "installs" with
  | VStr s => str_exists is_digit s
  | _ => false
  end.

(** The value of [minInstalls] does not reach an [int()] that rejects it:
    it is an accepted count, or it counts as absent and is replaced by the
    digits of [installs]. *)
Definition min_installs_ok (app : pydict) : bool :=
  accepted_count (get app "minInstalls")
  || (negb (truthy (get app "minInstalls")) && installs_has_digit app).

(** The format [transform_reviews] and [_extract_date] parse exactly. *)
Definition exact_format : string := "%Y-%m-%d %H:%M:%S".

(** A string of ten characters or more with a dash at positions 4 and 7. *)
Definition date_shaped (s : string) : bool :=
  (10 <=? len s) && ComputeDailyMetrics.dash_at 4 s && ComputeDailyMetrics.dash_at 7 s.

(** The line holds a review from which the date [d] is extracted. *)
Definition dated_as (json_loads : string -> result pyval) (d line : string) : bool :=
  if (strip line =? "")%string then false
  else
    match json_loads (strip line) with
    | Ok obj =>
        match ComputeDailyMetrics._extract_date obj with
        | Ok (Some d') => (d' =? d)%string
        | _ => false
        end
    | Raise _ => false
    end.

(** The reviews counted so far for a date in the [daily] dictionary. *)
Definition count_of (d : string) (daily : ComputeDailyMetrics.daily_map) : Z :=
  match ComputeDailyMetrics.find_day d daily with
  | Some (c, _, _) => c
  | None => 0
  end.

(** The number of lines that hold a review dated [d]. *)
Definition count_dated (json_loads : string -> result pyval) (d : string)
    (lines : list string) : Z :=
  Z.of_nat (List.length (filter (dated_as json_loads d) lines)).

(** [name in d] for a string key. *)
Definition has_key (d : pydict) (name : string) : bool :=
  match lookup (VStr name) d with
  | Some _ => true
  | None => false
  end.

(** The keys [transform_reviews] writes itself. *)
Definition derived_keys : list string :=
  ["at_iso"; "at_epoch"; "score"; "thumbsUpCount"].

Definition is_derived_key (k : string) : bool :=
  existsb (String.eqb k) derived_keys.

(** Every key of the dictionary is a string. *)
Definition str_keys (d : pydict) : bool := forallb (fun kv => is_str (fst kv)) d.

(** The value of the last item whose key, in lower case, is [ln]. *)
Fixpoint last_with_key (ln : string) (items : pydict) : option pyval :=
  match items with
  | [] => None
  | (k, v) :: rest =>
      match last_with_key ln rest with
      | Some x => Some x
      | None =>
          match k with
          | VStr s => if (lower s =? ln)%string then Some v else None
          | _ => None
          end
      end
  end.

(** The value a mapping holds for a field name, case apart; null when it
    holds none. *)
Definition field_value (mapping : pydict) (name : string) : pyval :=
  match last_with_key (lower name) mapping with
  | Some v => v
  | None => VNone
  end.

(** The value of the first candidate name for which the mapping holds a
    value that is not null. *)
Fixpoint first_present (mapping : pydict) (candidates : list string) : pyval :=
  match candidates with
  | [] => VNone
  | name :: rest =>
      if is_none (field_value mapping name) then first_present mapping rest
      else field_value mapping name
  end.

(** The keys of a record written from a CSV row. *)
Definition csv_record_keys : list string :=
  map fst TransformData.review_fields ++ ["at_iso"; "at_epoch"].

(** The record written for a CSV row holds the coerced first-present values. *)
Definition csv_record_of (row r' : pydict) : Prop :=
  (forall k, has_key r' k = existsb (String.eqb k) csv_record_keys)
  /\ get r' "score" = coerced (first_present row ["score"; "rating"; "stars"])
  /\ get r' "thumbsUpCount"
     = coerced (first_present row ["thumbsUpCount"; "likes"; "helpful_count"])
  /\ get r' "content" = first_present row ["content"; "review_text"; "text"; "body"]
  /\ get r' "appId" = first_present row ["appId"; "app_id"]
  /\ get r' "at" = first_present row ["at"; "timestamp"; "created_at"].

(** Lexicographic combination of two comparisons. *)
Definition lexc (c k : comparison) : comparison :=
  match c with
  | Eq => k
  | Lt => Lt
  | Gt => Gt
  end.

(** The order of two dates and times of day, field by field. *)
Definition dt_compare (a b : datetime) : comparison :=
  lexc (year a ?= year b)
    (lexc (month a ?= month b)
       (lexc (day a ?= day b)
          (lexc (hour a ?= hour b)
             (lexc (minute a ?= minute b) (second a ?= second b))))).

Definition days_in_year (y : Z) : Z := if is_leap y then 366 else 365.

(** The days before a month and the length of a month in a common year. *)
Definition month_offset (m : Z) : Z :=
  match m with
  | 2 => 31 | 3 => 59 | 4 => 90 | 5 => 120 | 6 => 151 | 7 => 181
  | 8 => 212 | 9 => 243 | 10 => 273 | 11 => 304 | 12 => 334
  | _ => 0
  end.

Definition month_length (m : Z) : Z :=
  match m with
  | 2 => 28 | 4 => 30 | 6 => 30 | 9 => 30 | 11 => 30
  | _ => 31
  end.

(** The objects an aggregator processes: those of the lines that are not
    blank and that the decoder accepts. *)
Definition decoded (json_loads : string -> result pyval) (lines : list string)
    : list pyval :=
  flat_map (fun line =>
              if (strip line =? "")%string then []
              else match json_loads (strip line) with
                   | Ok obj => [obj]
                   | Raise _ => []
                   end) lines.

(** The number of elements of a list that satisfy a test. *)
Definition count {A : Type} (p : A -> bool) (l : list A) : Z :=
  Z.of_nat (List.length (filter p l)).

(** The object is a review of the app [s]. *)
Definition review_of (s : string) (obj : pyval) : bool :=
  match obj with
  | VDict d =>
      match get d "appId" with
      | VStr s' => (s' =? s)%string && negb (s =? "")%string
      | _ => false
      end
  | _ => false
  end.

(** The object is a review of the app [s] with a numeric score. *)
Definition rated_review_of (s : string) (obj : pyval) : bool :=
  review_of s obj &&
  match obj with
  | VDict d => is_int_or_float (get d "score")
  | _ => false
  end.

(** The reviews counted so far for the app [s], all and rated. *)
Definition num_of (s : string) (aggs : ComputeAppKpis.aggregates) : Z :=
  match ComputeAppKpis.find_agg (VStr s) aggs with
  | Some a => ComputeAppKpis.num_reviews a
  | None => 0
  end.

Definition rated_of (s : string) (aggs : ComputeAppKpis.aggregates) : Z :=
  match ComputeAppKpis.find_agg (VStr s) aggs with
  | Some a => ComputeAppKpis.rated_reviews a
  | None => 0
  end.

(** An entry of [aggregates] is kept under the [app_id] it holds, and it
    has counted a review. *)
Definition agg_entry_ok (ka : pyval * ComputeAppKpis.AppAgg) : Prop :=
  ComputeAppKpis.app_id (snd ka) = fst ka
  /\ 1 <= ComputeAppKpis.num_reviews (snd ka).

(** The strict order of strings that [<] and [sorted] use. *)
Definition str_lt (a b : string) : Prop := String.ltb a b = true.

(** An entry of [daily] has counted a review; the keys of [daily] are
    distinct. *)
Definition day_entry_ok (ke : string * ComputeDailyMetrics.entry) : Prop :=
  1 <= fst (fst (snd ke)).

Definition daily_ok (daily : ComputeDailyMetrics.daily_map) : Prop :=
  NoDup (map fst daily) /\ Forall day_entry_ok daily.

(** The date the KPI aggregator reads from a review: [at_iso], or [at]. *)
Definition kpi_date (obj : pyval) : pyval :=
  match obj with
  | VDict d => py_or (get d "at_iso") (get d "at")
  | _ => VNone
  end.

(** The dates of the reviews of the app [s] that are strings and not
    empty, in the order of the stream. *)
Definition dates_of (s : string) (objs : list pyval) : list string :=
  flat_map (fun obj =>
              if Spec.review_of s obj then
                match kpi_date obj with
                | VStr x => if (x =? "")%string then [] else [x]
                | _ => []
                end
              else []) objs.

(** The date of every review of the app [s] is a string, or counts as
    absent. *)
Definition dates_are_strings (s : string) (objs : list pyval) : bool :=
  forallb (fun obj =>
             negb (Spec.review_of s obj)
             || is_str (kpi_date obj) || negb (truthy (kpi_date obj))) objs.

(** [lo] and [hi] are the least and the greatest of the strings [ds], or
    [none] when there is no string. *)
Definition extremes (none : pyval) (ds : list string) (lo hi : pyval) : Prop :=
  match ds with
  | [] => lo = none /\ hi = none
  | _ :: _ =>
      exists m M,
        lo = VStr m /\ hi = VStr M /\ In m ds /\ In M ds
        /\ (forall x, In x ds -> String.ltb x m = false)
        /\ (forall x, In x ds -> String.ltb M x = false)
  end.

Definition first_of (s : string) (aggs : ComputeAppKpis.aggregates) : pyval :=
  match ComputeAppKpis.find_agg (VStr s) aggs with
  | Some a => ComputeAppKpis.first_date a
  | None => VNone
  end.

Definition last_of (s : string) (aggs : ComputeAppKpis.aggregates) : pyval :=
  match ComputeAppKpis.find_agg (VStr s) aggs with
  | Some a => ComputeAppKpis.last_date a
  | None => VNone
  end.

(** The [appId] of every object is a string, or counts as absent. *)
Definition app_ids_are_strings (objs : list pyval) : bool :=
  forallb (fun obj =>
             match obj with
             | VDict d => is_str (get d "appId") || negb (truthy (get d "appId"))
             | _ => true
             end) objs.

(** The keys of [aggregates] are distinct strings. *)
Definition aggs_ok (aggs : ComputeAppKpis.aggregates) : Prop :=
  exists ks, map fst aggs = map VStr ks /\ NoDup ks.

(** The line is blank, or it holds a record the Review Transformer wrote
    for a raw review whose content is a text or counts as absent. *)
Definition transformed_line (json_loads : string -> result pyval) (line : string)
    : Prop :=
  strip line = ""
  \/ exists r r',
       json_loads (strip line) = Ok (VDict r')
       /\ TransformData.transform_record r = Ok r'
       /\ is_str (get r "content") || negb (truthy (get r "content")) = true.

(** The reviews the flagger flags, in the order of the stream. *)
Definition flagged_reviews (objs : list pyval) : list pydict :=
  flat_map (fun obj =>
              match obj, FlagInconsistentSentiment.is_contradictory obj with
              | VDict d, Ok true => [d]
              | _, _ => []
              end) objs.

(** The row of the report for a review. *)
Definition report_row (d : pydict) : pydict :=
  [(VStr "reviewId", get d "reviewId"); (VStr "appId", get d "appId");
   (VStr "score", get d "score"); (VStr "content", get d "content")].

(** A JSON object. *)
Definition is_dict (v : pyval) : bool :=
  match v with
  | VDict _ => true
  | _ => false
  end.

(** A JSON value that is null, a boolean or a number. *)
Definition is_scalar (v : pyval) : bool :=
  match v with
  | VNone | VBool _ | VInt _ | VFloat _ => true
  | _ => false
  end.

(** The record [out] is what the loop writes for the object [obj]. *)
Definition record_of (obj : pyval) (out : pydict) : Prop :=
  exists r, obj = VDict r /\ TransformData.transform_record r = Ok out.

(** The shape [xxxx-xx-xx]: ten characters, the fifth and the eighth a
    dash. *)
Definition day_shaped (s : string) : Prop :=
  len s = 10
  /\ ComputeDailyMetrics.dash_at 4 s = true
  /\ ComputeDailyMetrics.dash_at 7 s = true.

(** The integer a cell holds; 0 for any other value. *)
Definition int_of (v : pyval) : Z :=
  match v with
  | VInt z => z
  | _ => 0
  end.

(** The sum of an integer column over the rows. *)
Definition column_sum (name : string) (rows : list pydict) : Z :=
  fold_right (fun row acc => int_of (get row name) + acc) 0 rows.

(** The line holds a review from which some date is extracted. *)
Definition dated (json_loads : string -> result pyval) (line : string) : bool :=
  if (strip line =? "")%string then false
  else
    match json_loads (strip line) with
    | Ok obj =>
        match ComputeDailyMetrics._extract_date obj with
        | Ok (Some _) => true
        | _ => false
        end
    | Raise _ => false
    end.

(** The reviews counted in the whole of [daily]. *)
Definition daily_total (daily : ComputeDailyMetrics.daily_map) : Z :=
  fold_right (fun ke acc => fst (fst (snd ke)) + acc) 0 daily.

(** The sum of [f] over a list of strings. *)
Definition sum_over (f : string -> Z) (l : list string) : Z :=
  fold_right (fun x acc => f x + acc) 0 l.

(** The object is a review that carries an [appId]. *)
Definition has_app_id (obj : pyval) : bool :=
  match obj with
  | VDict d => truthy (get d "appId")
  | _ => false
  end.

(** The reviews counted in the whole of [aggregates]. *)
Definition kpi_total (aggs : ComputeAppKpis.aggregates) : Z :=
  fold_right (fun ka acc => ComputeAppKpis.num_reviews (snd ka) + acc) 0 aggs.

(** The check of one offset. *)
Definition month_day_ok (leap : bool) (k : Z) : bool :=
  let '(m, d) := month_day leap k in
  (1 <=? m) && (m <=? 12) && (1 <=? d)
  && (d <=? Spec.month_length m + (if (m =? 2) && leap then 1 else 0))
  && (Spec.month_offset m + (if (2 <? m) && leap then 1 else 0) + d =? k + 1).

(** The first and the last second of [datetime], counted from the epoch. *)
Definition min_timestamp : Z := -62135596800.
Definition max_timestamp : Z := 253402300799.

(** A count that is present and that [int()] rejects with [e]. *)
Definition rejected_count (v : pyval) (e : exc) : Prop :=
  is_none v = false /\ py_int v = Raise e.

(** The line holds a review dated [d] whose score is a number. *)
Definition rated_on (json_loads : string -> result pyval) (d line : string) : bool :=
  Spec.dated_as json_loads d line
  && match json_loads (strip line) with
     | Ok (VDict r) => is_int_or_float (get r "score")
     | _ => false
     end.

(** The rated reviews counted so far for a date in [daily]. *)
Definition rated_on_day (d : string) (daily : ComputeDailyMetrics.daily_map) : Z :=
  match ComputeDailyMetrics.find_day d daily with
  | Some (_, r, _) => r
  | None => 0
  end.

(** The text [YYYY-MM-DD HH:MM:SS] of a date and time. *)
Definition canonical_text (dt : datetime) : string :=
  pad4 (year dt) ++ "-" ++ pad2 (month dt) ++ "-" ++ pad2 (day dt) ++ " "
  ++ pad2 (hour dt) ++ ":" ++ pad2 (minute dt) ++ ":" ++ pad2 (second dt).

(** The expression of a directive of the table. *)
Definition dir (d : ascii) : re :=
  match directive d with
  | Some r => r
  | None => REmpty
  end.

(** The expression [TimeRE] compiles the exact format to. *)
Definition exact_re : re :=
  RSeq (dir "Y") (RSeq (chr "-") (RSeq (dir "m") (RSeq (chr "-")
    (RSeq (dir "d") (RSeq (RPlus is_space) (RSeq (dir "H") (RSeq (chr ":")
      (RSeq (dir "M") (RSeq (chr ":") (RSeq (dir "S") REmpty)))))))))).

End Spec.

(* ================================================================== *)
(** * Records and decoders used as concrete inputs *)
(* ================================================================== *)

Module Samples.
Import Py.

Definition review_score_6 : pydict :=
  [(VStr "reviewId", VStr "r1"); (VStr "appId", VStr "com.example.app");
   (VStr "score", VInt 6); (VStr "content", VStr "fine")].

Definition review_at_yesterday : pydict :=
  [(VStr "reviewId", VStr "r2"); (VStr "score", VInt 4);
   (VStr "at", VStr "yesterday")].

Definition review_at_exact : pydict :=
  [(VStr "reviewId", VStr "r3"); (VStr "score", VInt 5);
   (VStr "at", VStr "2025-11-08 13:54:14")].

Definition review_at_human : pydict :=
  [(VStr "reviewId", VStr "r4"); (VStr "score", VInt 3);
   (VStr "at", VStr "Jan 5, 2026")].

Definition app_negative_installs : pydict :=
  [(VStr "appId", VStr "com.example.app"); (VStr "minInstalls", VInt (-5))].

Definition app_installs_string : pydict :=
  [(VStr "appId", VStr "com.example.app"); (VStr "installs", VStr "10,000+")].

Definition kpi_reviews : list pyval :=
  [VDict [(VStr "appId", VStr "a"); (VStr "score", VInt 5)];
   VDict [(VStr "appId", VStr "a"); (VStr "score", VInt 1)];
   VDict [(VStr "appId", VStr "b"); (VStr "score", VNone)]].

(** A decoder that rejects every line: enough to exercise the handling of
    a line that is not JSON. *)
Definition reject_all (line : string) : result pyval := Raise JSONDecodeError.

(** A decoder that knows two lines: a review without any date and a
    review with one; it rejects every other line. *)
Definition review_undated : pyval :=
  VDict [(VStr "appId", VStr "a"); (VStr "score", VInt 5)].

Definition review_dated : pyval :=
  VDict [(VStr "appId", VStr "a"); (VStr "score", VInt 4);
         (VStr "at_iso", VStr "2025-01-01T10:00:00+00:00")].

Definition two_lines (line : string) : result pyval :=
  if (line =? "undated")%string then Ok review_undated
  else if (line =? "dated")%string then Ok review_dated
  else Raise JSONDecodeError.

(** A CSV row under another naming convention, with a column the
    canonical record has no place for. *)
Definition csv_row : pydict :=
  [(VStr "Review_ID", VStr "r9"); (VStr "Author", VStr "kim");
   (VStr "Rating", VStr "4"); (VStr "text", VStr "nice");
   (VStr "likes", VStr ""); (VStr "created_at", VStr "2025-11-08 13:54:14");
   (VStr "app_id", VStr "com.example.app"); (VStr "country", VStr "fr")].

Definition new_year_2025 : PyTime.datetime := PyTime.mk_datetime 2025 1 1 0 0 0.

Definition last_second_2024 : PyTime.datetime :=
  PyTime.mk_datetime 2024 12 31 23 59 59.

(** A decoder for three lines: a review of app [a], a review without
    [appId], and a review of app [a] without score. *)
Definition review_without_app : pyval :=
  VDict [(VStr "score", VInt 1); (VStr "at_iso", VStr "2025-01-02T10:00:00+00:00")].

Definition review_unrated : pyval :=
  VDict [(VStr "appId", VStr "a"); (VStr "score", VNone)].

Definition kpi_lines (line : string) : result pyval :=
  if (line =? "rated")%string then Ok review_dated
  else if (line =? "anonymous")%string then Ok review_without_app
  else if (line =? "unrated")%string then Ok review_unrated
  else Raise JSONDecodeError.

(** A decoder for reviews of app [a] that arrive out of order: the later
    one first, then an earlier one that has only the raw [at], then one
    without date. *)
Definition review_late : pyval :=
  VDict [(VStr "appId", VStr "a"); (VStr "score", VInt 2);
         (VStr "at_iso", VStr "2025-03-01T09:30:00+00:00")].

Definition review_early_raw : pyval :=
  VDict [(VStr "appId", VStr "a"); (VStr "at_iso", VNone);
         (VStr "at", VStr "2025-01-15 08:00:00")].

Definition dated_lines (line : string) : result pyval :=
  if (line =? "late")%string then Ok review_late
  else if (line =? "early")%string then Ok review_early_raw
  else if (line =? "undated")%string then Ok review_undated
  else Raise JSONDecodeError.

(** A decoder for the reviews of two apps. *)
Definition review_of_b : pyval :=
  VDict [(VStr "appId", VStr "b"); (VStr "score", VInt 3)].

Definition two_apps (line : string) : result pyval :=
  if (line =? "b")%string then Ok review_of_b
  else if (line =? "a")%string then Ok review_undated
  else Raise JSONDecodeError.

(** A decoder that accepts one text only, braces included. *)
Definition braced (line : string) : result pyval :=
  if (line =? "{dated}")%string then Ok review_dated
  else Raise JSONDecodeError.

(** Two raw reviews, and a decoder that gives for a line the record the
    Review Transformer writes for them. *)
Definition review_loved_low : pydict :=
  [(VStr "reviewId", VStr "r7"); (VStr "appId", VStr "a");
   (VStr "score", VStr "1"); (VStr "content", VStr "I LOVE it, works well");
   (VStr "at", VStr "2025-11-08 13:54:14")].

Definition review_silent : pydict :=
  [(VStr "reviewId", VStr "r8"); (VStr "appId", VStr "a");
   (VStr "score", VInt 5); (VStr "content", VNone)].

Definition written (line : string) : result pyval :=
  if (line =? "loved")%string
  then bind (TransformData.transform_record review_loved_low) (fun r => Ok (VDict r))
  else if (line =? "silent")%string
  then bind (TransformData.transform_record review_silent) (fun r => Ok (VDict r))
  else Raise JSONDecodeError.

(** A decoder that also knows a line holding a number. *)
Definition number_line (line : string) : result pyval :=
  if (line =? "5")%string then Ok (VInt 5) else two_lines line.

(** An app read from a CSV file, with an empty cell. *)
Definition app_empty_cell : pydict := [(VStr "realInstalls", VStr "")].

(** A decoder that also knows a review whose score is not a number. *)
Definition review_nan : pyval :=
  VDict [(VStr "appId", VStr "a"); (VStr "score", VFloat S754_nan)].

Definition nan_line (line : string) : result pyval :=
  if (line =? "nan")%string then Ok review_nan else two_lines line.

(** An app read from a CSV file: every count is a string. *)
Definition app_csv_counts : pydict :=
  [(VStr "appId", VStr "com.example.app"); (VStr "minInstalls", VStr "1000");
   (VStr "realInstalls", VStr "5"); (VStr "installs", VStr "1,000+")].

(** An [installs] text of 4301 digits, one more than [int()] accepts. *)
Definition long_installs : string := Nat.iter 4301 (String "1") "".

Definition app_long_installs : pydict :=
  [(VStr "installs", VStr long_installs)].

End Samples.

(* ================================================================== *)
(** * Properties *)
(* ================================================================== *)

Import Py PyTime.

(** ** The model of the interpreter on concrete inputs *)

Example int_of_str_underscore : int_of_str " 1_0 " = Ok 10.
Proof. reflexivity. Qed.

Example int_of_str_double_underscore : int_of_str "1__0" = Raise ValueError.
Proof. reflexivity. Qed.

Example int_of_str_sign_then_space : int_of_str "+ 1" = Raise ValueError.
Proof. reflexivity. Qed.

Example strptime_single_digit_fields :
  strptime "2025-1-5 3:4:5" "%Y-%m-%d %H:%M:%S" = Ok (mk_datetime 2025 1 5 3 4 5).
Proof. vm_compute. reflexivity. Qed.

Example strptime_no_such_day :
  strptime "2025-02-29 00:00:00" "%Y-%m-%d %H:%M:%S" = Raise ValueError.
Proof. vm_compute. reflexivity. Qed.

Example strptime_leap_second :
  strptime "2025-11-08 13:54:60" "%Y-%m-%d %H:%M:%S" = Raise ValueError.
Proof. vm_compute. reflexivity. Qed.

Example strptime_trailing_text :
  strptime "2025-11-08 13:54:14+00:00" "%Y-%m-%d %H:%M:%S" = Raise ValueError.
Proof. vm_compute. reflexivity. Qed.

Example strptime_month_name_any_case :
  strptime "JANUARY 05, 2026" "%B %d, %Y" = Ok (mk_datetime 2026 1 5 0 0 0).
Proof. vm_compute. reflexivity. Qed.

Example timestamp_before_epoch :
  bind (timestamp_utc (mk_datetime 1969 12 31 23 59 59)) int_of_float = Ok (-1).
Proof. vm_compute. reflexivity. Qed.

Example true_div_one_half : true_div 1 2 = fdiv (float_of_Z 1) (float_of_Z 2).
Proof. vm_compute. reflexivity. Qed.

Example round3_of_two_thirds_of_hundred :
  bind (true_div 200 3) (fun q => Ok (round3 q)) = true_div 66667 1000.
Proof. vm_compute. reflexivity. Qed.

Example slice_without_braces : slice "abc" (find "abc" "{") (rfind "abc" "}" + 1) = "".
Proof. reflexivity. Qed.

Example normalize_installs_empty_cell :
  TransformData.normalize_installs [(VStr "realInstalls", VStr "")]
  = Raise ValueError.
Proof. reflexivity. Qed.

(** ** Dictionaries with string keys *)

Lemma key_eqb_str_refl (k : string) : key_eqb (VStr k) (VStr k) = true.
Proof. simpl. apply String.eqb_refl. Qed.

Lemma key_eqb_str_inv (k0 : pyval) (k : string) :
  key_eqb k0 (VStr k) = true -> k0 = VStr k.
Proof.
  destruct k0; simpl; try discriminate.
  intros H. apply String.eqb_eq in H. now subst.
Qed.

Lemma lookup_set_key_same (k : string) (v : pyval) (d : pydict) :
  lookup (VStr k) (set_key (VStr k) v d) = Some v.
Proof.
  induction d as [|[k0 v0] d IH]; simpl.
  - now rewrite String.eqb_refl.
  - destruct (key_eqb k0 (VStr k)) eqn:E; simpl; rewrite E; auto.
Qed.

Lemma lookup_set_key_other (k k' : string) (v : pyval) (d : pydict) :
  k <> k' -> lookup (VStr k') (set_key (VStr k) v d) = lookup (VStr k') d.
Proof.
  intros Hne. induction d as [|[k0 v0] d IH]; simpl.
  - destruct (String.eqb_spec k k'); [contradiction | reflexivity].
  - destruct (key_eqb k0 (VStr k)) eqn:E; simpl.
    + apply key_eqb_str_inv in E. subst k0. simpl.
      destruct (String.eqb_spec k k'); [contradiction | reflexivity].
    + destruct (key_eqb k0 (VStr k')); auto.
Qed.

Lemma get_set_same (d : pydict) (k : string) (v : pyval) : get (set d k v) k = v.
Proof. unfold get, set. now rewrite lookup_set_key_same. Qed.

Lemma get_set_other (d : pydict) (k k' : string) (v : pyval) :
  k <> k' -> get (set d k v) k' = get d k'.
Proof. intros H. unfold get, set. now rewrite lookup_set_key_other. Qed.

(** Rewrites a [get] through the [set]s before it. *)
Ltac get_set :=
  repeat first
    [ rewrite get_set_same
    | rewrite get_set_other by (intro; discriminate) ].

(** ** [safe_int] *)

Lemma safe_int_coerced (v : pyval) : TransformData.safe_int v = Ok (Spec.coerced v).
Proof.
  unfold TransformData.safe_int, Spec.coerced.
  destruct v; simpl; try reflexivity.
  - destruct (int_of_float f); reflexivity.
  - destruct (int_of_str s); reflexivity.
Qed.

Lemma coerced_int_or_null (v : pyval) : Spec.int_or_null (Spec.coerced v).
Proof.
  unfold Spec.coerced, Spec.int_or_null.
  destruct (py_int v); [right; eauto | now left].
Qed.

(** C8.  For every value [v], [safe_int v] returns (it never raises), its
    result is an integer or null, and it is null whenever [int(v)] raises:
    the result is the integer [int(v)] gives, or null when [int(v)] raises. *)
Theorem safe_int_never_raises (v : pyval) :
  exists x,
    TransformData.safe_int v = Ok x
    /\ Spec.int_or_null x
    /\ x = match py_int v with
           | Ok z => VInt z
           | Raise _ => VNone
           end.
Proof.
  exists (Spec.coerced v). split; [apply safe_int_coerced|].
  split; [apply coerced_int_or_null | reflexivity].
Qed.

(** ** The loop body of [transform_reviews] *)

Lemma parse_human_datetime_str (s : string) :
  TransformData.parse_human_datetime (VStr s) =
  Ok (if (s =? "")%string then VNone
      else match TransformData.first_format (VStr s) TransformData.human_formats with
           | Some iso => VStr iso
           | None => VStr (strip s)
           end).
Proof.
  unfold TransformData.parse_human_datetime. cbn [truthy].
  destruct (s =? "")%string; cbn [negb]; [reflexivity|].
  destruct (TransformData.first_format (VStr s) TransformData.human_formats);
    reflexivity.
Qed.

Lemma at_fields_ok (at_raw : pyval) :
  exists iso epoch, TransformData.at_fields at_raw = Ok (iso, epoch).
Proof.
  unfold TransformData.at_fields.
  destruct at_raw; try (now eexists; eexists).
  destruct (s =? "")%string; simpl; [now eexists; eexists|].
  match goal with |- context [try_except ?b _] => destruct b as [[i e]|] end; simpl.
  - now eexists; eexists.
  - rewrite parse_human_datetime_str. simpl. now eexists; eexists.
Qed.

(** The record written for [r], in terms of the pair [at_fields] gives. *)
Lemma transform_record_eq (r : pydict) (iso epoch : pyval) :
  TransformData.at_fields (get r "at") = Ok (iso, epoch) ->
  TransformData.transform_record r =
  Ok (set (set (set (set r "at_iso" iso) "at_epoch" epoch)
                "score" (Spec.coerced (get r "score")))
           "thumbsUpCount" (Spec.coerced (get r "thumbsUpCount"))).
Proof.
  intros H. unfold TransformData.transform_record. rewrite H.
  cbn [bind fst snd]. get_set. rewrite safe_int_coerced.
  cbn [bind]. get_set. rewrite safe_int_coerced. reflexivity.
Qed.

(** C1, as the code has it.  Every record the Review Transformer writes has
    a [score] that is an integer or null, never a string; the integer is
    what [int()] gives for the raw value, whatever its range. *)
Theorem transform_reviews_score_int_or_null (r : pydict) :
  exists r',
    TransformData.transform_record r = Ok r'
    /\ Spec.int_or_null (get r' "score")
    /\ get r' "score" = Spec.coerced (get r "score").
Proof.
  destruct (at_fields_ok (get r "at")) as (iso & epoch & H).
  eexists. split; [apply (transform_record_eq _ _ _ H)|].
  get_set. split; [apply coerced_int_or_null | reflexivity].
Qed.

(** C1, as stated, fails: a raw review with [score = 6] is written with
    [score = 6], which is not in the range 1 to 5. *)
Lemma score_out_of_range_kept :
  exists r',
    TransformData.transform_record Samples.review_score_6 = Ok r'
    /\ get r' "score" = VInt 6
    /\ ~ Spec.rating_or_null (get r' "score").
Proof.
  eexists. split; [reflexivity|]. split; [reflexivity|].
  intros [H | (z & H & Hz)]; [discriminate|].
  vm_compute in H. injection H as <-. lia.
Qed.

(** ** ISO strings *)

Lemma digit_char_spec (a : Z) :
  0 <= a <= 9 -> is_digit (digit_char a) = true /\ digit_val (digit_char a) = a.
Proof.
  intros H.
  assert (E : a = 0 \/ a = 1 \/ a = 2 \/ a = 3 \/ a = 4 \/ a = 5 \/ a = 6
              \/ a = 7 \/ a = 8 \/ a = 9) by lia.
  repeat destruct E as [E | E]; subst a; split; reflexivity.
Qed.

Lemma decimal_two_digits (a b : Z) :
  0 <= a <= 9 -> 0 <= b <= 9 ->
  Spec.decimal (String (digit_char a) (String (digit_char b) EmptyString))
  = Some (10 * a + b).
Proof.
  intros Ha Hb.
  destruct (digit_char_spec a Ha) as [Da Va], (digit_char_spec b Hb) as [Db Vb].
  unfold Spec.decimal. cbn [Spec.decimal_from].
  rewrite Da, Va, Db, Vb. f_equal; lia.
Qed.

Lemma decimal_four_digits (a b c d : Z) :
  0 <= a <= 9 -> 0 <= b <= 9 -> 0 <= c <= 9 -> 0 <= d <= 9 ->
  Spec.decimal
    (String (digit_char a) (String (digit_char b)
       (String (digit_char c) (String (digit_char d) EmptyString))))
  = Some (1000 * a + 100 * b + 10 * c + d).
Proof.
  intros Ha Hb Hc Hd.
  destruct (digit_char_spec a Ha) as [Da Va], (digit_char_spec b Hb) as [Db Vb],
           (digit_char_spec c Hc) as [Dc Vc], (digit_char_spec d Hd) as [Dd Vd].
  unfold Spec.decimal. cbn [Spec.decimal_from].
  rewrite Da, Va, Db, Vb, Dc, Vc, Dd, Vd. f_equal; lia.
Qed.

Lemma decimal_pad2 (n : Z) : 0 <= n <= 99 -> Spec.decimal (pad2 n) = Some n.
Proof.
  intros H. unfold pad2.
  rewrite decimal_two_digits; [f_equal | |]; Z.div_mod_to_equations; lia.
Qed.

Lemma decimal_pad4 (n : Z) : 0 <= n <= 9999 -> Spec.decimal (pad4 n) = Some n.
Proof.
  intros H. unfold pad4, pad2.
  rewrite decimal_four_digits; [f_equal | | | |]; Z.div_mod_to_equations; lia.
Qed.

(** The fields of a string with the separators of the ISO shape, whatever
    its other characters are. *)
Lemma iso_fields_shape (y1 y2 y3 y4 m1 m2 d1 d2 h1 h2 n1 n2 s1 s2 : ascii) :
  let str2 a b := String a (String b EmptyString) in
  Spec.iso_fields
    (String y1 (String y2 (String y3 (String y4 (String "-"
      (String m1 (String m2 (String "-" (String d1 (String d2 (String "T"
        (String h1 (String h2 (String ":" (String n1 (String n2 (String ":"
          (String s1 (String s2 "+00:00")))))))))))))))))))
  = match Spec.decimal (String y1 (String y2 (str2 y3 y4))),
          Spec.decimal (str2 m1 m2), Spec.decimal (str2 d1 d2),
          Spec.decimal (str2 h1 h2), Spec.decimal (str2 n1 n2),
          Spec.decimal (str2 s1 s2) with
    | Some y, Some m, Some d, Some hh, Some mm, Some ss =>
        Some (mk_datetime y m d hh mm ss)
    | _, _, _, _, _, _ => None
    end.
Proof. reflexivity. Qed.

Lemma days_in_month_le (y m : Z) : days_in_month y m <= 31.
Proof.
  unfold days_in_month.
  destruct (m =? 2); [destruct (is_leap y); lia|].
  destruct ((m =? 4) || (m =? 6) || (m =? 9) || (m =? 11)); lia.
Qed.

Lemma valid_bounds (dt : datetime) :
  valid dt = true ->
  1 <= year dt <= 9999 /\ 1 <= month dt <= 12 /\ 1 <= day dt <= 31
  /\ 0 <= hour dt <= 23 /\ 0 <= minute dt <= 59 /\ 0 <= second dt <= 59.
Proof.
  unfold valid, valid_date, valid_time. intros H.
  pose proof (days_in_month_le (year dt) (month dt)).
  repeat (apply andb_prop in H; destruct H as [H ?]).
  repeat match goal with
         | H : (_ <=? _) = true |- _ => apply Z.leb_le in H
         end.
  lia.
Qed.

(** What [isoformat] writes for an existing date and time is recognised. *)
Lemma isoformat_utc_fields (dt : datetime) :
  valid dt = true -> Spec.iso_fields (isoformat_utc dt) = Some dt.
Proof.
  intros Hv. pose proof (valid_bounds dt Hv) as (Hy & Hm & Hd & Hh & Hn & Hs).
  destruct dt as [y m d hh mm ss]. cbn [year month day hour minute second] in *.
  pose proof (decimal_pad4 y) as Ey. pose proof (decimal_pad2 m) as Em.
  pose proof (decimal_pad2 d) as Ed. pose proof (decimal_pad2 hh) as Eh.
  pose proof (decimal_pad2 mm) as En. pose proof (decimal_pad2 ss) as Es.
  unfold isoformat_utc, date_isoformat, pad4, pad2 in *.
  cbn [year month day hour minute second append].
  rewrite iso_fields_shape. cbv zeta.
  rewrite Ey, Em, Ed, Eh, En, Es by lia. reflexivity.
Qed.

Lemma isoformat_utc_is_iso (dt : datetime) :
  valid dt = true -> Spec.is_iso_utc (isoformat_utc dt) = true.
Proof.
  intros Hv. unfold Spec.is_iso_utc. now rewrite isoformat_utc_fields.
Qed.

(** ** [strptime] builds existing dates only *)

Lemma datetime_new_valid (y m d hh mm ss : Z) (dt : datetime) :
  datetime_new y m d hh mm ss = Ok dt -> valid dt = true.
Proof.
  unfold datetime_new.
  destruct (valid_date y m d && valid_time hh mm ss) eqn:E; [|discriminate].
  intros H. injection H as <-. exact E.
Qed.

Lemma bind_ok {A B : Type} (m : result A) (k : A -> result B) (b : B) :
  bind m k = Ok b -> exists a, m = Ok a /\ k a = Ok b.
Proof. destruct m; simpl; [eauto | discriminate]. Qed.

Lemma strptime_valid (data fmt : string) (dt : datetime) :
  strptime data fmt = Ok dt -> valid dt = true.
Proof.
  unfold strptime.
  destruct (pattern fmt); [|discriminate].
  destruct (re_match r data) as [[caps rest]|]; [|discriminate].
  destruct (negb (rest =? "")%string); [discriminate|].
  intros H.
  repeat (apply bind_ok in H; destruct H as (? & _ & H)).
  eapply datetime_new_valid; eauto.
Qed.

Lemma first_format_is_iso (s : pyval) (fmts : list string) (iso : string) :
  TransformData.first_format s fmts = Some iso -> Spec.is_iso_utc iso = true.
Proof.
  induction fmts as [|fmt fmts IH]; simpl; [discriminate|].
  destruct s; auto.
  destruct (strptime s fmt) eqn:E; auto.
  intros H. injection H as <-.
  apply isoformat_utc_is_iso. eapply strptime_valid; eauto.
Qed.

(** ** The timestamp fields of a processed review *)

Lemma at_fields_spec (a iso epoch : pyval) :
  TransformData.at_fields a = Ok (iso, epoch) ->
  match a with
  | VStr s =>
      if (s =? "")%string then iso = VNone /\ epoch = VNone
      else
        (exists dt z, strptime s Spec.exact_format = Ok dt
                      /\ iso = VStr (isoformat_utc dt) /\ epoch = VInt z)
        \/ (epoch = VNone
            /\ iso = match TransformData.first_format (VStr s)
                             TransformData.human_formats with
                     | Some i => VStr i
                     | None => VStr (strip s)
                     end)
  | _ => iso = VNone /\ epoch = VNone
  end.
Proof.
  unfold TransformData.at_fields, Spec.exact_format.
  destruct a; try (intros H; injection H as <- <-; now split).
  destruct (s =? "")%string eqn:Es; cbn [negb].
  - intros H; injection H as <- <-; now split.
  - destruct (strptime s "%Y-%m-%d %H:%M:%S") as [dt|e] eqn:Ep; cbn [bind].
    + destruct (timestamp_utc dt) as [t|]; cbn [bind].
      * destruct (int_of_float t) as [z|]; cbn [bind try_except].
        -- intros H; injection H as <- <-. left. now exists dt, z.
        -- rewrite parse_human_datetime_str, Es. cbn [bind].
           intros H; injection H as <- <-. right. now split.
      * cbn [try_except]. rewrite parse_human_datetime_str, Es. cbn [bind].
        intros H; injection H as <- <-. right. now split.
    + cbn [try_except]. rewrite parse_human_datetime_str, Es. cbn [bind].
      intros H; injection H as <- <-. right. now split.
Qed.

Lemma at_fields_exact_raises (s : string) (e : exc) (iso epoch : pyval) :
  strptime s Spec.exact_format = Raise e ->
  TransformData.at_fields (VStr s) = Ok (iso, epoch) -> epoch = VNone.
Proof.
  unfold TransformData.at_fields, Spec.exact_format. intros Hp.
  destruct (s =? "")%string eqn:Es; cbn [negb].
  - intros H; now injection H as <- <-.
  - rewrite Hp. cbn [bind try_except].
    rewrite parse_human_datetime_str, Es. cbn [bind].
    intros H; now injection H as <- <-.
Qed.

(** C2, as the code has it.  In every record the Review Transformer
    writes, [at_iso] is null, or a validated ISO-8601 timestamp in UTC, or,
    when the raw [at] string parses with none of the three formats, that
    string with the white space around it removed. *)
Theorem at_iso_is_iso_or_stripped_raw (r : pydict) :
  exists r',
    TransformData.transform_record r = Ok r'
    /\ (get r' "at_iso" = VNone
        \/ (exists iso, get r' "at_iso" = VStr iso /\ Spec.is_iso_utc iso = true)
        \/ (exists raw,
              get r "at" = VStr raw
              /\ TransformData.first_format (VStr raw) TransformData.human_formats
                 = None
              /\ get r' "at_iso" = VStr (strip raw))).
Proof.
  destruct (at_fields_ok (get r "at")) as (iso & epoch & H).
  eexists. split; [apply (transform_record_eq _ _ _ H)|].
  get_set. apply at_fields_spec in H.
  destruct (get r "at") as [| | | |s| |]; try (now left; destruct H).
  destruct (s =? "")%string; [now left; destruct H|].
  destruct H as [(dt & z & Hp & -> & _) | (_ & ->)].
  - right; left. eexists; split; [reflexivity|].
    apply isoformat_utc_is_iso. eapply strptime_valid; eauto.
  - destruct (TransformData.first_format (VStr s) TransformData.human_formats)
      as [i|] eqn:Ef.
    + right; left. exists i. split; [reflexivity|].
      eapply first_format_is_iso; eauto.
    + right; right. now exists s.
Qed.

(** C2, as stated, fails: for [at = "yesterday"] the record is written with
    [at_iso = "yesterday"], which is no ISO-8601 timestamp. *)
Lemma at_iso_raw_fallback :
  exists r',
    TransformData.transform_record Samples.review_at_yesterday = Ok r'
    /\ get r' "at_iso" = VStr "yesterday"
    /\ Spec.is_iso_utc "yesterday" = false.
Proof.
  eexists. split; [vm_compute; reflexivity|]. split; reflexivity.
Qed.

(** C5.  A review whose [at] is ["2025-11-08 13:54:14"] is written with
    [at_iso = "2025-11-08T13:54:14+00:00"] and [at_epoch = 1762610054], the
    number of seconds from 1970-01-01T00:00:00 UTC to that instant taken
    as UTC (20400 days, 13 hours, 54 minutes and 14 seconds); the raw [at]
    is kept. *)
Theorem exact_timestamp_round_trip (r : pydict) :
  get r "at" = VStr "2025-11-08 13:54:14" ->
  exists r',
    TransformData.transform_record r = Ok r'
    /\ get r' "at" = VStr "2025-11-08 13:54:14"
    /\ get r' "at_iso" = VStr "2025-11-08T13:54:14+00:00"
    /\ get r' "at_epoch" = VInt 1762610054
    /\ 1762610054 = 20400 * 86400 + 13 * 3600 + 54 * 60 + 14
    /\ ymd2ord 2025 11 8 - ymd2ord 1970 1 1 = 20400.
Proof.
  intros Hat.
  assert (H : TransformData.at_fields (get r "at")
              = Ok (VStr "2025-11-08T13:54:14+00:00", VInt 1762610054))
    by (rewrite Hat; vm_compute; reflexivity).
  eexists. split; [apply (transform_record_eq _ _ _ H)|].
  get_set. repeat split; auto.
Qed.

Lemma exact_timestamp_round_trip_witness :
  get Samples.review_at_exact "at" = VStr "2025-11-08 13:54:14"
  /\ exists r',
       TransformData.transform_record Samples.review_at_exact = Ok r'
       /\ get r' "at" = VStr "2025-11-08 13:54:14"
       /\ get r' "at_iso" = VStr "2025-11-08T13:54:14+00:00"
       /\ get r' "at_epoch" = VInt 1762610054
       /\ 1762610054 = 20400 * 86400 + 13 * 3600 + 54 * 60 + 14
       /\ ymd2ord 2025 11 8 - ymd2ord 1970 1 1 = 20400.
Proof.
  split; [reflexivity|].
  apply (exact_timestamp_round_trip Samples.review_at_exact). reflexivity.
Defined.

(** C9.  In every record the Review Transformer writes, [at_epoch] is
    non-null only when the raw [at] is a string that parses with the exact
    format; when the exact parse fails [at_epoch] is null; a non-null
    [at_epoch] comes with a non-null [at_iso].  The converse fails: for
    [at = "Jan 5, 2026"] the record has an [at_iso] and a null [at_epoch]. *)
Theorem at_epoch_only_on_exact_parse :
  (forall r : pydict,
     exists r',
       TransformData.transform_record r = Ok r'
       /\ (get r' "at_epoch" <> VNone ->
           exists s dt, get r "at" = VStr s /\ strptime s Spec.exact_format = Ok dt)
       /\ (forall s e, get r "at" = VStr s -> strptime s Spec.exact_format = Raise e ->
           get r' "at_epoch" = VNone)
       /\ (get r' "at_epoch" <> VNone -> get r' "at_iso" <> VNone))
  /\ (exists r',
        TransformData.transform_record Samples.review_at_human = Ok r'
        /\ get r' "at_iso" = VStr "2026-01-05T00:00:00+00:00"
        /\ get r' "at_epoch" = VNone).
Proof.
  split.
  - intros r. destruct (at_fields_ok (get r "at")) as (iso & epoch & H).
    eexists. split; [apply (transform_record_eq _ _ _ H)|].
    get_set. pose proof (at_fields_spec _ _ _ H) as Hs.
    split; [|split].
    + intros Hne. destruct (get r "at") as [| | | |s| |];
        try (destruct Hs; contradiction).
      destruct (s =? "")%string; [destruct Hs; contradiction|].
      destruct Hs as [(dt & z & Hp & _) | (He & _)]; [|contradiction].
      now exists s, dt.
    + intros s e Hat Hp. rewrite Hat in H.
      eapply at_fields_exact_raises; eauto.
    + intros Hne. destruct (get r "at") as [| | | |s| |];
        try (destruct Hs; contradiction).
      destruct (s =? "")%string; [destruct Hs; contradiction|].
      destruct Hs as [(dt & z & _ & -> & _) | (He & _)]; [discriminate|contradiction].
  - eexists. split; [vm_compute; reflexivity|]. split; reflexivity.
Qed.

(** ** The KPI aggregator *)

(** The objects [read_lines] passes to [process_obj]: those of the lines
    that are not blank and that the decoder accepts. *)
Lemma kpi_read_lines_aggregate (json_loads : string -> result pyval)
    (lines : list string) (aggs : ComputeAppKpis.aggregates) :
  ComputeAppKpis.read_lines json_loads aggs lines =
  ComputeAppKpis.aggregate aggs
    (flat_map (fun line =>
                 if (strip line =? "")%string then []
                 else match json_loads (strip line) with
                      | Ok obj => [obj]
                      | Raise _ => []
                      end) lines).
Proof.
  revert aggs. induction lines as [|line lines IH]; intros aggs; [reflexivity|].
  cbn [ComputeAppKpis.read_lines flat_map].
  destruct (strip line =? "")%string; [apply IH|].
  destruct (json_loads (strip line)) as [obj|e]; [|apply IH].
  cbn [app ComputeAppKpis.aggregate].
  destruct (ComputeAppKpis.process_obj aggs obj); cbn [bind]; [apply IH | reflexivity].
Qed.

(** C6.  For the three reviews [{appId: a, score: 5}], [{appId: a, score: 1}]
    and [{appId: b, score: None}] the KPI aggregator writes a row for [a] with
    [num_reviews = 2], [avg_rating = 3.0] and [low_rating_pct = 50.0], and a
    row for [b] with [num_reviews = 1] and an empty [avg_rating] (and an
    empty [low_rating_pct]).  For every aggregate, the two statistics are
    empty when [rated_reviews] is not positive and floats when it is. *)
Theorem kpi_rows_of_three_reviews :
  bind (ComputeAppKpis.aggregate [] Samples.kpi_reviews) ComputeAppKpis.write_rows
  = Ok [[(VStr "appId", VStr "a");
         (VStr "num_reviews", VInt 2);
         (VStr "avg_rating", VFloat (float_of_Z 3));
         (VStr "low_rating_pct", VFloat (float_of_Z 50));
         (VStr "first_review_date", VStr "");
         (VStr "last_review_date", VStr "")];
        [(VStr "appId", VStr "b");
         (VStr "num_reviews", VInt 1);
         (VStr "avg_rating", VStr "");
         (VStr "low_rating_pct", VStr "");
         (VStr "first_review_date", VStr "");
         (VStr "last_review_date", VStr "")]]
  /\ (forall a : ComputeAppKpis.AppAgg,
        (ComputeAppKpis.rated_reviews a <= 0 ->
         exists row,
           ComputeAppKpis.to_row a = Ok row
           /\ get row "avg_rating" = VStr "" /\ get row "low_rating_pct" = VStr "")
        /\ (0 < ComputeAppKpis.rated_reviews a ->
            forall row, ComputeAppKpis.to_row a = Ok row ->
            exists avg pct,
              get row "avg_rating" = VFloat avg
              /\ get row "low_rating_pct" = VFloat pct)).
Proof.
  split; [vm_compute; reflexivity|].
  intros a. unfold ComputeAppKpis.to_row. split.
  - intros H. apply Z.ltb_ge in H. rewrite H. cbn [bind fst snd].
    eexists. split; [reflexivity|]. split; reflexivity.
  - intros H row. apply Z.ltb_lt in H. rewrite H.
    destruct (float_of_int (ComputeAppKpis.rated_reviews a)) as [n|];
      cbn [bind]; [|discriminate].
    destruct (fdiv (ComputeAppKpis.score_sum a) n) as [avg|];
      cbn [bind]; [|discriminate].
    destruct (true_div _ _) as [frac|]; cbn [bind fst snd]; [|discriminate].
    intros E. injection E as <-.
    eexists; eexists. split; reflexivity.
Qed.

(** ** The sentiment flagger *)

Lemma prefix_app (sub s : string) :
  prefix sub s = true <-> exists post, s = (sub ++ post)%string.
Proof.
  revert s. induction sub as [|c sub IH]; intros s.
  - split; [intros _; now exists s | intros _; destruct s; reflexivity].
  - destruct s as [|c' s]; simpl.
    + split; [discriminate | intros [post H]; discriminate].
    + destruct (Ascii.ascii_dec c c') as [->|Hne].
      * rewrite IH. split; intros [post H]; exists post; congruence.
      * split; [discriminate | intros [post H]; congruence].
Qed.

Lemma contains_occurs (sub s : string) :
  contains sub s = true <-> Spec.occurs sub s.
Proof.
  unfold Spec.occurs. induction s as [|c s IH]; cbn [contains].
  - rewrite orb_false_r, prefix_app. split.
    + intros [post H]. now exists EmptyString, post.
    + intros (pre & post & H). destruct pre; simpl in H; [now exists post|discriminate].
  - rewrite orb_true_iff, IH, prefix_app. split.
    + intros [[post H] | (pre & post & H)].
      * now exists EmptyString, post.
      * exists (String c pre), post. simpl. now rewrite H.
    + intros (pre & post & H). destruct pre as [|c' pre]; simpl in H.
      * left. now exists post.
      * right. exists pre, post. congruence.
Qed.

Lemma any_term_in_matches (terms : list string) (c : string) :
  FlagInconsistentSentiment.any_term_in terms (lower c) = true
  <-> Spec.matches terms c.
Proof.
  unfold FlagInconsistentSentiment.any_term_in, Spec.matches.
  rewrite existsb_exists. split; intros (term & Hin & H); exists term;
    (split; [exact Hin | now apply contains_occurs]).
Qed.

Lemma num_le_ge (x : num) (n : Z) : num_le (NInt n) x = true <-> Spec.score_ge x n.
Proof.
  unfold num_le, Spec.score_ge. destruct x as [z|f]; cbn [num_compare].
  - destruct (Z.compare_spec n z); split; intros; try lia; try discriminate; auto.
  - destruct (float_compare_Z f n) as [[]|]; cbn [option_map CompOpp];
      split; intros H; try discriminate; auto; destruct H; discriminate.
Qed.

Lemma num_le_le (x : num) (n : Z) : num_le x (NInt n) = true <-> Spec.score_le x n.
Proof.
  unfold num_le, Spec.score_le. destruct x as [z|f]; cbn [num_compare].
  - destruct (Z.compare_spec z n); split; intros; try lia; try discriminate; auto.
  - destruct (float_compare_Z f n) as [[]|];
      split; intros H; try discriminate; auto; destruct H; discriminate.
Qed.

Lemma score_text_spec (c : string) :
  exists p,
    FlagInconsistentSentiment.score_text (VStr c) = Ok p
    /\ (p = -1 <-> Spec.negative_text c)
    /\ (p = 1 <-> Spec.positive_text c)
    /\ (p = 0 <-> ~ Spec.negative_text c /\ ~ Spec.positive_text c).
Proof.
  unfold FlagInconsistentSentiment.score_text, Spec.negative_text, Spec.positive_text.
  pose proof (any_term_in_matches FlagInconsistentSentiment.NEGATIVE_TERMS c) as Hn.
  pose proof (any_term_in_matches FlagInconsistentSentiment.POSITIVE_TERMS c) as Hp.
  destruct (FlagInconsistentSentiment.any_term_in
              FlagInconsistentSentiment.NEGATIVE_TERMS (lower c));
    destruct (FlagInconsistentSentiment.any_term_in
                FlagInconsistentSentiment.POSITIVE_TERMS (lower c));
    cbn [andb negb]; eexists; (split; [reflexivity|]);
    assert (Hf : forall P : Prop, (false = true <-> P) -> ~ P)
      by (intros P [_ H] HP; specialize (H HP); discriminate);
    assert (Ht : forall P : Prop, (true = true <-> P) -> P)
      by (intros P [H _]; now apply H);
    repeat match goal with
           | H : false = true <-> _ |- _ => apply Hf in H
           | H : true = true <-> _ |- _ => apply Ht in H
           end;
    repeat split; intros; try lia; try tauto.
Qed.

Lemma is_contradictory_numeric (d : pydict) (x : num) (c : string) (p : Z) :
  as_num (get d "score") = Some x ->
  get d "content" = VStr c ->
  FlagInconsistentSentiment.score_text (VStr c) = Ok p ->
  FlagInconsistentSentiment.is_contradictory (VDict d)
  = Ok (((p <? 0) && num_le (NInt 4) x) || ((0 <? p) && num_le x (NInt 2))).
Proof.
  intros Hs Hc Hp.
  unfold FlagInconsistentSentiment.is_contradictory,
    FlagInconsistentSentiment.obj_get, ComputeAppKpis.obj_get.
  cbn [bind]. rewrite Hc.
  assert (Hcontent : py_or (VStr c) (VStr "") = VStr c).
  { unfold py_or. cbn [truthy]. destruct (String.eqb_spec c ""); cbn [negb];
      [now subst | reflexivity]. }
  rewrite Hcontent, Hp. cbn [bind].
  assert (Hnn : is_none (get d "score") = false)
    by (destruct (get d "score"); try discriminate; reflexivity).
  rewrite Hnn.
  unfold FlagInconsistentSentiment.and_then, FlagInconsistentSentiment.ge_int,
    FlagInconsistentSentiment.le_int. rewrite Hs.
  destruct (p <? 0); destruct (0 <? p); cbn [bind andb orb];
    destruct (num_le (NInt 4) x); destruct (num_le x (NInt 2)); reflexivity.
Qed.

(** C7.  For a review with a numeric score and a string as content, the
    flagger computes the polarity of the text (negative iff some negative
    term matches the lower-cased text and no positive term does, positive the
    other way round, neutral otherwise, also when both lists match) and flags
    the review exactly when the polarity is negative and the score is at
    least 4, or the polarity is positive and the score is at most 2.  A review
    whose score is null is never flagged. *)
Theorem sentiment_flag_rule :
  (forall (d : pydict) (x : num) (c : string),
     as_num (get d "score") = Some x ->
     get d "content" = VStr c ->
     exists polarity flagged,
       FlagInconsistentSentiment.score_text (VStr c) = Ok polarity
       /\ (polarity = -1 <-> Spec.negative_text c)
       /\ (polarity = 1 <-> Spec.positive_text c)
       /\ (polarity = 0 <-> ~ Spec.negative_text c /\ ~ Spec.positive_text c)
       /\ FlagInconsistentSentiment.is_contradictory (VDict d) = Ok flagged
       /\ (flagged = true <->
           (Spec.negative_text c /\ Spec.score_ge x 4)
           \/ (Spec.positive_text c /\ Spec.score_le x 2)))
  /\ (forall d : pydict,
        get d "score" = VNone ->
        FlagInconsistentSentiment.is_contradictory (VDict d) = Ok false).
Proof.
  split.
  - intros d x c Hs Hc.
    destruct (score_text_spec c) as (p & Hp & Hneg & Hpos & Hzero).
    exists p. eexists. split; [exact Hp|].
    split; [exact Hneg|]. split; [exact Hpos|]. split; [exact Hzero|].
    split; [apply (is_contradictory_numeric d x c p Hs Hc Hp)|].
    rewrite orb_true_iff, !andb_true_iff, num_le_ge, num_le_le,
      Z.ltb_lt, Z.ltb_lt, <- Hneg, <- Hpos.
    assert (p = -1 \/ p = 0 \/ p = 1).
    { unfold FlagInconsistentSentiment.score_text in Hp.
      repeat match type of Hp with
             | (if ?b then _ else _) = _ => destruct b
             end; injection Hp as <-; lia. }
    split; intros [[? ?] | [? ?]]; [left | right | left | right]; split; auto; lia.
  - intros d Hs.
    unfold FlagInconsistentSentiment.is_contradictory,
      FlagInconsistentSentiment.obj_get, ComputeAppKpis.obj_get.
    cbn [bind]. now rewrite Hs.
Qed.

Lemma sentiment_flag_rule_witness :
  FlagInconsistentSentiment.is_contradictory
    (VDict [(VStr "score", VInt 5);
            (VStr "content", VStr "this app is terrible and buggy")]) = Ok true
  /\ exists polarity flagged,
       FlagInconsistentSentiment.score_text (VStr "terrible but amazing")
       = Ok polarity
       /\ (polarity = -1 <-> Spec.negative_text "terrible but amazing")
       /\ (polarity = 1 <-> Spec.positive_text "terrible but amazing")
       /\ (polarity = 0 <->
           ~ Spec.negative_text "terrible but amazing"
           /\ ~ Spec.positive_text "terrible but amazing")
       /\ FlagInconsistentSentiment.is_contradictory
            (VDict [(VStr "score", VInt 3);
                    (VStr "content", VStr "terrible but amazing")]) = Ok flagged
       /\ (flagged = true <->
           (Spec.negative_text "terrible but amazing" /\ Spec.score_ge (NInt 3) 4)
           \/ (Spec.positive_text "terrible but amazing"
               /\ Spec.score_le (NInt 3) 2)).
Proof.
  split; [vm_compute; reflexivity|].
  apply (proj1 sentiment_flag_rule
           [(VStr "score", VInt 3); (VStr "content", VStr "terrible but amazing")]
           (NInt 3) "terrible but amazing"); reflexivity.
Defined.

(** ** The daily aggregator *)

Lemma find_store_day (d d0 : string) (e : ComputeDailyMetrics.entry)
    (daily : ComputeDailyMetrics.daily_map) :
  ComputeDailyMetrics.find_day d (ComputeDailyMetrics.store_day d0 e daily)
  = if (d0 =? d)%string then Some e else ComputeDailyMetrics.find_day d daily.
Proof.
  induction daily as [|[k e'] daily IH]; simpl.
  - reflexivity.
  - destruct (String.eqb_spec k d0) as [->|Hk]; simpl.
    + destruct (d0 =? d)%string; reflexivity.
    + rewrite IH. destruct (String.eqb_spec k d) as [->|Hd]; [|reflexivity].
      destruct (String.eqb_spec d0 d); [congruence | reflexivity].
Qed.

Lemma extract_date_nonempty (obj : pyval) (d : string) :
  ComputeDailyMetrics._extract_date obj = Ok (Some d) -> d <> EmptyString.
Proof.
  unfold ComputeDailyMetrics._extract_date.
  destruct (ComputeDailyMetrics.obj_get obj "at_iso") as [at_iso|]; cbn [bind];
    [|discriminate].
  match goal with |- bind ?m _ = _ -> _ => destruct m as [raw|] end; cbn [bind];
    [|discriminate].
  destruct (negb (truthy raw)); [discriminate|].
  destruct raw as [| | | |s| |]; try discriminate.
  destruct ((10 <=? len s) && ComputeDailyMetrics.dash_at 4 s
            && ComputeDailyMetrics.dash_at 7 s) eqn:E.
  - intros H; injection H as <-.
    destruct s; [discriminate E | discriminate].
  - destruct (strptime s "%Y-%m-%d %H:%M:%S") as [dt|]; [|discriminate].
    intros H; injection H as <-. discriminate.
Qed.

Lemma daily_process_undated (daily : ComputeDailyMetrics.daily_map) (obj : pyval) :
  ComputeDailyMetrics._extract_date obj = Ok None ->
  ComputeDailyMetrics.process_obj daily obj = Ok daily.
Proof. intros H. unfold ComputeDailyMetrics.process_obj. now rewrite H. Qed.

Lemma daily_process_dated (daily daily' : ComputeDailyMetrics.daily_map)
    (obj : pyval) (d0 : string) :
  ComputeDailyMetrics._extract_date obj = Ok (Some d0) ->
  ComputeDailyMetrics.process_obj daily obj = Ok daily' ->
  forall d, Spec.count_of d daily' = Spec.count_of d daily + (if (d0 =? d)%string then 1 else 0).
Proof.
  intros He Hp d. pose proof (extract_date_nonempty _ _ He) as Hne.
  unfold ComputeDailyMetrics.process_obj in Hp. rewrite He in Hp. cbn [bind] in Hp.
  destruct (String.eqb_spec d0 ""); [contradiction|].
  apply bind_ok in Hp. destruct Hp as (score & _ & Hp).
  apply bind_ok in Hp. destruct Hp as (rs & _ & Hp).
  unfold Spec.count_of.
  destruct (ComputeDailyMetrics.find_day d0 daily) as [[[c r] t]|] eqn:Ef;
    injection Hp as <-; rewrite find_store_day;
    destruct (String.eqb_spec d0 d) as [->|Hd]; try rewrite Ef; try lia;
    destruct (ComputeDailyMetrics.find_day d daily) as [[[? ?] ?]|]; lia.
Qed.

Lemma daily_read_lines_count (json_loads : string -> result pyval)
    (lines : list string) (daily daily' : ComputeDailyMetrics.daily_map) :
  ComputeDailyMetrics.read_lines json_loads daily lines = Ok daily' ->
  forall d, Spec.count_of d daily' = Spec.count_of d daily + Spec.count_dated json_loads d lines.
Proof.
  unfold Spec.count_dated. revert daily.
  induction lines as [|line lines IH]; intros daily H d.
  - injection H as <-. simpl. lia.
  - cbn [ComputeDailyMetrics.read_lines] in H. cbn [filter].
    unfold Spec.dated_as at 1.
    destruct (strip line =? "")%string; [now apply IH|].
    destruct (json_loads (strip line)) as [obj|e]; [|now apply IH].
    apply bind_ok in H. destruct H as (daily1 & Hp & H).
    specialize (IH _ H d). rewrite IH.
    destruct (ComputeDailyMetrics._extract_date obj) as [[d0|]|] eqn:He.
    + rewrite (daily_process_dated _ _ _ _ He Hp d).
      destruct (d0 =? d)%string; cbn [List.length]; lia.
    + rewrite (daily_process_undated _ _ He) in Hp. injection Hp as <-. lia.
    + unfold ComputeDailyMetrics.process_obj in Hp. rewrite He in Hp. discriminate.
Qed.


Lemma daily_rows_for_in (daily : ComputeDailyMetrics.daily_map)
    (dates : list string) (rows : list pydict) :
  ComputeDailyMetrics.rows_for daily dates = Ok rows ->
  forall row, In row rows ->
  exists d e, ComputeDailyMetrics.find_day d daily = Some e
              /\ ComputeDailyMetrics.row_of d e = Ok row.
Proof.
  revert rows. induction dates as [|d dates IH]; intros rows H row Hin.
  - injection H as <-. destruct Hin.
  - cbn [ComputeDailyMetrics.rows_for] in H.
    destruct (ComputeDailyMetrics.find_day d daily) as [e|] eqn:Ef; [|eauto].
    apply bind_ok in H. destruct H as (r0 & Hr & H).
    apply bind_ok in H. destruct H as (rest & Hrest & H).
    injection H as <-. destruct Hin as [<- | Hin]; eauto.
Qed.

Lemma daily_row_of_fields (d : string) (c r : Z) (t : spec_float) (row : pydict) :
  ComputeDailyMetrics.row_of d (c, r, t) = Ok row ->
  get row "date" = VStr d /\ get row "daily_num_reviews" = VInt c.
Proof.
  unfold ComputeDailyMetrics.row_of. intros H.
  apply bind_ok in H. destruct H as (avg & _ & H).
  injection H as <-. split; reflexivity.
Qed.


(** ** Install counts *)

(** [installs_re] matches at the start of a string exactly when the first
    character is a digit or a comma. *)
Lemma installs_re_match (t : string) :
  match re_match TransformData.installs_re t with
  | Some _ => true
  | None => false
  end
  = match t with
    | EmptyString => false
    | String c _ => is_digit c || Ascii.eqb c ","
    end.
Proof.
  unfold re_match, TransformData.installs_re.
  destruct t as [|c t]; [reflexivity|].
  cbn [rmatch plus_greedy].
  destruct (is_digit c || Ascii.eqb c ","); [|reflexivity].
  match goal with
  | |- match (match ?p with Some r => Some r | None => ?k end) with _ => _ end = _ =>
      destruct p; [reflexivity|]
  end.
  match goal with
  | |- match (match ?p with Some r => Some r | None => _ end) with _ => _ end = _ =>
      destruct p; reflexivity
  end.
Qed.

Lemma re_search_installs (t : string) :
  TransformData.re_search TransformData.installs_re t
  = str_exists (fun c => is_digit c || Ascii.eqb c ",") t.
Proof.
  induction t as [|c t IH]; cbn [TransformData.re_search str_exists].
  - pose proof (installs_re_match EmptyString) as H.
    destruct (re_match TransformData.installs_re EmptyString); [discriminate|reflexivity].
  - pose proof (installs_re_match (String c t)) as H.
    destruct (re_match TransformData.installs_re (String c t)).
    + now rewrite <- H.
    + now rewrite <- H, IH.
Qed.

Lemma exists_digit_without_commas (s : string) :
  str_exists (fun c => is_digit c || Ascii.eqb c ",") (TransformData.remove_commas s)
  = str_exists is_digit s.
Proof.
  unfold TransformData.remove_commas.
  induction s as [|c s IH]; cbn [str_filter str_exists]; [reflexivity|].
  destruct (Ascii.eqb_spec c ",") as [->|Hc]; cbn [negb str_exists].
  - now rewrite IH.
  - rewrite IH. destruct (Ascii.eqb_spec c ","); [contradiction|].
    now rewrite orb_false_r.
Qed.

Lemma keep_digits_all (s : string) :
  str_forall is_digit (TransformData.keep_digits s) = true.
Proof.
  unfold TransformData.keep_digits.
  induction s as [|c s IH]; cbn [str_filter str_forall]; [reflexivity|].
  destruct (is_digit c) eqn:E; cbn [str_forall]; [now rewrite E|exact IH].
Qed.

Lemma keep_digits_nonempty (s : string) :
  str_exists is_digit s = true -> TransformData.keep_digits s <> EmptyString.
Proof.
  unfold TransformData.keep_digits.
  induction s as [|c s IH]; cbn [str_filter str_exists]; [discriminate|].
  destruct (is_digit c); [discriminate | exact IH].
Qed.

(** A digit is neither white space nor a sign. *)
Lemma digit_not_space_or_sign (c : ascii) :
  is_digit c = true ->
  is_c_space c = false /\ c <> "-"%char /\ c <> "+"%char.
Proof.
  destruct c as [[] [] [] [] [] [] [] []]; intros H;
    try discriminate H; repeat split; try reflexivity; discriminate.
Qed.

Lemma rstrip_digits (t : string) :
  str_forall is_digit t = true -> rstrip_by is_c_space t = t.
Proof.
  induction t as [|c t IH]; cbn [str_forall rstrip_by]; [reflexivity|].
  intros H. apply andb_prop in H. destruct H as [Hc Ht].
  rewrite (IH Ht). destruct (digit_not_space_or_sign c Hc) as (Hs & _).
  rewrite Hs. destruct t; reflexivity.
Qed.

Lemma digits_value_decimal (t : string) (acc : Z) :
  str_forall is_digit t = true -> digits_value t acc true = Spec.decimal_from acc t.
Proof.
  revert acc. induction t as [|c t IH]; intros acc; cbn [str_forall]; [reflexivity|].
  intros H. apply andb_prop in H. destruct H as [Hc Ht].
  cbn [digits_value Spec.decimal_from]. rewrite Hc. now apply IH.
Qed.

Lemma digit_val_nonneg (c : ascii) : is_digit c = true -> 0 <= digit_val c.
Proof.
  unfold is_digit, in_range, digit_val. intros H.
  apply andb_prop in H. destruct H as [Hlo _]. apply Z.leb_le in Hlo. lia.
Qed.

Lemma decimal_from_digits (t : string) (acc : Z) :
  str_forall is_digit t = true -> 0 <= acc ->
  exists z, Spec.decimal_from acc t = Some z /\ 0 <= z.
Proof.
  revert acc. induction t as [|c t IH]; intros acc; cbn [str_forall Spec.decimal_from].
  - intros _ Hacc. now exists acc.
  - intros H Hacc. apply andb_prop in H. destruct H as [Hc Ht].
    rewrite Hc. apply IH; [exact Ht|].
    pose proof (digit_val_nonneg c Hc). lia.
Qed.

Lemma str_filter_all (p : ascii -> bool) (t : string) :
  str_forall p t = true -> str_filter p t = t.
Proof.
  induction t as [|c t IH]; cbn [str_forall str_filter]; [reflexivity|].
  intros H. apply andb_prop in H. destruct H as [Hc Ht].
  now rewrite Hc, (IH Ht).
Qed.

(** What [int()] does with a string of digits, before the limit on the
    number of digits is looked at. *)
Lemma int_of_str_all_digits (t : string) :
  str_forall is_digit t = true -> t <> EmptyString ->
  exists z,
    int_of_str t = (if max_str_digits <? len t then Raise ValueError else Ok z)
    /\ Spec.decimal t = Some z /\ 0 <= z.
Proof.
  intros Hall Hne. destruct t as [|c t]; [contradiction|].
  pose proof Hall as Hall'. cbn [str_forall] in Hall'.
  apply andb_prop in Hall'. destruct Hall' as [Hc Ht].
  destruct (digit_not_space_or_sign c Hc) as (Hs & Hminus & Hplus).
  unfold int_of_str. cbn [lstrip_by]. rewrite Hs, (rstrip_digits _ Hall).
  assert (Hbody :
    (match String c t with
     | String "-" r => (true, r)
     | String "+" r => (false, r)
     | _ => (false, String c t)
     end) = (false, String c t)).
  { destruct c as [[] [] [] [] [] [] [] []]; try reflexivity; congruence. }
  rewrite Hbody, (str_filter_all _ _ Hall).
  cbn [digits_value]. rewrite Hc, (digits_value_decimal _ _ Ht).
  unfold Spec.decimal. cbn [Spec.decimal_from]. rewrite Hc.
  pose proof (digit_val_nonneg c Hc) as Hv.
  destruct (decimal_from_digits t (10 * 0 + digit_val c) Ht) as (z & Ez & Hz);
    [lia|].
  rewrite Ez. now exists z.
Qed.

Lemma int_of_str_digits (t : string) :
  str_forall is_digit t = true -> t <> EmptyString -> len t <= max_str_digits ->
  exists z, int_of_str t = Ok z /\ Spec.decimal t = Some z /\ 0 <= z.
Proof.
  intros Hall Hne Hlen.
  destruct (int_of_str_all_digits t Hall Hne) as (z & Hz & Hd & H0).
  destruct (Z.ltb_spec max_str_digits (len t)) as [Hlt|_]; [lia|].
  now exists z.
Qed.

(** Beyond the limit on the number of digits [int()] raises. *)
Lemma int_of_str_too_long (t : string) :
  str_forall is_digit t = true -> max_str_digits < len t ->
  int_of_str t = Raise ValueError.
Proof.
  intros Hall Hlen.
  destruct t as [|c t]; [reflexivity|].
  destruct (int_of_str_all_digits (String c t) Hall) as (z & Hz & _);
    [discriminate|].
  rewrite Hz. destruct (Z.ltb_spec max_str_digits (len (String c t))); [reflexivity | lia].
Qed.

Lemma int_or_none_accepted (v : pyval) :
  Spec.accepted_count v = true ->
  TransformData.int_or_none v = Ok (Spec.coerced v).
Proof.
  unfold Spec.accepted_count, TransformData.int_or_none, Spec.coerced.
  destruct v as [| | | | | |]; cbn [is_none orb]; try reflexivity;
    intros H; destruct (py_int _); try discriminate H; reflexivity.
Qed.

(** C4, as the code has it.  For a raw app record whose [realInstalls] is
    absent, null or a value [int()] accepts (a number, or a string such as
    ["1000"]), and whose [minInstalls] is such a value too or counts as
    absent while [installs] is a string with a digit in it,
    [normalize_installs] raises nothing and writes an integer or null in
    both fields: [realInstalls] is the existing count as [int()] gives it,
    or null; [minInstalls] is the existing count as [int()] gives it when
    that counts as present; otherwise, when [installs] is a string with a
    digit in it, the non-negative integer its digits spell, or null when
    there are more than 4300 digits, which [int()] rejects; otherwise what
    [int()] gives for the existing value (zero), or null when there is none.
    The sign of an existing count is not looked at. *)
Theorem normalize_installs_numeric (app : pydict) :
  Spec.min_installs_ok app = true ->
  Spec.accepted_count (get app "realInstalls") = true ->
  exists app',
    TransformData.normalize_installs app = Ok app'
    /\ Spec.int_or_null (get app' "minInstalls")
    /\ Spec.int_or_null (get app' "realInstalls")
    /\ get app' "realInstalls" = Spec.coerced (get app "realInstalls")
    /\ (get app "realInstalls" = VNone -> get app' "realInstalls" = VNone)
    /\ (truthy (get app "minInstalls") = true ->
        get app' "minInstalls" = Spec.coerced (get app "minInstalls"))
    /\ (truthy (get app "minInstalls") = false ->
        match get app "installs" with
        | VStr s =>
            if str_exists is_digit s then
              if len (TransformData.keep_digits s) <=? max_str_digits then
                exists z,
                  Spec.decimal (TransformData.keep_digits s) = Some z
                  /\ 0 <= z /\ get app' "minInstalls" = VInt z
              else get app' "minInstalls" = VNone
            else get app' "minInstalls" = Spec.coerced (get app "minInstalls")
        | _ => get app' "minInstalls" = Spec.coerced (get app "minInstalls")
        end)
    /\ (get app "minInstalls" = VNone ->
        (forall s, get app "installs" = VStr s -> str_exists is_digit s = false) ->
        get app' "minInstalls" = VNone).
Proof.
  intros Hmin Hreal.
  unfold Spec.min_installs_ok, Spec.installs_has_digit in Hmin.
  unfold TransformData.normalize_installs.
  set (mn := get app "minInstalls") in *.
  set (rl := get app "realInstalls") in *.
  set (ins := get app "installs") in *.
  (* the value of [min_installs] after the [if] *)
  match goal with
  | |- exists app', bind (TransformData.int_or_none ?m) _ = _ /\ _ => set (mn' := m)
  end.
  assert (Hcases :
    (mn' = mn /\ Spec.accepted_count mn = true
     /\ (truthy mn = true
         \/ match ins with
            | VStr s => str_exists is_digit s = false
            | _ => True
            end))
    \/ (truthy mn = false
        /\ exists s, ins = VStr s /\ str_exists is_digit s = true
           /\ ((len (TransformData.keep_digits s) <= max_str_digits
                /\ exists z, Spec.decimal (TransformData.keep_digits s) = Some z
                             /\ 0 <= z /\ mn' = VInt z)
               \/ (max_str_digits < len (TransformData.keep_digits s)
                   /\ mn' = VNone)))).
  { subst mn'. destruct ins as [| | | |s| |];
      try (left; rewrite andb_false_r, orb_false_r in Hmin; auto).
    destruct (truthy mn) eqn:Et; cbn [negb andb] in *.
    { left. rewrite orb_false_r in Hmin. auto. }
    rewrite re_search_installs, exists_digit_without_commas.
    destruct (str_exists is_digit s) eqn:Ed.
    2:{ left. rewrite orb_false_r in Hmin. auto. }
    right. split; [reflexivity|]. exists s. split; [reflexivity|].
    split; [exact Ed|].
    destruct (Z_le_gt_dec (len (TransformData.keep_digits s)) max_str_digits)
      as [Hle|Hgt].
    - left. split; [exact Hle|].
      destruct (int_of_str_digits (TransformData.keep_digits s)
                  (keep_digits_all s) (keep_digits_nonempty s Ed) Hle)
        as (z & Ez & Dz & Hz).
      rewrite Ez. now exists z.
    - right. split; [lia|].
      rewrite (int_of_str_too_long _ (keep_digits_all s)) by lia. reflexivity. }
  assert (Hm : TransformData.int_or_none mn' = Ok (Spec.coerced mn')).
  { destruct Hcases as [(-> & Ha & _) | (_ & s & _ & _ & [(_ & z & _ & _ & ->) | (_ & ->)])];
      [now apply int_or_none_accepted | reflexivity | reflexivity]. }
  rewrite Hm, (int_or_none_accepted rl Hreal). cbn [bind].
  eexists. split; [reflexivity|]. get_set.
  split; [apply coerced_int_or_null|]. split; [apply coerced_int_or_null|].
  split; [reflexivity|].
  split; [intros ->; reflexivity|].
  split; [|split].
  - intros Et. destruct Hcases as [(-> & _) | (Ef & _)]; [reflexivity | congruence].
  - intros Ef.
    destruct Hcases as [(-> & _ & [Et | Hins]) | (_ & s & -> & Ed & Hd)].
    + congruence.
    + destruct ins as [| | | |s| |]; try reflexivity. now rewrite Hins.
    + rewrite Ed. destruct Hd as [(Hle & z & Dz & Hz & ->) | (Hgt & ->)].
      * destruct (Z.leb_spec (len (TransformData.keep_digits s)) max_str_digits);
          [now exists z | lia].
      * destruct (Z.leb_spec (len (TransformData.keep_digits s)) max_str_digits);
          [lia | reflexivity].
  - intros En Hno. destruct Hcases as [(-> & _) | (_ & s & Hs & Ed & _)].
    + now rewrite En.
    + rewrite (Hno s Hs) in Ed. discriminate.
Qed.

Lemma normalize_installs_numeric_witness :
  (exists app',
     TransformData.normalize_installs Samples.app_installs_string = Ok app'
     /\ get app' "minInstalls" = VInt 10000
     /\ get app' "realInstalls" = VNone)
  /\ (exists app',
        TransformData.normalize_installs Samples.app_csv_counts = Ok app'
        /\ get app' "minInstalls" = VInt 1000
        /\ get app' "realInstalls" = VInt 5).
Proof.
  split.
  - destruct (normalize_installs_numeric Samples.app_installs_string
                eq_refl eq_refl) as (app' & H & _ & _ & _ & Hr & _ & Hd & _).
    exists app'. split; [exact H|]. split.
    + destruct (Hd eq_refl) as (z & Dz & _ & ->).
      vm_compute in Dz. now injection Dz as <-.
    + now apply Hr.
  - destruct (normalize_installs_numeric Samples.app_csv_counts
                eq_refl eq_refl) as (app' & H & _ & _ & Hr & _ & Hm & _).
    exists app'. split; [exact H|]. split.
    + exact (Hm eq_refl).
    + exact Hr.
Defined.

(** An [installs] text of 4301 digits gives null: [int()] rejects it and
    the [except] branch of [normalize_installs] takes over. *)
Lemma long_installs_give_null :
  len Samples.long_installs = 4301
  /\ exists app',
       TransformData.normalize_installs Samples.app_long_installs = Ok app'
       /\ get app' "minInstalls" = VNone.
Proof.
  split; [vm_compute; reflexivity|].
  eexists. split; [vm_compute; reflexivity | reflexivity].
Qed.

(** The two hypotheses leave out nothing that [normalize_installs]
    accepts: in every other case one of its two last calls of [int()]
    raises. *)
Lemma normalize_installs_raises_otherwise (app : pydict) :
  Spec.min_installs_ok app
  && Spec.accepted_count (get app "realInstalls") = false ->
  exists e, TransformData.normalize_installs app = Raise e.
Proof.
  unfold Spec.min_installs_ok, Spec.installs_has_digit,
    TransformData.normalize_installs.
  set (mn := get app "minInstalls"). set (rl := get app "realInstalls").
  set (ins := get app "installs"). intros H.
  assert (Hreject : forall v, Spec.accepted_count v = false ->
            exists e, TransformData.int_or_none v = Raise e).
  { intros v Hv. unfold Spec.accepted_count in Hv.
    apply orb_false_iff in Hv. destruct Hv as [Hn Hi].
    unfold TransformData.int_or_none. rewrite Hn.
    destruct (py_int v) as [z|e]; [discriminate Hi|]. cbn [bind]. eauto. }
  match goal with
  | |- exists e, bind (TransformData.int_or_none ?m) _ = _ => set (mn' := m)
  end.
  destruct (TransformData.int_or_none mn') as [m|e] eqn:Em; cbn [bind]; [|eauto].
  destruct (Spec.accepted_count rl) eqn:Er.
  - rewrite andb_true_r in H. apply orb_false_iff in H. destruct H as [Ha Hd].
    destruct (Hreject mn Ha) as (e & He).
    assert (Hsame : mn' = mn).
    { subst mn'. destruct ins as [| | | |s| |]; try reflexivity.
      destruct (truthy mn); cbn [negb andb] in *; [reflexivity|].
      rewrite re_search_installs, exists_digit_without_commas, Hd. reflexivity. }
    rewrite Hsame, He in Em. discriminate Em.
  - destruct (Hreject rl Er) as (e & ->). cbn [bind]. eauto.
Qed.

(** C4, as stated, fails: an existing [minInstalls] of -5 is written as -5,
    which is neither null nor a non-negative integer. *)
Lemma negative_installs_kept :
  exists app',
    TransformData.normalize_installs Samples.app_negative_installs = Ok app'
    /\ get app' "minInstalls" = VInt (-5)
    /\ ~ Spec.count_or_null (get app' "minInstalls").
Proof.
  eexists. split; [reflexivity|]. split; [reflexivity|].
  intros [H | (z & H & Hz)]; [discriminate|].
  vm_compute in H. injection H as <-. lia.
Qed.

(** ** Lines that are not JSON *)

(** C3, where the code departs from it.  A line that is not blank and that
    [json.loads] rejects makes the loop of the Sentiment Consistency Flagger
    raise, whatever follows, while the KPI aggregator and the Daily Metrics
    Aggregator pass over the same line, and so does the reader of the Review
    Transformer when the text between the first and the last brace is rejected
    too.  A score that is a string makes the flagger raise as well when the
    text has a polarity. *)
Theorem flagger_aborts_on_malformed_line (json_loads : string -> result pyval)
    (line : string) (rest : list string) (e : exc) :
  (strip line =? "")%string = false ->
  json_loads (strip line) = Raise e ->
  FlagInconsistentSentiment.main json_loads (line :: rest) = Raise e
  /\ ComputeAppKpis.compute_app_kpis json_loads (line :: rest)
     = ComputeAppKpis.compute_app_kpis json_loads rest
  /\ ComputeDailyMetrics.compute_daily_metrics json_loads (line :: rest)
     = ComputeDailyMetrics.compute_daily_metrics json_loads rest
  /\ (is_ok (json_loads (slice (strip line) (find (strip line) "{")
                                (rfind (strip line) "}" + 1))) = false ->
      TransformData._iter_reviews_jsonl json_loads (line :: rest)
      = TransformData._iter_reviews_jsonl json_loads rest)
  /\ FlagInconsistentSentiment.is_contradictory
       (VDict [(VStr "score", VStr "5"); (VStr "content", VStr "terrible")])
     = Raise TypeError.
Proof.
  intros Hne Hbad. repeat split.
  - cbn [FlagInconsistentSentiment.main]. now rewrite Hne, Hbad.
  - unfold ComputeAppKpis.compute_app_kpis.
    cbn [ComputeAppKpis.read_lines]. now rewrite Hne, Hbad.
  - unfold ComputeDailyMetrics.compute_daily_metrics.
    cbn [ComputeDailyMetrics.read_lines]. now rewrite Hne, Hbad.
  - intros Hbrace. cbn [TransformData._iter_reviews_jsonl].
    rewrite Hne, Hbad. cbn [try_except].
    destruct (json_loads (slice _ _ _)); [discriminate | reflexivity].
Qed.

Lemma flagger_aborts_on_malformed_line_witness :
  FlagInconsistentSentiment.main Samples.reject_all ["{not json"; "dated"]
  = Raise JSONDecodeError
  /\ ComputeAppKpis.compute_app_kpis Samples.reject_all ["{not json"; "dated"]
     = ComputeAppKpis.compute_app_kpis Samples.reject_all ["dated"].
Proof.
  destruct (flagger_aborts_on_malformed_line Samples.reject_all
              "{not json" ["dated"] JSONDecodeError eq_refl eq_refl)
    as (Hmain & Hkpi & _).
  split; [exact Hmain | exact Hkpi].
Defined.


(* ================================================================== *)
(** * Further properties of the code *)
(* ================================================================== *)

(** ** The record written by the Review Transformer *)

Lemma has_key_set (d : pydict) (k k' : string) (v : pyval) :
  Spec.has_key (set d k v) k' = (k =? k')%string || Spec.has_key d k'.
Proof.
  unfold Spec.has_key, set.
  destruct (String.eqb_spec k k') as [<-|Hne].
  - now rewrite lookup_set_key_same.
  - now rewrite lookup_set_key_other.
Qed.

Lemma get_set_if (d : pydict) (k k' : string) (v : pyval) :
  get (set d k v) k' = if (k =? k')%string then v else get d k'.
Proof.
  destruct (String.eqb_spec k k') as [<-|Hne].
  - apply get_set_same.
  - now apply get_set_other.
Qed.

(** The record written, as the raw record with four keys set. *)
Lemma transform_record_shape (r : pydict) :
  exists iso epoch,
    TransformData.at_fields (get r "at") = Ok (iso, epoch)
    /\ TransformData.transform_record r =
       Ok (set (set (set (set r "at_iso" iso) "at_epoch" epoch)
                     "score" (Spec.coerced (get r "score")))
                "thumbsUpCount" (Spec.coerced (get r "thumbsUpCount"))).
Proof.
  destruct (at_fields_ok (get r "at")) as (iso & epoch & H).
  exists iso, epoch. split; [exact H | now apply transform_record_eq].
Qed.

Lemma derived_key_cases (k : string) :
  Spec.is_derived_key k
  = ("at_iso" =? k)%string || ("at_epoch" =? k)%string
    || ("score" =? k)%string || ("thumbsUpCount" =? k)%string.
Proof.
  unfold Spec.is_derived_key, Spec.derived_keys. cbn [existsb].
  rewrite !(String.eqb_sym k), orb_false_r, !orb_assoc. reflexivity.
Qed.

(** X1.  The body of the loop of [transform_reviews], from the dict
    [r = dict(obj)] it receives, makes a record that has exactly the keys of
    [r] and the four keys [at_iso], [at_epoch], [score] and
    [thumbsUpCount]; every other key of [r] ([at], [userName], [content],
    ...) keeps its value.  Here [r] is what the reader yields: the decoded
    object for a JSONL source and, for a CSV source, the row as
    [_normalize_review_row] has rebuilt it with its twelve keys, not the
    row of the file. *)
Theorem transform_record_keeps_other_fields (r : pydict) :
  exists r',
    TransformData.transform_record r = Ok r'
    /\ (forall k, Spec.has_key r' k = Spec.is_derived_key k || Spec.has_key r k)
    /\ (forall k, Spec.is_derived_key k = false -> get r' k = get r k).
Proof.
  destruct (at_fields_ok (get r "at")) as (iso & epoch & H).
  eexists. split; [apply (transform_record_eq _ _ _ H)|]. split.
  - intros k. rewrite !has_key_set. unfold Spec.is_derived_key, Spec.derived_keys.
    cbn [existsb]. rewrite !(String.eqb_sym k).
    destruct ("at_iso" =? k)%string, ("at_epoch" =? k)%string,
      ("score" =? k)%string, ("thumbsUpCount" =? k)%string; reflexivity.
  - intros k Hk. unfold Spec.is_derived_key, Spec.derived_keys in Hk.
    cbn [existsb] in Hk. rewrite !(String.eqb_sym k) in Hk.
    rewrite !get_set_if.
    destruct ("at_iso" =? k)%string, ("at_epoch" =? k)%string,
      ("score" =? k)%string, ("thumbsUpCount" =? k)%string;
      try discriminate Hk; reflexivity.
Qed.

Lemma set_key_same_value (k : string) (v : pyval) (d : pydict) :
  lookup (VStr k) d = Some v -> set_key (VStr k) v d = d.
Proof.
  induction d as [|[k0 v0] d IH]; simpl; [discriminate|].
  destruct (key_eqb k0 (VStr k)) eqn:E.
  - intros H. now injection H as ->.
  - intros H. now rewrite IH.
Qed.

Lemma coerced_idempotent (v : pyval) : Spec.coerced (Spec.coerced v) = Spec.coerced v.
Proof. unfold Spec.coerced. destruct (py_int v); reflexivity. Qed.

(** X2.  Processing a record that the Review Transformer wrote gives that
    record again: the transformation is idempotent on its own output. *)
Theorem transform_record_idempotent (r : pydict) :
  exists r',
    TransformData.transform_record r = Ok r'
    /\ TransformData.transform_record r' = Ok r'.
Proof.
  destruct (at_fields_ok (get r "at")) as (iso & epoch & H).
  pose proof (transform_record_eq _ _ _ H) as E.
  eexists. split; [exact E|].
  match type of E with _ = Ok ?x => set (r' := x) in * end.
  assert (Hat : get r' "at" = get r "at") by (subst r'; now get_set).
  rewrite <- Hat in H. rewrite (transform_record_eq _ _ _ H).
  assert (L1 : lookup (VStr "at_iso") r' = Some iso).
  { subst r'. unfold set.
    rewrite !lookup_set_key_other by discriminate. apply lookup_set_key_same. }
  assert (L2 : lookup (VStr "at_epoch") r' = Some epoch).
  { subst r'. unfold set.
    rewrite !lookup_set_key_other by discriminate. apply lookup_set_key_same. }
  assert (L3 : lookup (VStr "score") r' = Some (Spec.coerced (get r "score"))).
  { subst r'. unfold set.
    rewrite !lookup_set_key_other by discriminate. apply lookup_set_key_same. }
  assert (L4 : lookup (VStr "thumbsUpCount") r'
               = Some (Spec.coerced (get r "thumbsUpCount"))).
  { subst r'. unfold set. apply lookup_set_key_same. }
  assert (G3 : get r' "score" = Spec.coerced (get r "score"))
    by (unfold get; now rewrite L3).
  assert (G4 : get r' "thumbsUpCount" = Spec.coerced (get r "thumbsUpCount"))
    by (unfold get; now rewrite L4).
  rewrite G3, G4, !coerced_idempotent. clearbody r'. unfold set.
  rewrite (set_key_same_value _ _ _ L1), (set_key_same_value _ _ _ L2),
    (set_key_same_value _ _ _ L3), (set_key_same_value _ _ _ L4).
  reflexivity.
Qed.

Lemma at_iso_of_string (r : pydict) (s : string) :
  get r "at" = VStr s ->
  exists r',
    TransformData.transform_record r = Ok r'
    /\ TransformData.parse_human_datetime (VStr s) = Ok (get r' "at_iso").
Proof.
  intros Hat. destruct (transform_record_shape r) as (iso & epoch & H & E).
  eexists. split; [exact E|]. get_set.
  rewrite Hat in H. apply at_fields_spec in H.
  rewrite parse_human_datetime_str.
  destruct (s =? "")%string; [now destruct H as [-> _]|].
  destruct H as [(dt & z & Hp & -> & _) | (_ & ->)]; [|reflexivity].
  unfold TransformData.human_formats. cbn [TransformData.first_format].
  unfold Spec.exact_format in Hp. now rewrite Hp.
Qed.

(** X3.  For a raw [at] that is a string, the [at_iso] written is what
    [parse_human_datetime] returns for that string, whether the exact format
    parsed it or not; for any other [at] both [at_iso] and [at_epoch] are
    null. *)
Theorem at_iso_is_parse_human_datetime (r : pydict) :
  exists r',
    TransformData.transform_record r = Ok r'
    /\ match get r "at" with
       | VStr s => TransformData.parse_human_datetime (VStr s) = Ok (get r' "at_iso")
       | _ => get r' "at_iso" = VNone /\ get r' "at_epoch" = VNone
       end.
Proof.
  destruct (at_fields_ok (get r "at")) as (iso & epoch & H).
  eexists. split; [apply (transform_record_eq _ _ _ H)|].
  get_set. apply at_fields_spec in H.
  destruct (get r "at") as [| | | |s| |]; try exact H.
  rewrite parse_human_datetime_str.
  destruct (s =? "")%string; [now destruct H as [-> _]|].
  destruct H as [(dt & z & Hp & -> & _) | (_ & ->)]; [|reflexivity].
  unfold TransformData.human_formats. cbn [TransformData.first_format].
  unfold Spec.exact_format in Hp. now rewrite Hp.
Qed.

(** ** The cap on the number of records *)

Lemma transform_loop_cap_zero (objs : list (result pyval)) (c : Z) :
  TransformData.transform_loop objs (Some 0) c
  = TransformData.transform_loop objs None c.
Proof.
  revert c. induction objs as [|next objs IH]; intros c; [reflexivity|].
  cbn [TransformData.transform_loop]. destruct next as [obj|]; [|reflexivity].
  cbn [bind]. destruct (TransformData.py_dict obj) as [r|]; [|reflexivity].
  cbn [bind]. destruct (TransformData.transform_record r) as [r'|]; [|reflexivity].
  cbn [bind]. cbn [Z.eqb negb andb]. now rewrite IH.
Qed.

Lemma transform_loop_cap (objs : list (result pyval)) (n c : Z) :
  0 <= c < n ->
  TransformData.transform_loop objs (Some n) c
  = TransformData.transform_loop (firstn (Z.to_nat (n - c)) objs) None c.
Proof.
  revert c. induction objs as [|next objs IH]; intros c Hc.
  - now rewrite firstn_nil.
  - replace (Z.to_nat (n - c)) with (S (Z.to_nat (n - (c + 1)))) by lia.
    cbn [firstn TransformData.transform_loop].
    destruct next as [obj|]; [|reflexivity].
    cbn [bind]. destruct (TransformData.py_dict obj) as [r|]; [|reflexivity].
    cbn [bind]. destruct (TransformData.transform_record r) as [r'|]; [|reflexivity].
    cbn [bind]. destruct (Z.eqb_spec n 0) as [?|_]; [lia|]. cbn [negb andb].
    destruct (Z.leb_spec n (c + 1)) as [Hle|Hgt].
    + replace (n - (c + 1)) with 0 by lia. reflexivity.
    + rewrite IH by lia. reflexivity.
Qed.

Lemma transform_loop_cap_first (objs : list (result pyval)) (n c : Z) :
  n <> 0 -> n <= c + 1 ->
  TransformData.transform_loop objs (Some n) c
  = TransformData.transform_loop (firstn 1 objs) None c.
Proof.
  intros Hn Hle. destruct objs as [|next objs]; [reflexivity|].
  cbn [firstn TransformData.transform_loop].
  destruct next as [obj|]; [|reflexivity].
  cbn [bind]. destruct (TransformData.py_dict obj) as [r|]; [|reflexivity].
  cbn [bind]. destruct (TransformData.transform_record r) as [r'|]; [|reflexivity].
  cbn [bind]. destruct (Z.eqb_spec n 0) as [?|_]; [contradiction|]. cbn [negb andb].
  destruct (Z.leb_spec n (c + 1)); [reflexivity | lia].
Qed.

Lemma transform_loop_uncapped_firstn (objs : list (result pyval)) (c : Z)
    (k : nat) (out : list pydict) :
  TransformData.transform_loop objs None c = Ok out ->
  TransformData.transform_loop (firstn k objs) None c = Ok (firstn k out)
  /\ List.length out = List.length objs.
Proof.
  revert c k out. induction objs as [|next objs IH]; intros c k out H.
  - injection H as <-. now rewrite !firstn_nil.
  - cbn [TransformData.transform_loop] in H.
    apply bind_ok in H. destruct H as (obj & -> & H).
    apply bind_ok in H. destruct H as (r & Hd & H).
    apply bind_ok in H. destruct H as (r' & Hr & H).
    apply bind_ok in H. destruct H as (rest & Hrest & H). injection H as <-.
    destruct (IH _ (pred k) _ Hrest) as [E L]. split; [|simpl; now rewrite L].
    destruct k as [|k]; [reflexivity|].
    cbn [firstn TransformData.transform_loop bind]. rewrite Hd. cbn [bind].
    rewrite Hr. cbn [bind]. cbn [pred] in E. now rewrite E.
Qed.

(** X4.  The cap [max_lines] of [transform_reviews]: a cap of 0 is no cap;
    with any other cap [n] the run is the uncapped run over the first [n]
    objects of the source (over the first one when [n] is negative), so that
    nothing after them is read or can make the run fail; at most [n] records
    are written, and they are the first ones of an uncapped run that
    succeeds. *)
Theorem max_lines_caps_output (json_loads : string -> result pyval)
    (src : TransformData.source) :
  TransformData.transform_reviews json_loads src (Some 0)
  = TransformData.transform_reviews json_loads src None
  /\ (forall n, n <> 0 ->
      TransformData.transform_reviews json_loads src (Some n)
      = TransformData.transform_loop
          (firstn (Z.to_nat (Z.max 1 n)) (TransformData._iter_reviews json_loads src))
          None 0)
  /\ (forall n out, 1 <= n ->
      TransformData.transform_reviews json_loads src (Some n) = Ok out ->
      Z.of_nat (List.length out) <= n)
  /\ (forall n full, n <> 0 ->
      TransformData.transform_reviews json_loads src None = Ok full ->
      TransformData.transform_reviews json_loads src (Some n)
      = Ok (firstn (Z.to_nat (Z.max 1 n)) full)).
Proof.
  unfold TransformData.transform_reviews.
  set (objs := TransformData._iter_reviews json_loads src).
  assert (Hcap : forall n, n <> 0 ->
            TransformData.transform_loop objs (Some n) 0
            = TransformData.transform_loop
                (firstn (Z.to_nat (Z.max 1 n)) objs) None 0).
  { intros n Hn. destruct (Z.le_gt_cases 1 n) as [H1|H1].
    - rewrite transform_loop_cap by lia. do 2 f_equal. lia.
    - rewrite transform_loop_cap_first by lia. do 2 f_equal. lia. }
  split; [apply transform_loop_cap_zero|]. split; [exact Hcap|]. split.
  - intros n out Hn H. rewrite Hcap in H by lia.
    destruct (transform_loop_uncapped_firstn _ _ 0%nat _ H) as [_ L].
    rewrite L, length_firstn. lia.
  - intros n full Hn H. rewrite Hcap by exact Hn.
    now destruct (transform_loop_uncapped_firstn _ _ (Z.to_nat (Z.max 1 n)) _ H).
Qed.

Lemma max_lines_caps_output_witness :
  TransformData.transform_reviews Samples.two_lines
    (TransformData.Jsonl ["dated"; "junk"; "undated"; "dated"]) (Some 2)
  = TransformData.transform_loop
      [Ok Samples.review_dated; Ok Samples.review_undated] None 0.
Proof.
  apply (proj1 (proj2 (max_lines_caps_output Samples.two_lines
           (TransformData.Jsonl ["dated"; "junk"; "undated"; "dated"]))) 2).
  discriminate.
Defined.

(** ** The Field Normalizer *)

Lemma lower_keys_get (items acc : pydict) :
  Spec.str_keys items = true ->
  exists m,
    TransformData.lower_keys items acc = Ok m
    /\ forall ln, get m ln = match Spec.last_with_key ln items with
                             | Some v => v
                             | None => get acc ln
                             end.
Proof.
  revert acc. induction items as [|[k v] items IH]; intros acc Hs.
  - exists acc. split; reflexivity.
  - cbn [Spec.str_keys forallb fst] in Hs. apply andb_prop in Hs.
    destruct Hs as [Hk Hs]. destruct k as [| | | |s| |]; try discriminate Hk.
    cbn [TransformData.lower_keys Spec.last_with_key].
    destruct (IH (set acc (lower s) v) Hs) as (m & Hm & Hget).
    exists m. split; [exact Hm|]. intros ln. rewrite Hget.
    destruct (Spec.last_with_key ln items); [reflexivity|].
    rewrite get_set_if. destruct (lower s =? ln)%string; reflexivity.
Qed.

Lemma lower_keys_raises (items acc : pydict) :
  Spec.str_keys items = false ->
  TransformData.lower_keys items acc = Raise AttributeError.
Proof.
  revert acc. induction items as [|[k v] items IH]; intros acc Hs; [discriminate|].
  cbn [Spec.str_keys forallb fst] in Hs.
  destruct k as [| | | |s| |]; try reflexivity.
  cbn [is_str andb] in Hs. cbn [TransformData.lower_keys]. now apply IH.
Qed.

Lemma get_first_eq (mapping : pydict) (candidates : list string) :
  TransformData._get_first mapping candidates
  = if Spec.str_keys mapping
    then Ok (Spec.first_present mapping candidates)
    else Raise AttributeError.
Proof.
  unfold TransformData._get_first.
  destruct (Spec.str_keys mapping) eqn:Hs.
  - destruct (lower_keys_get mapping [] Hs) as (m & -> & Hget). cbn [bind]. f_equal.
    induction candidates as [|name rest IH]; [reflexivity|].
    cbn [TransformData.first_not_none Spec.first_present].
    unfold Spec.field_value at 1 2. rewrite Hget.
    destruct (Spec.last_with_key (lower name) mapping) as [v|]; cbn [get lookup];
      [|exact IH].
    destruct (is_none v); [exact IH | reflexivity].
  - now rewrite lower_keys_raises.
Qed.

Lemma first_present_none (mapping : pydict) (candidates : list string) :
  Spec.first_present mapping candidates = VNone
  <-> forall name, In name candidates -> Spec.field_value mapping name = VNone.
Proof.
  induction candidates as [|name rest IH]; cbn [Spec.first_present In].
  - split; [intros _ ? [] | reflexivity].
  - destruct (Spec.field_value mapping name) eqn:E; cbn [is_none];
      try (split; [discriminate | intros H; specialize (H name (or_introl eq_refl));
                                   rewrite E in H; discriminate]).
    rewrite IH. split.
    + intros H n [<- | Hin]; [exact E | now apply H].
    + intros H n Hin. apply H. now right.
Qed.

(** X5.  [_get_first] on a mapping whose keys are strings returns the value
    of the first candidate name, in the order given, for which the mapping
    holds a value that is not null; names are compared without case, and of
    two keys that differ by case only the later one counts.  It returns null
    exactly when no candidate has such a value, and it raises
    [AttributeError] when some key of the mapping is not a string. *)
Theorem get_first_priority (mapping : pydict) (candidates : list string) :
  TransformData._get_first mapping candidates
  = (if Spec.str_keys mapping
     then Ok (Spec.first_present mapping candidates)
     else Raise AttributeError)
  /\ (forall name rest, candidates = name :: rest ->
      Spec.field_value mapping name <> VNone ->
      Spec.first_present mapping candidates = Spec.field_value mapping name)
  /\ (Spec.first_present mapping candidates = VNone
      <-> forall name, In name candidates -> Spec.field_value mapping name = VNone).
Proof.
  split; [apply get_first_eq|]. split; [|apply first_present_none].
  intros name rest -> Hv. cbn [Spec.first_present].
  destruct (Spec.field_value mapping name); cbn [is_none]; try reflexivity.
  contradiction.
Qed.

Lemma normalize_fields_eq (row : pydict) (fields : list (string * list string)) :
  Spec.str_keys row = true ->
  TransformData.normalize_fields row fields
  = Ok (map (fun f => (VStr (fst f), Spec.first_present row (snd f))) fields).
Proof.
  intros Hs. induction fields as [|[key cands] fields IH]; [reflexivity|].
  cbn [TransformData.normalize_fields map fst snd].
  rewrite get_first_eq, Hs, IH. reflexivity.
Qed.

Lemma normalize_review_row_eq (row : pydict) :
  Spec.str_keys row = true ->
  TransformData._normalize_review_row row
  = Ok (map (fun f => (VStr (fst f), Spec.first_present row (snd f)))
            TransformData.review_fields).
Proof. intros Hs. now apply normalize_fields_eq. Qed.

(** X6.  [_normalize_review_row] on a row whose keys are strings returns a
    record with exactly the twelve canonical keys, in their order, each with
    the value of the first of its candidate names that the row holds; a
    column named by no candidate is absent from the record.  A row with a key
    that is not a string makes it raise [AttributeError]. *)
Theorem normalize_review_row_canonical (row : pydict) :
  TransformData._normalize_review_row row
  = if Spec.str_keys row
    then Ok (map (fun f => (VStr (fst f), Spec.first_present row (snd f)))
                 TransformData.review_fields)
    else Raise AttributeError.
Proof.
  unfold TransformData._normalize_review_row.
  destruct (Spec.str_keys row) eqn:Hs; [now apply normalize_fields_eq|].
  unfold TransformData.review_fields. cbn [TransformData.normalize_fields].
  now rewrite get_first_eq, Hs.
Qed.

(** ** CSV rows through the Review Transformer *)

Lemma has_key_fields (g : string * list string -> pyval)
    (fields : list (string * list string)) (k : string) :
  Spec.has_key (map (fun f => (VStr (fst f), g f)) fields) k
  = existsb (String.eqb k) (map fst fields).
Proof.
  unfold Spec.has_key.
  induction fields as [|[key cands] fields IH]; [reflexivity|].
  cbn [map fst lookup existsb key_eqb]. rewrite (String.eqb_sym k).
  destruct (key =? k)%string; [reflexivity | exact IH].
Qed.

Lemma get_fields (g : string * list string -> pyval)
    (fields : list (string * list string)) (key : string) (cands : list string) :
  List.find (fun f => (fst f =? key)%string) fields = Some (key, cands) ->
  get (map (fun f => (VStr (fst f), g f)) fields) key = g (key, cands).
Proof.
  unfold get.
  induction fields as [|[key' cands'] fields IH]; [discriminate|].
  cbn [List.find map fst lookup key_eqb].
  destruct (key' =? key)%string.
  - intros H. now injection H as -> ->.
  - exact IH.
Qed.

Lemma transform_normalized_row (row : pydict) :
  Spec.str_keys row = true ->
  exists d r',
    TransformData._normalize_review_row row = Ok d
    /\ TransformData.transform_record d = Ok r'
    /\ Spec.csv_record_of row r'.
Proof.
  intros Hs. pose proof (normalize_review_row_eq row Hs) as Hn.
  match type of Hn with _ = Ok ?x => set (d := x) in * end.
  destruct (transform_record_shape d) as (iso & epoch & _ & Hr).
  match type of Hr with _ = Ok ?x => set (r' := x) in * end.
  assert (Hkeys : forall k,
            Spec.has_key r' k = Spec.is_derived_key k || Spec.has_key d k).
  { intros k. subst r'. rewrite !has_key_set, derived_key_cases.
    destruct ("at_iso" =? k)%string, ("at_epoch" =? k)%string,
      ("score" =? k)%string, ("thumbsUpCount" =? k)%string; reflexivity. }
  assert (Hother : forall k, Spec.is_derived_key k = false -> get r' k = get d k).
  { intros k Hk. rewrite derived_key_cases in Hk. subst r'. rewrite !get_set_if.
    destruct ("at_iso" =? k)%string, ("at_epoch" =? k)%string,
      ("score" =? k)%string, ("thumbsUpCount" =? k)%string;
      try discriminate Hk; reflexivity. }
  assert (Hscore : get r' "score" = Spec.coerced (get d "score"))
    by (subst r'; now get_set).
  assert (Heq : get r' "thumbsUpCount" = Spec.coerced (get d "thumbsUpCount"))
    by (subst r'; now get_set).
  exists d, r'. split; [exact Hn|]. split; [exact Hr|].
  assert (Hget : forall key cands,
            List.find (fun f => (fst f =? key)%string) TransformData.review_fields
            = Some (key, cands) ->
            get d key = Spec.first_present row cands).
  { intros key cands Hf. subst d.
    apply (get_fields (fun f => Spec.first_present row (snd f)) _ _ _ Hf). }
  clearbody r'. unfold Spec.csv_record_of. repeat split.
  - intros k. rewrite Hkeys. subst d. rewrite has_key_fields.
    unfold Spec.csv_record_keys. rewrite existsb_app.
    unfold Spec.is_derived_key, Spec.derived_keys, TransformData.review_fields.
    cbn [existsb map fst].
    destruct (k =? "at_iso")%string, (k =? "at_epoch")%string,
      (k =? "score")%string, (k =? "thumbsUpCount")%string;
      cbn [orb]; rewrite ?orb_true_r, ?orb_false_r; reflexivity.
  - rewrite Hscore. f_equal; now apply Hget.
  - rewrite Heq. f_equal; now apply Hget.
  - rewrite Hother by reflexivity. now apply Hget.
  - rewrite Hother by reflexivity. now apply Hget.
  - rewrite Hother by reflexivity. now apply Hget.
Qed.

(** X7.  For a CSV source whose rows have only string keys, the Review
    Transformer writes exactly one record per row, in order; the record has
    the twelve canonical keys and [at_iso], [at_epoch] and no other key, and
    its [score] and [thumbsUpCount] are the first value present among the
    candidate column names, coerced to an integer or null. *)
Theorem csv_rows_one_record_each (json_loads : string -> result pyval)
    (rows : list pydict) :
  forallb Spec.str_keys rows = true ->
  exists out,
    TransformData.transform_reviews json_loads (TransformData.Csv rows) None = Ok out
    /\ Forall2 Spec.csv_record_of rows out.
Proof.
  unfold TransformData.transform_reviews, TransformData._iter_reviews.
  generalize 0. induction rows as [|row rows IH]; intros c Hs.
  - exists []. split; [reflexivity | constructor].
  - cbn [forallb] in Hs. apply andb_prop in Hs. destruct Hs as [Hrow Hrows].
    destruct (transform_normalized_row row Hrow) as (d & r' & Hn & Hr & Hrec).
    destruct (IH (c + 1) Hrows) as (out & Hout & Hall).
    exists (r' :: out). split; [|now constructor].
    cbn [map TransformData.transform_loop]. rewrite Hn.
    cbn [bind TransformData.py_dict]. rewrite Hr. cbn [bind].
    now rewrite Hout.
Qed.

Lemma csv_rows_one_record_each_witness :
  exists out,
    TransformData.transform_reviews Samples.reject_all
      (TransformData.Csv [Samples.csv_row]) None = Ok out
    /\ Forall2 Spec.csv_record_of [Samples.csv_row] out.
Proof.
  apply (csv_rows_one_record_each Samples.reject_all [Samples.csv_row]).
  reflexivity.
Defined.

(** ** Dates from the Review Transformer to the Daily Metrics Aggregator *)

Lemma first_format_some (s : pyval) (fmts : list string) (iso : string) :
  TransformData.first_format s fmts = Some iso ->
  exists dt, valid dt = true /\ iso = isoformat_utc dt.
Proof.
  induction fmts as [|fmt fmts IH]; simpl; [discriminate|].
  destruct s; auto.
  destruct (strptime s fmt) eqn:E; auto.
  intros H. injection H as <-.
  exists a. split; [eapply strptime_valid; eauto | reflexivity].
Qed.

Lemma extract_date_of_iso (d : pydict) (dt : datetime) :
  get d "at_iso" = VStr (isoformat_utc dt) ->
  ComputeDailyMetrics._extract_date (VDict d) = Ok (Some (date_isoformat dt)).
Proof.
  intros H. unfold ComputeDailyMetrics._extract_date,
    ComputeDailyMetrics.obj_get, ComputeAppKpis.obj_get.
  cbn [bind]. rewrite H.
  destruct dt as [y m dd hh mm ss].
  unfold isoformat_utc, date_isoformat, pad4, pad2.
  cbn [year month day hour minute second append].
  reflexivity.
Qed.

(** X8.  When the raw [at] of a review parses with one of the three formats,
    the record the Review Transformer writes carries the ISO string of the
    parsed date and time, and the Daily Metrics Aggregator extracts from that
    record the calendar date of it, as [YYYY-MM-DD]. *)
Theorem daily_date_of_transformed_review (r : pydict) (s iso : string) :
  get r "at" = VStr s ->
  TransformData.first_format (VStr s) TransformData.human_formats = Some iso ->
  exists r' dt,
    TransformData.transform_record r = Ok r'
    /\ valid dt = true
    /\ get r' "at_iso" = VStr (isoformat_utc dt)
    /\ iso = isoformat_utc dt
    /\ ComputeDailyMetrics._extract_date (VDict r') = Ok (Some (date_isoformat dt)).
Proof.
  intros Hat Hf.
  destruct (at_iso_of_string r s Hat) as (r' & Hr & Hp).
  rewrite parse_human_datetime_str, Hf in Hp.
  destruct (first_format_some _ _ _ Hf) as (dt & Hv & ->).
  assert (Hne : (s =? "")%string = false).
  { destruct (String.eqb_spec s ""); [|reflexivity].
    subst s. vm_compute in Hf. discriminate. }
  rewrite Hne in Hp. injection Hp as Hp.
  exists r', dt. repeat split; auto.
  apply extract_date_of_iso. now symmetry.
Qed.

Lemma daily_date_of_transformed_review_witness :
  exists r' dt,
    TransformData.transform_record Samples.review_at_human = Ok r'
    /\ valid dt = true
    /\ get r' "at_iso" = VStr (isoformat_utc dt)
    /\ "2026-01-05T00:00:00+00:00" = isoformat_utc dt
    /\ ComputeDailyMetrics._extract_date (VDict r') = Ok (Some (date_isoformat dt)).
Proof.
  apply (daily_date_of_transformed_review Samples.review_at_human "Jan 5, 2026");
    vm_compute; reflexivity.
Defined.

(** ** ISO strings are ordered as the instants they denote *)

Lemma digit_char_compare (a b : Z) :
  0 <= a <= 9 -> 0 <= b <= 9 ->
  Ascii.compare (digit_char a) (digit_char b) = (a ?= b).
Proof.
  intros Ha Hb.
  assert (Ea : a = 0 \/ a = 1 \/ a = 2 \/ a = 3 \/ a = 4 \/ a = 5 \/ a = 6
               \/ a = 7 \/ a = 8 \/ a = 9) by lia.
  assert (Eb : b = 0 \/ b = 1 \/ b = 2 \/ b = 3 \/ b = 4 \/ b = 5 \/ b = 6
               \/ b = 7 \/ b = 8 \/ b = 9) by lia.
  repeat destruct Ea as [Ea | Ea]; subst a;
    repeat destruct Eb as [Eb | Eb]; subst b; reflexivity.
Qed.

Lemma ascii_compare_refl (c : ascii) : Ascii.compare c c = Eq.
Proof. unfold Ascii.compare. apply N.compare_refl. Qed.

Lemma string_compare_same_head (c : ascii) (s t : string) :
  String.compare (String c s) (String c t) = String.compare s t.
Proof. cbn [String.compare]. now rewrite ascii_compare_refl. Qed.

Lemma string_compare_refl (s : string) : String.compare s s = Eq.
Proof.
  induction s as [|c s IH]; [reflexivity|]. now rewrite string_compare_same_head.
Qed.

Lemma lexc_two_digits (a b : Z) (k : comparison) :
  0 <= a <= 99 -> 0 <= b <= 99 ->
  Spec.lexc (a / 10 ?= b / 10) (Spec.lexc (a mod 10 ?= b mod 10) k)
  = Spec.lexc (a ?= b) k.
Proof.
  intros Ha Hb. unfold Spec.lexc.
  destruct (Z.compare_spec (a / 10) (b / 10));
    destruct (Z.compare_spec (a mod 10) (b mod 10));
    destruct (Z.compare_spec a b);
    try reflexivity; exfalso; Z.div_mod_to_equations; lia.
Qed.

Lemma compare_pad2 (a b : Z) (s t : string) :
  0 <= a <= 99 -> 0 <= b <= 99 ->
  String.compare (pad2 a ++ s) (pad2 b ++ t)
  = Spec.lexc (a ?= b) (String.compare s t).
Proof.
  intros Ha Hb. unfold pad2. cbn [append String.compare].
  rewrite !digit_char_compare by (Z.div_mod_to_equations; lia).
  apply (lexc_two_digits a b _ Ha Hb).
Qed.

Lemma compare_pad4 (a b : Z) (s t : string) :
  0 <= a <= 9999 -> 0 <= b <= 9999 ->
  String.compare (pad4 a ++ s) (pad4 b ++ t)
  = Spec.lexc (a ?= b) (String.compare s t).
Proof.
  intros Ha Hb. unfold pad4.
  change (String.compare
            (String (digit_char (a / 1000))
               (String (digit_char (a / 100 mod 10)) (pad2 (a mod 100) ++ s)))
            (String (digit_char (b / 1000))
               (String (digit_char (b / 100 mod 10)) (pad2 (b mod 100) ++ t)))
          = Spec.lexc (a ?= b) (String.compare s t)).
  cbn [String.compare].
  rewrite !digit_char_compare by (Z.div_mod_to_equations; lia).
  rewrite compare_pad2 by (Z.div_mod_to_equations; lia).
  unfold Spec.lexc.
  destruct (Z.compare_spec (a / 1000) (b / 1000));
    destruct (Z.compare_spec (a / 100 mod 10) (b / 100 mod 10));
    destruct (Z.compare_spec (a mod 100) (b mod 100));
    destruct (Z.compare_spec a b);
    try reflexivity; exfalso; Z.div_mod_to_equations; lia.
Qed.

Lemma isoformat_utc_nested (dt : datetime) :
  isoformat_utc dt
  = (pad4 (year dt) ++ String "-" (pad2 (month dt) ++ String "-"
      (pad2 (day dt) ++ String "T" (pad2 (hour dt) ++ String ":"
        (pad2 (minute dt) ++ String ":" (pad2 (second dt) ++ "+00:00"))))))%string.
Proof. destruct dt. reflexivity. Qed.

Lemma isoformat_compare (a b : datetime) :
  valid a = true -> valid b = true ->
  String.compare (isoformat_utc a) (isoformat_utc b) = Spec.dt_compare a b.
Proof.
  intros Ha Hb.
  pose proof (valid_bounds a Ha) as (? & ? & ? & ? & ? & ?).
  pose proof (valid_bounds b Hb) as (? & ? & ? & ? & ? & ?).
  rewrite !isoformat_utc_nested. unfold Spec.dt_compare.
  rewrite compare_pad4, string_compare_same_head by lia.
  rewrite compare_pad2, string_compare_same_head by lia.
  rewrite compare_pad2, string_compare_same_head by lia.
  rewrite compare_pad2, string_compare_same_head by lia.
  rewrite compare_pad2, string_compare_same_head by lia.
  rewrite compare_pad2, string_compare_refl by lia.
  unfold Spec.lexc. destruct (second a ?= second b); reflexivity.
Qed.

Lemma year_step (y : Z) :
  days_before_year (y + 1) = days_before_year y + Spec.days_in_year y.
Proof.
  unfold Spec.days_in_year, is_leap, days_before_year.
  replace (y + 1 - 1) with y by lia.
  destruct (Z.eqb_spec (y mod 4) 0); destruct (Z.eqb_spec (y mod 100) 0);
    destruct (Z.eqb_spec (y mod 400) 0); cbn [negb andb orb];
    Z.div_mod_to_equations; lia.
Qed.

Lemma days_in_year_bounds (y : Z) : 365 <= Spec.days_in_year y <= 366.
Proof. unfold Spec.days_in_year. destruct (is_leap y); lia. Qed.

Lemma days_before_year_mono (y1 y2 : Z) :
  y1 <= y2 -> days_before_year y1 <= days_before_year y2.
Proof.
  intros H. replace y2 with (y1 + Z.of_nat (Z.to_nat (y2 - y1))) by lia.
  induction (Z.to_nat (y2 - y1)) as [|n IH]; [replace (y1 + Z.of_nat 0) with y1 by lia; lia|].
  replace (y1 + Z.of_nat (S n)) with (y1 + Z.of_nat n + 1) by lia.
  rewrite year_step. pose proof (days_in_year_bounds (y1 + Z.of_nat n)). lia.
Qed.

Lemma month_cases (m : Z) :
  1 <= m <= 12 ->
  m = 1 \/ m = 2 \/ m = 3 \/ m = 4 \/ m = 5 \/ m = 6 \/ m = 7
  \/ m = 8 \/ m = 9 \/ m = 10 \/ m = 11 \/ m = 12.
Proof. lia. Qed.

Lemma days_before_month_table (y m : Z) :
  1 <= m <= 12 ->
  days_before_month y m
  = Spec.month_offset m + (if (2 <? m) && is_leap y then 1 else 0).
Proof.
  intros H. apply month_cases in H.
  unfold days_before_month, days_in_month.
  generalize (is_leap y). intros l.
  repeat destruct H as [H | H]; subst m; destruct l; reflexivity.
Qed.

Lemma days_in_month_table (y m : Z) :
  1 <= m <= 12 ->
  days_in_month y m
  = Spec.month_length m + (if (m =? 2) && is_leap y then 1 else 0).
Proof.
  intros H. apply month_cases in H.
  unfold days_in_month.
  generalize (is_leap y). intros l.
  repeat destruct H as [H | H]; subst m; destruct l; reflexivity.
Qed.

Lemma valid_date_bounds (y m d : Z) :
  valid_date y m d = true ->
  1 <= y <= 9999 /\ 1 <= m <= 12
  /\ 1 <= d <= Spec.month_length m + (if (m =? 2) && is_leap y then 1 else 0).
Proof.
  unfold valid_date. intros H.
  repeat (apply andb_prop in H; destruct H as [H ?]).
  repeat match goal with H : (_ <=? _) = true |- _ => apply Z.leb_le in H end.
  rewrite <- days_in_month_table by lia. lia.
Qed.

Lemma day_of_year_bounds (y m d : Z) :
  valid_date y m d = true ->
  1 <= days_before_month y m + d <= Spec.days_in_year y.
Proof.
  intros H. apply valid_date_bounds in H. destruct H as (_ & Hm & Hd).
  rewrite days_before_month_table by lia.
  unfold Spec.days_in_year. revert Hd. generalize (is_leap y). intros l Hd.
  apply month_cases in Hm.
  repeat destruct Hm as [Hm | Hm]; subst m; destruct l;
    cbn -[Z.add] in *; lia.
Qed.

Lemma day_of_year_mono (y m1 d1 m2 d2 : Z) :
  valid_date y m1 d1 = true -> valid_date y m2 d2 = true ->
  m1 < m2 ->
  days_before_month y m1 + d1 < days_before_month y m2 + d2.
Proof.
  intros H1 H2 Hlt.
  apply valid_date_bounds in H1. destruct H1 as (_ & Hm1 & Hd1).
  apply valid_date_bounds in H2. destruct H2 as (_ & Hm2 & Hd2 & _).
  rewrite !days_before_month_table by lia.
  revert Hd1. generalize (is_leap y). intros l Hd1.
  apply month_cases in Hm1. apply month_cases in Hm2.
  repeat destruct Hm1 as [Hm1 | Hm1]; subst m1;
    repeat destruct Hm2 as [Hm2 | Hm2]; subst m2; try lia;
    destruct l; cbn -[Z.add] in *; lia.
Qed.

Lemma ymd2ord_compare (y1 m1 d1 y2 m2 d2 : Z) :
  valid_date y1 m1 d1 = true -> valid_date y2 m2 d2 = true ->
  (ymd2ord y1 m1 d1 ?= ymd2ord y2 m2 d2)
  = Spec.lexc (y1 ?= y2) (Spec.lexc (m1 ?= m2) (d1 ?= d2)).
Proof.
  intros H1 H2. unfold ymd2ord, Spec.lexc.
  pose proof (day_of_year_bounds _ _ _ H1) as B1.
  pose proof (day_of_year_bounds _ _ _ H2) as B2.
  destruct (Z.compare_spec y1 y2) as [->|Hy|Hy].
  - destruct (Z.compare_spec m1 m2) as [->|Hm|Hm].
    + destruct (Z.compare_spec d1 d2) as [->|Hd|Hd].
      * apply Z.compare_refl.
      * apply Z.compare_lt_iff. lia.
      * apply Z.compare_gt_iff. lia.
    + apply Z.compare_lt_iff. pose proof (day_of_year_mono _ _ _ _ _ H1 H2 Hm). lia.
    + apply Z.compare_gt_iff. pose proof (day_of_year_mono _ _ _ _ _ H2 H1 Hm). lia.
  - apply Z.compare_lt_iff.
    pose proof (days_before_year_mono (y1 + 1) y2 ltac:(lia)) as M.
    rewrite year_step in M. lia.
  - apply Z.compare_gt_iff.
    pose proof (days_before_year_mono (y2 + 1) y1 ltac:(lia)) as M.
    rewrite year_step in M. lia.
Qed.

Lemma seconds_compare (a b : datetime) :
  valid a = true -> valid b = true ->
  (seconds_since_epoch a ?= seconds_since_epoch b) = Spec.dt_compare a b.
Proof.
  intros Ha Hb. unfold valid in Ha, Hb.
  apply andb_prop in Ha. destruct Ha as [Da Ta].
  apply andb_prop in Hb. destruct Hb as [Db Tb].
  pose proof (ymd2ord_compare _ _ _ _ _ _ Da Db) as Ho.
  unfold valid_time in Ta, Tb.
  repeat (apply andb_prop in Ta; destruct Ta as [Ta ?]).
  repeat (apply andb_prop in Tb; destruct Tb as [Tb ?]).
  repeat match goal with H : (_ <=? _) = true |- _ => apply Z.leb_le in H end.
  unfold seconds_since_epoch, Spec.dt_compare.
  set (oa := ymd2ord (year a) (month a) (day a)) in *.
  set (ob := ymd2ord (year b) (month b) (day b)) in *.
  assert (Hlex : Spec.lexc (year a ?= year b)
           (Spec.lexc (month a ?= month b)
              (Spec.lexc (day a ?= day b)
                 (Spec.lexc (hour a ?= hour b)
                    (Spec.lexc (minute a ?= minute b) (second a ?= second b)))))
          = Spec.lexc (oa ?= ob)
              (Spec.lexc (hour a ?= hour b)
                 (Spec.lexc (minute a ?= minute b) (second a ?= second b)))).
  { rewrite Ho. unfold Spec.lexc.
    destruct (year a ?= year b), (month a ?= month b), (day a ?= day b); reflexivity. }
  rewrite Hlex. unfold Spec.lexc.
  destruct (Z.compare_spec oa ob);
    destruct (Z.compare_spec (hour a) (hour b));
    destruct (Z.compare_spec (minute a) (minute b));
    destruct (Z.compare_spec (second a) (second b));
    first [ apply Z.compare_eq_iff; lia
          | apply Z.compare_lt_iff; lia
          | apply Z.compare_gt_iff; lia ].
Qed.

(** X9.  The comparison [date_str < self.first_date] of the KPI aggregator,
    applied to two [at_iso] strings of existing dates and times, is the order
    of the instants: the ISO string of [a] is below that of [b] exactly when
    [a] is earlier than [b], by the number of seconds since the epoch. *)
Theorem iso_order_is_chronological (a b : datetime) :
  valid a = true -> valid b = true ->
  py_lt (VStr (isoformat_utc a)) (VStr (isoformat_utc b))
  = Ok (seconds_since_epoch a <? seconds_since_epoch b)
  /\ String.compare (isoformat_utc a) (isoformat_utc b)
     = (seconds_since_epoch a ?= seconds_since_epoch b).
Proof.
  intros Ha Hb.
  assert (E : String.compare (isoformat_utc a) (isoformat_utc b)
              = (seconds_since_epoch a ?= seconds_since_epoch b))
    by now rewrite isoformat_compare, seconds_compare.
  split; [|exact E].
  cbn [py_lt]. unfold String.ltb, Z.ltb. rewrite E.
  destruct (seconds_since_epoch a ?= seconds_since_epoch b); reflexivity.
Qed.

Lemma iso_order_is_chronological_witness :
  py_lt (VStr (isoformat_utc Samples.last_second_2024))
        (VStr (isoformat_utc Samples.new_year_2025))
  = Ok (seconds_since_epoch Samples.last_second_2024
        <? seconds_since_epoch Samples.new_year_2025).
Proof.
  apply (iso_order_is_chronological Samples.last_second_2024 Samples.new_year_2025);
    reflexivity.
Defined.

(** ** What the KPI aggregator counts *)

Lemma key_eqb_str_inv_l (s : string) (id : pyval) :
  key_eqb (VStr s) id = true -> id = VStr s.
Proof.
  destruct id; simpl; try discriminate.
  intros H. apply String.eqb_eq in H. now subst.
Qed.

Lemma find_store_agg_str (s : string) (id : pyval) (a : ComputeAppKpis.AppAgg)
    (aggs : ComputeAppKpis.aggregates) :
  ComputeAppKpis.find_agg (VStr s) (ComputeAppKpis.store_agg id a aggs)
  = if key_eqb id (VStr s) then Some a
    else ComputeAppKpis.find_agg (VStr s) aggs.
Proof.
  induction aggs as [|[k a0] aggs IH]; cbn [ComputeAppKpis.store_agg ComputeAppKpis.find_agg].
  - reflexivity.
  - destruct (key_eqb k id) eqn:Eki; cbn [ComputeAppKpis.find_agg].
    + destruct (key_eqb k (VStr s)) eqn:Eks.
      * apply key_eqb_str_inv in Eks. subst k.
        apply key_eqb_str_inv_l in Eki. subst id.
        now rewrite key_eqb_str_refl.
      * destruct (key_eqb id (VStr s)) eqn:Eis; [|reflexivity].
        apply key_eqb_str_inv in Eis. subst id. congruence.
    + destruct (key_eqb k (VStr s)) eqn:Eks.
      * destruct (key_eqb id (VStr s)) eqn:Eis; [|reflexivity].
        apply key_eqb_str_inv in Eis. subst id. congruence.
      * exact IH.
Qed.

Lemma update_counts (a a' : ComputeAppKpis.AppAgg) (score : option Z) (date : pyval) :
  ComputeAppKpis.update a score date = Ok a' ->
  ComputeAppKpis.app_id a' = ComputeAppKpis.app_id a
  /\ ComputeAppKpis.num_reviews a' = ComputeAppKpis.num_reviews a + 1
  /\ ComputeAppKpis.rated_reviews a'
     = ComputeAppKpis.rated_reviews a
       + match score with Some _ => 1 | None => 0 end.
Proof.
  unfold ComputeAppKpis.update. intros H.
  apply bind_ok in H. destruct H as ([[rated total] low] & Hs & H).
  apply bind_ok in H. destruct H as (dates & _ & H).
  injection H as <-. cbn. repeat split.
  destruct score as [sc|].
  - apply bind_ok in Hs. destruct Hs as (f & _ & Hs). now injection Hs as <- _ _.
  - injection Hs as <- _ _. lia.
Qed.

Lemma store_agg_entries (id : pyval) (a' : ComputeAppKpis.AppAgg)
    (aggs : ComputeAppKpis.aggregates) :
  Forall Spec.agg_entry_ok aggs ->
  1 <= ComputeAppKpis.num_reviews a' ->
  ComputeAppKpis.app_id a'
  = match ComputeAppKpis.find_agg id aggs with
    | Some a => ComputeAppKpis.app_id a
    | None => id
    end ->
  Forall Spec.agg_entry_ok (ComputeAppKpis.store_agg id a' aggs).
Proof.
  intros Hall Hn. induction Hall as [|[k a0] aggs [Hk H0] Hall IH];
    cbn [ComputeAppKpis.store_agg ComputeAppKpis.find_agg].
  - intros Hid. constructor; [split; assumption | constructor].
  - cbn [fst snd] in Hk. destruct (key_eqb k id).
    + intros Hid. constructor; [split; cbn [fst snd]; congruence | exact Hall].
    + intros Hid. constructor; [split; assumption | now apply IH].
Qed.

Lemma find_agg_in (id : pyval) (a : ComputeAppKpis.AppAgg)
    (aggs : ComputeAppKpis.aggregates) :
  ComputeAppKpis.find_agg id aggs = Some a ->
  exists k, key_eqb k id = true /\ In (k, a) aggs.
Proof.
  induction aggs as [|[k a0] aggs IH]; cbn [ComputeAppKpis.find_agg]; [discriminate|].
  destruct (key_eqb k id) eqn:E.
  - intros H. injection H as ->. exists k. split; [exact E | now left].
  - intros H. destruct (IH H) as (k' & Hk & Hin). exists k'. split; [exact Hk | now right].
Qed.

(** The effect of one object on the counts of the app [s]. *)
Lemma kpi_process_obj_counts (s : string) (aggs aggs' : ComputeAppKpis.aggregates)
    (obj : pyval) :
  Forall Spec.agg_entry_ok aggs ->
  ComputeAppKpis.process_obj aggs obj = Ok aggs' ->
  Forall Spec.agg_entry_ok aggs'
  /\ Spec.num_of s aggs'
     = Spec.num_of s aggs + (if Spec.review_of s obj then 1 else 0)
  /\ Spec.rated_of s aggs'
     = Spec.rated_of s aggs + (if Spec.rated_review_of s obj then 1 else 0).
Proof.
  intros Hall H. unfold ComputeAppKpis.process_obj in H.
  apply bind_ok in H. destruct H as (id & Hid & H).
  destruct obj as [| | | | | |d]; try discriminate Hid.
  cbn [ComputeAppKpis.obj_get] in Hid. injection Hid as <-.
  unfold Spec.rated_review_of, Spec.review_of.
  destruct (truthy (get d "appId")) eqn:Et; cbn [negb] in H.
  2:{ injection H as <-. split; [exact Hall|].
      destruct (get d "appId") as [| | | |s'| |];
        try (cbn [andb]; split; lia).
      cbn [truthy] in Et. apply negb_false_iff, String.eqb_eq in Et. subst s'.
      destruct (String.eqb_spec "" s) as [<-|Hne]; cbn -[Z.add]; split; lia. }
  apply bind_ok in H. destruct H as (score & Hsc & H).
  cbn [ComputeAppKpis.obj_get] in Hsc. injection Hsc as <-.
  apply bind_ok in H. destruct H as (score_val & Hsv & H).
  apply bind_ok in H. destruct H as (at_iso & _ & H).
  apply bind_ok in H. destruct H as (date_str & _ & H).
  destruct (hashable (get d "appId")) eqn:Eh; cbn [negb] in H; [|discriminate].
  apply bind_ok in H. destruct H as (agg' & Hup & H). injection H as <-.
  apply update_counts in Hup. destruct Hup as (Hid & Hnum & Hrated).
  assert (Hsome : match score_val with Some _ => 1 | None => 0 end
                  = if is_int_or_float (get d "score") then 1 else 0).
  { destruct (is_int_or_float (get d "score")).
    - apply bind_ok in Hsv. destruct Hsv as (z & _ & Hsv). now injection Hsv as <-.
    - now injection Hsv as <-. }
  rewrite Hsome in Hrated. clear Hsome Hsv.
  split.
  - apply store_agg_entries; [exact Hall | |].
    + rewrite Hnum. destruct (ComputeAppKpis.find_agg (get d "appId") aggs) as [a|] eqn:Ef.
      * destruct (find_agg_in _ _ _ Ef) as (k & _ & Hin).
        rewrite Forall_forall in Hall. destruct (Hall _ Hin) as [_ H1].
        cbn [snd] in H1. lia.
      * cbn. lia.
    + rewrite Hid. destruct (ComputeAppKpis.find_agg (get d "appId") aggs); reflexivity.
  - unfold Spec.num_of, Spec.rated_of. rewrite !find_store_agg_str.
    destruct (key_eqb (get d "appId") (VStr s)) eqn:Ek.
    + apply key_eqb_str_inv in Ek. rewrite Ek in *.
      cbn [truthy] in Et. rewrite String.eqb_refl.
      assert (Hs : negb (s =? "")%string = true) by exact Et.
      rewrite Hs. cbn [andb]. rewrite Hnum, Hrated.
      destruct (ComputeAppKpis.find_agg (VStr s) aggs); cbn; split; lia.
    + assert (Hno : match get d "appId" with
                    | VStr s' => (s' =? s)%string && negb (s =? "")%string
                    | _ => false
                    end = false).
      { destruct (get d "appId") as [| | | |s'| |]; try reflexivity.
        simpl in Ek. now rewrite Ek. }
      rewrite Hno. cbn [andb]. split; lia.
Qed.

Lemma count_cons {A : Type} (p : A -> bool) (x : A) (l : list A) :
  Spec.count p (x :: l) = (if p x then 1 else 0) + Spec.count p l.
Proof.
  unfold Spec.count. cbn [filter]. destruct (p x); cbn [List.length]; lia.
Qed.

Lemma kpi_aggregate_counts (s : string) (objs : list pyval)
    (aggs aggs' : ComputeAppKpis.aggregates) :
  Forall Spec.agg_entry_ok aggs ->
  ComputeAppKpis.aggregate aggs objs = Ok aggs' ->
  Forall Spec.agg_entry_ok aggs'
  /\ Spec.num_of s aggs' = Spec.num_of s aggs + Spec.count (Spec.review_of s) objs
  /\ Spec.rated_of s aggs'
     = Spec.rated_of s aggs + Spec.count (Spec.rated_review_of s) objs.
Proof.
  revert aggs. induction objs as [|obj objs IH]; intros aggs Hall H.
  - injection H as <-. unfold Spec.count. cbn. repeat split; auto; lia.
  - cbn [ComputeAppKpis.aggregate] in H.
    apply bind_ok in H. destruct H as (aggs1 & Hp & H).
    destruct (kpi_process_obj_counts s _ _ _ Hall Hp) as (Hall1 & Hn1 & Hr1).
    destruct (IH _ Hall1 H) as (Hall' & Hn & Hr).
    rewrite !count_cons. repeat split; auto; lia.
Qed.

Lemma kpi_rows_for_in (aggs : ComputeAppKpis.aggregates) (ids : list pyval)
    (rows : list pydict) :
  ComputeAppKpis.rows_for aggs ids = Ok rows ->
  forall row, In row rows ->
  exists id a, ComputeAppKpis.find_agg id aggs = Some a
               /\ ComputeAppKpis.to_row a = Ok row.
Proof.
  revert rows. induction ids as [|id ids IH]; intros rows H row Hin.
  - injection H as <-. destruct Hin.
  - cbn [ComputeAppKpis.rows_for] in H.
    destruct (ComputeAppKpis.find_agg id aggs) as [a|] eqn:Ef; [|eauto].
    apply bind_ok in H. destruct H as (r0 & Hr & H).
    apply bind_ok in H. destruct H as (rest & Hrest & H).
    injection H as <-. destruct Hin as [<- | Hin]; eauto.
Qed.

Lemma kpi_to_row_fields (a : ComputeAppKpis.AppAgg) (row : pydict) :
  ComputeAppKpis.to_row a = Ok row ->
  get row "appId" = ComputeAppKpis.app_id a
  /\ get row "num_reviews" = VInt (ComputeAppKpis.num_reviews a)
  /\ (get row "avg_rating" = VStr "" <-> ComputeAppKpis.rated_reviews a <= 0)
  /\ (get row "low_rating_pct" = VStr "" <-> ComputeAppKpis.rated_reviews a <= 0).
Proof.
  unfold ComputeAppKpis.to_row. intros H.
  apply bind_ok in H. destruct H as ([avg pct] & Hs & H).
  injection H as <-. split; [reflexivity|]. split; [reflexivity|].
  change (get _ "avg_rating") with (ComputeAppKpis.rounded_or_empty avg).
  change (get _ "low_rating_pct") with (ComputeAppKpis.rounded_or_empty pct).
  destruct (Z.ltb_spec 0 (ComputeAppKpis.rated_reviews a)) as [Hpos|Hle].
  - apply bind_ok in Hs. destruct Hs as (n & _ & Hs).
    apply bind_ok in Hs. destruct Hs as (q & _ & Hs).
    apply bind_ok in Hs. destruct Hs as (frac & _ & Hs).
    injection Hs as <- <-. cbn [ComputeAppKpis.rounded_or_empty].
    split; (split; [discriminate | lia]).
  - injection Hs as <- <-. cbn [ComputeAppKpis.rounded_or_empty].
    split; (split; [intros _; exact Hle | reflexivity]).
Qed.

(** X10.  In every row the KPI aggregator writes for an app whose [appId]
    is a string, [num_reviews] is the number of reviews of the stream that
    carry this [appId], at least one, whatever their score; and [avg_rating]
    and [low_rating_pct] are empty exactly when none of these reviews has a
    numeric score. *)
Theorem kpi_row_counts (json_loads : string -> result pyval)
    (lines : list string) (rows : list pydict) :
  ComputeAppKpis.compute_app_kpis json_loads lines = Ok rows ->
  forall row s, In row rows -> get row "appId" = VStr s ->
  let objs := Spec.decoded json_loads lines in
  get row "num_reviews" = VInt (Spec.count (Spec.review_of s) objs)
  /\ 1 <= Spec.count (Spec.review_of s) objs
  /\ (get row "avg_rating" = VStr ""
      <-> Spec.count (Spec.rated_review_of s) objs = 0)
  /\ (get row "low_rating_pct" = VStr ""
      <-> Spec.count (Spec.rated_review_of s) objs = 0).
Proof.
  intros H row s Hin Hs objs.
  unfold ComputeAppKpis.compute_app_kpis in H.
  apply bind_ok in H. destruct H as (aggs & Hread & Hrows).
  rewrite kpi_read_lines_aggregate in Hread. fold (Spec.decoded json_loads lines) in Hread.
  fold objs in Hread.
  destruct (kpi_aggregate_counts s _ _ _ (Forall_nil _) Hread) as (Hall & Hn & Hr).
  unfold ComputeAppKpis.write_rows in Hrows.
  apply bind_ok in Hrows. destruct Hrows as (ids & _ & Hrows).
  destruct (kpi_rows_for_in _ _ _ Hrows row Hin) as (id & a & Ef & Hrow).
  destruct (kpi_to_row_fields _ _ Hrow) as (Hid & Hnum & Havg & Hpct).
  destruct (find_agg_in _ _ _ Ef) as (k & Hk & Hink).
  rewrite Forall_forall in Hall. destruct (Hall _ Hink) as [Hkey H1].
  cbn [fst snd] in Hkey, H1.
  assert (Hids : id = VStr s).
  { rewrite Hid, Hkey in Hs. subst k. now apply key_eqb_str_inv_l. }
  subst id. unfold Spec.num_of, Spec.rated_of in Hn, Hr.
  rewrite Ef in Hn, Hr. cbn [ComputeAppKpis.find_agg] in Hn, Hr.
  assert (Hcount : 0 <= Spec.count (Spec.rated_review_of s) objs)
    by (unfold Spec.count; lia).
  rewrite Hnum, Havg, Hpct. repeat split; try lia; now f_equal.
Qed.

Lemma kpi_row_counts_witness :
  Spec.count (Spec.review_of "a")
    (Spec.decoded Samples.kpi_lines ["rated"; "anonymous"; "unrated"]) = 2
  /\ 1 <= Spec.count (Spec.review_of "a")
            (Spec.decoded Samples.kpi_lines ["rated"; "anonymous"; "unrated"])
  /\ Spec.count (Spec.rated_review_of "a")
       (Spec.decoded Samples.kpi_lines ["rated"; "anonymous"; "unrated"]) <> 0.
Proof.
  pose proof (kpi_row_counts Samples.kpi_lines ["rated"; "anonymous"; "unrated"]
    [[(VStr "appId", VStr "a"); (VStr "num_reviews", VInt 2);
      (VStr "avg_rating", VFloat (float_of_Z 4));
      (VStr "low_rating_pct", VFloat (S754_zero false));
      (VStr "first_review_date", VStr "2025-01-01T10:00:00+00:00");
      (VStr "last_review_date", VStr "2025-01-01T10:00:00+00:00")]]
    ltac:(vm_compute; reflexivity) _ "a" (or_introl eq_refl) eq_refl) as H.
  cbv zeta in H. destruct H as (Hn & H1 & Havg & _).
  split; [|split; [exact H1|]].
  - exact (f_equal (fun v => match v with VInt z => z | _ => 0 end) (eq_sym Hn)).
  - intros H0. apply Havg in H0. discriminate H0.
Defined.

Lemma kpi_read_lines_app (json_loads : string -> result pyval)
    (l1 l2 : list string) (aggs : ComputeAppKpis.aggregates) :
  ComputeAppKpis.read_lines json_loads aggs (l1 ++ l2)
  = bind (ComputeAppKpis.read_lines json_loads aggs l1)
         (fun aggs' => ComputeAppKpis.read_lines json_loads aggs' l2).
Proof.
  revert aggs. induction l1 as [|line l1 IH]; intros aggs; [reflexivity|].
  cbn [app ComputeAppKpis.read_lines].
  destruct (strip line =? "")%string; [apply IH|].
  destruct (json_loads (strip line)) as [obj|e]; [|apply IH].
  destruct (ComputeAppKpis.process_obj aggs obj); cbn [bind];
    [apply IH | reflexivity].
Qed.

(** X11.  A review without [appId] (absent, null, the empty string, zero)
    leaves the KPI aggregator unchanged: the rows written are those of the
    stream without its line, whatever its score and date. *)
Theorem kpi_skips_review_without_app_id (json_loads : string -> result pyval)
    (pre post : list string) (line : string) (d : pydict) :
  json_loads (strip line) = Ok (VDict d) ->
  truthy (get d "appId") = false ->
  ComputeAppKpis.compute_app_kpis json_loads (pre ++ line :: post)
  = ComputeAppKpis.compute_app_kpis json_loads (pre ++ post).
Proof.
  intros Hl Hid. unfold ComputeAppKpis.compute_app_kpis.
  rewrite !kpi_read_lines_app. f_equal.
  destruct (ComputeAppKpis.read_lines json_loads [] pre) as [aggs|];
    cbn [bind]; [|reflexivity].
  cbn [ComputeAppKpis.read_lines].
  destruct (strip line =? "")%string; [reflexivity|].
  rewrite Hl. unfold ComputeAppKpis.process_obj.
  cbn [ComputeAppKpis.obj_get bind]. now rewrite Hid.
Qed.

Lemma kpi_skips_review_without_app_id_witness :
  ComputeAppKpis.compute_app_kpis Samples.kpi_lines ["rated"; "anonymous"; "unrated"]
  = ComputeAppKpis.compute_app_kpis Samples.kpi_lines ["rated"; "unrated"].
Proof.
  apply (kpi_skips_review_without_app_id Samples.kpi_lines
           ["rated"] ["unrated"] "anonymous"
           [(VStr "score", VInt 1);
            (VStr "at_iso", VStr "2025-01-02T10:00:00+00:00")]);
    reflexivity.
Defined.

(** ** The order of the rows of the Daily Metrics Aggregator *)

Lemma ascii_compare_lt_trans (a b c : ascii) :
  Ascii.compare a b = Lt -> Ascii.compare b c = Lt -> Ascii.compare a c = Lt.
Proof.
  unfold Ascii.compare. rewrite !N.compare_lt_iff. apply N.lt_trans.
Qed.

Lemma string_compare_lt_trans (a b c : string) :
  String.compare a b = Lt -> String.compare b c = Lt -> String.compare a c = Lt.
Proof.
  revert b c. induction a as [|x a IH]; intros [|y b] [|z c]; cbn [String.compare];
    try discriminate; try reflexivity.
  destruct (Ascii.compare x y) eqn:Exy; try discriminate;
    destruct (Ascii.compare y z) eqn:Eyz; try discriminate.
  - apply Ascii.compare_eq_iff in Exy, Eyz. subst. rewrite ascii_compare_refl. apply IH.
  - apply Ascii.compare_eq_iff in Exy. subst. now rewrite Eyz.
  - apply Ascii.compare_eq_iff in Eyz. subst. now rewrite Exy.
  - now rewrite (ascii_compare_lt_trans _ _ _ Exy Eyz).
Qed.

Lemma str_lt_trans (a b c : string) : Spec.str_lt a b -> Spec.str_lt b c -> Spec.str_lt a c.
Proof.
  unfold Spec.str_lt, String.ltb.
  destruct (String.compare a b) eqn:Eab; try discriminate.
  destruct (String.compare b c) eqn:Ebc; try discriminate.
  now rewrite (string_compare_lt_trans _ _ _ Eab Ebc).
Qed.

Lemma str_lt_total (a b : string) : String.ltb a b = false -> a = b \/ Spec.str_lt b a.
Proof.
  unfold Spec.str_lt, String.ltb.
  destruct (String.compare a b) eqn:E; try discriminate; intros _.
  - left. now apply String.compare_eq_iff.
  - right. now rewrite (String.compare_antisym b a), E.
Qed.

Lemma insert_str_in (x z : string) (l : list string) :
  In z (ComputeDailyMetrics.insert_str x l) <-> z = x \/ In z l.
Proof.
  induction l as [|y l IH]; cbn [ComputeDailyMetrics.insert_str In].
  - intuition.
  - destruct (String.ltb x y); cbn [In]; [intuition | rewrite IH; intuition].
Qed.

Lemma insert_str_sorted (x : string) (l : list string) :
  StronglySorted Spec.str_lt l -> ~ In x l ->
  StronglySorted Spec.str_lt (ComputeDailyMetrics.insert_str x l).
Proof.
  intros Hs. induction Hs as [|y l Hs IH Hy]; intros Hnot;
    cbn [ComputeDailyMetrics.insert_str].
  - constructor; constructor.
  - destruct (String.ltb x y) eqn:E.
    + constructor; [now constructor|]. constructor; [exact E|].
      rewrite Forall_forall in *. intros z Hz. eapply str_lt_trans; [exact E | now apply Hy].
    + destruct (str_lt_total _ _ E) as [->|Hlt]; [exfalso; apply Hnot; now left|].
      constructor; [apply IH; intros Hin; apply Hnot; now right|].
      rewrite Forall_forall in *. intros z Hz. apply insert_str_in in Hz.
      destruct Hz as [->|Hz]; [exact Hlt | now apply Hy].
Qed.

Lemma sorted_in (z : string) (l : list string) :
  In z (ComputeDailyMetrics.sorted l) <-> In z l.
Proof.
  unfold ComputeDailyMetrics.sorted.
  induction l as [|x l IH]; cbn [fold_right In]; [reflexivity|].
  rewrite insert_str_in, IH. intuition.
Qed.

Lemma sorted_strongly_sorted (l : list string) :
  NoDup l -> StronglySorted Spec.str_lt (ComputeDailyMetrics.sorted l).
Proof.
  unfold ComputeDailyMetrics.sorted.
  induction 1 as [|x l Hx Hnd IH]; cbn [fold_right]; [constructor|].
  apply insert_str_sorted; [exact IH|].
  intros Hin. apply Hx. now apply (sorted_in x l).
Qed.

Lemma store_day_keys_in (d k : string) (e : ComputeDailyMetrics.entry)
    (daily : ComputeDailyMetrics.daily_map) :
  In k (map fst (ComputeDailyMetrics.store_day d e daily))
  <-> k = d \/ In k (map fst daily).
Proof.
  induction daily as [|[k0 e0] daily IH]; cbn [ComputeDailyMetrics.store_day map fst In].
  - intuition.
  - destruct (String.eqb_spec k0 d) as [->|Hne]; cbn [map fst In].
    + intuition.
    + rewrite IH. intuition.
Qed.

Lemma store_day_ok (d : string) (e : ComputeDailyMetrics.entry)
    (daily : ComputeDailyMetrics.daily_map) :
  Spec.daily_ok daily -> 1 <= fst (fst e) ->
  Spec.daily_ok (ComputeDailyMetrics.store_day d e daily).
Proof.
  intros [Hnd Hall] He. induction daily as [|[k0 e0] daily IH];
    cbn [ComputeDailyMetrics.store_day].
  - split; [cbn; constructor; [intros []|constructor] | constructor; [exact He|constructor]].
  - cbn [map fst] in Hnd. inversion Hnd as [|? ? Hk0 Hnd']; subst.
    inversion Hall as [|? ? H0 Hall']; subst.
    destruct (String.eqb_spec k0 d) as [->|Hne].
    + split; [exact Hnd | constructor; [exact He | exact Hall']].
    + destruct (IH Hnd' Hall') as [Hnd1 Hall1].
      split; [|constructor; assumption].
      cbn [map fst]. constructor; [|exact Hnd1].
      rewrite store_day_keys_in. intros [->|Hin]; [now apply Hne | now apply Hk0].
Qed.

Lemma find_day_in (d : string) (daily : ComputeDailyMetrics.daily_map) :
  In d (map fst daily) <-> exists e, ComputeDailyMetrics.find_day d daily = Some e.
Proof.
  induction daily as [|[k0 e0] daily IH]; cbn [ComputeDailyMetrics.find_day map fst In].
  - split; [intros [] | intros [e H]; discriminate].
  - destruct (String.eqb_spec k0 d) as [->|Hne].
    + split; [eauto | now left].
    + rewrite IH. split; [intros [?|H]; [contradiction | exact H] | now right].
Qed.

Lemma find_day_entry (d : string) (e : ComputeDailyMetrics.entry)
    (daily : ComputeDailyMetrics.daily_map) :
  ComputeDailyMetrics.find_day d daily = Some e -> In (d, e) daily.
Proof.
  induction daily as [|[k0 e0] daily IH]; cbn [ComputeDailyMetrics.find_day]; [discriminate|].
  destruct (String.eqb_spec k0 d) as [->|Hne].
  - intros H. injection H as ->. now left.
  - intros H. right. now apply IH.
Qed.

Lemma daily_process_ok (daily daily' : ComputeDailyMetrics.daily_map) (obj : pyval) :
  Spec.daily_ok daily ->
  ComputeDailyMetrics.process_obj daily obj = Ok daily' -> Spec.daily_ok daily'.
Proof.
  intros Hok H. unfold ComputeDailyMetrics.process_obj in H.
  apply bind_ok in H. destruct H as ([d0|] & _ & H); [|now injection H as <-].
  destruct (d0 =? "")%string; [now injection H as <-|].
  apply bind_ok in H. destruct H as (score & _ & H).
  apply bind_ok in H. destruct H as (rs & _ & H).
  destruct (ComputeDailyMetrics.find_day d0 daily) as [[[c r] t]|] eqn:Ef;
    injection H as <-; apply store_day_ok; auto; cbn [fst].
  - apply find_day_entry in Ef. destruct Hok as [_ Hall].
    rewrite Forall_forall in Hall. specialize (Hall _ Ef). unfold Spec.day_entry_ok in Hall.
    cbn in Hall. lia.
  - lia.
Qed.

Lemma daily_read_lines_ok (json_loads : string -> result pyval) (lines : list string)
    (daily daily' : ComputeDailyMetrics.daily_map) :
  Spec.daily_ok daily ->
  ComputeDailyMetrics.read_lines json_loads daily lines = Ok daily' -> Spec.daily_ok daily'.
Proof.
  revert daily. induction lines as [|line lines IH]; intros daily Hok H.
  - now injection H as <-.
  - cbn [ComputeDailyMetrics.read_lines] in H.
    destruct (strip line =? "")%string; [now apply (IH daily)|].
    destruct (json_loads (strip line)) as [obj|e]; [|now apply (IH daily)].
    apply bind_ok in H. destruct H as (daily1 & Hp & H).
    apply (IH daily1); [|exact H]. eapply daily_process_ok; eauto.
Qed.

Lemma daily_rows_dates (daily : ComputeDailyMetrics.daily_map) (dates : list string)
    (rows : list pydict) :
  (forall d, In d dates -> In d (map fst daily)) ->
  ComputeDailyMetrics.rows_for daily dates = Ok rows ->
  map (fun row => get row "date") rows = map VStr dates.
Proof.
  revert rows. induction dates as [|d dates IH]; intros rows Hin H.
  - now injection H as <-.
  - cbn [ComputeDailyMetrics.rows_for] in H.
    destruct (proj1 (find_day_in d daily) (Hin d (or_introl eq_refl))) as [[[c r] t] Ef].
    rewrite Ef in H.
    apply bind_ok in H. destruct H as (r0 & Hr & H).
    apply bind_ok in H. destruct H as (rest & Hrest & H).
    injection H as <-. cbn [map].
    destruct (daily_row_of_fields _ _ _ _ _ Hr) as [-> _].
    f_equal. apply IH; [|exact Hrest]. intros d' Hd'. apply Hin. now right.
Qed.

(** X12.  The rows the Daily Metrics Aggregator writes are in strictly
    ascending order of date, so no date has two rows, and a date has a row
    exactly when at least one line holds a review from which this date is
    extracted. *)
Theorem daily_rows_sorted_by_date (json_loads : string -> result pyval)
    (lines : list string) (rows : list pydict) :
  ComputeDailyMetrics.compute_daily_metrics json_loads lines = Ok rows ->
  exists dates,
    map (fun row => get row "date") rows = map VStr dates
    /\ StronglySorted Spec.str_lt dates
    /\ forall d, In d dates <-> 1 <= Spec.count_dated json_loads d lines.
Proof.
  unfold ComputeDailyMetrics.compute_daily_metrics. intros H.
  apply bind_ok in H. destruct H as (daily & Hread & Hrows).
  unfold ComputeDailyMetrics.write_rows in Hrows.
  assert (Hok : Spec.daily_ok daily).
  { eapply daily_read_lines_ok; [|exact Hread]. split; constructor. }
  exists (ComputeDailyMetrics.sorted (map fst daily)). split; [|split].
  - apply (daily_rows_dates daily); [|exact Hrows].
    intros d Hd. now apply sorted_in.
  - apply sorted_strongly_sorted. apply Hok.
  - intros d. rewrite sorted_in.
    pose proof (daily_read_lines_count _ _ _ _ Hread d) as Hc.
    unfold Spec.count_of in Hc. cbn [ComputeDailyMetrics.find_day] in Hc.
    rewrite find_day_in. split.
    + intros [[[c r] t] Ef]. rewrite Ef in Hc.
      apply find_day_entry in Ef. destruct Hok as [_ Hall].
      rewrite Forall_forall in Hall. specialize (Hall _ Ef).
      unfold Spec.day_entry_ok in Hall. cbn in Hall. lia.
    + intros H1. destruct (ComputeDailyMetrics.find_day d daily) as [e|]; [eauto|lia].
Qed.

Lemma daily_rows_sorted_by_date_witness :
  exists dates,
    map (fun row => get row "date")
        [[(VStr "date", VStr "2025-01-01"); (VStr "daily_num_reviews", VInt 2);
          (VStr "daily_avg_rating", VFloat (float_of_Z 4))]]
    = map VStr dates
    /\ StronglySorted Spec.str_lt dates
    /\ forall d, In d dates
                 <-> 1 <= Spec.count_dated Samples.two_lines d
                            ["dated"; "undated"; "dated"].
Proof.
  apply (daily_rows_sorted_by_date Samples.two_lines ["dated"; "undated"; "dated"]).
  vm_compute. reflexivity.
Defined.

(** ** The dates the KPI aggregator keeps *)

Lemma str_ltb_irrefl (x : string) : String.ltb x x = false.
Proof. unfold String.ltb. now rewrite string_compare_refl. Qed.

Lemma extremes_snoc (ds : list string) (lo hi : pyval) (x : string) :
  Spec.extremes VNone ds lo hi ->
  Spec.extremes VNone (ds ++ [x])%list
    (match lo with VStr m => if String.ltb x m then VStr x else lo | _ => VStr x end)
    (match hi with VStr M => if String.ltb M x then VStr x else hi | _ => VStr x end).
Proof.
  destruct ds as [|d0 ds]; cbn [Spec.extremes app].
  - intros [-> ->]. exists x, x. repeat split; try (now left);
      intros y [<-|[]]; apply str_ltb_irrefl.
  - intros (m & M & -> & -> & Hm & HM & Hlo & Hhi).
    change (d0 :: ds ++ [x])%list with ((d0 :: ds) ++ [x])%list.
    set (D := (d0 :: ds)%list) in *.
    assert (Hin : forall y, In y (D ++ [x])%list <-> In y D \/ y = x).
    { intros y. rewrite in_app_iff. cbn. intuition. }
    exists (if String.ltb x m then x else m), (if String.ltb M x then x else M).
    split; [destruct (String.ltb x m); reflexivity|].
    split; [destruct (String.ltb M x); reflexivity|].
    split; [destruct (String.ltb x m); apply Hin; auto|].
    split; [destruct (String.ltb M x); apply Hin; auto|].
    split.
    + intros y Hy. apply Hin in Hy. destruct (String.ltb x m) eqn:E.
      * destruct Hy as [Hy| ->]; [|apply str_ltb_irrefl].
        destruct (String.ltb y x) eqn:Eyx; [|reflexivity].
        pose proof (str_lt_trans _ _ _ Eyx E) as Hc. unfold Spec.str_lt in Hc.
        rewrite (Hlo y Hy) in Hc. discriminate.
      * destruct Hy as [Hy| ->]; [now apply Hlo | exact E].
    + intros y Hy. apply Hin in Hy. destruct (String.ltb M x) eqn:E.
      * destruct Hy as [Hy| ->]; [|apply str_ltb_irrefl].
        destruct (String.ltb x y) eqn:Exy; [|reflexivity].
        pose proof (str_lt_trans _ _ _ E Exy) as Hc. unfold Spec.str_lt in Hc.
        rewrite (Hhi y Hy) in Hc. discriminate.
      * destruct Hy as [Hy| ->]; [now apply Hhi | exact E].
Qed.

Lemma extremes_shape (ds : list string) (lo hi : pyval) :
  Spec.extremes VNone ds lo hi ->
  (lo = VNone /\ hi = VNone) \/ (exists m M, lo = VStr m /\ hi = VStr M).
Proof.
  destruct ds; cbn [Spec.extremes]; [now left|].
  intros (m & M & -> & -> & _). right. now exists m, M.
Qed.

(** [update] with a date that counts as absent keeps both dates. *)
Lemma update_without_date (a a' : ComputeAppKpis.AppAgg) (score : option Z)
    (date : pyval) :
  ComputeAppKpis.update a score date = Ok a' ->
  truthy date = false ->
  ComputeAppKpis.first_date a' = ComputeAppKpis.first_date a
  /\ ComputeAppKpis.last_date a' = ComputeAppKpis.last_date a.
Proof.
  unfold ComputeAppKpis.update. intros H Ht.
  apply bind_ok in H. destruct H as ([[rated total] low] & _ & H).
  apply bind_ok in H. destruct H as ([first last] & Hd & H).
  injection H as <-. cbn [ComputeAppKpis.first_date ComputeAppKpis.last_date fst snd].
  rewrite Ht in Hd. now injection Hd as <- <-.
Qed.

(** [update] with a date string keeps the smaller and the larger string. *)
Lemma update_with_date (a a' : ComputeAppKpis.AppAgg) (score : option Z)
    (x : string) :
  ComputeAppKpis.update a score (VStr x) = Ok a' ->
  x <> "" ->
  ComputeAppKpis.first_date a'
  = match ComputeAppKpis.first_date a with
    | VStr m => if String.ltb x m then VStr x else VStr m
    | _ => VStr x
    end
  /\ ComputeAppKpis.last_date a'
     = match ComputeAppKpis.last_date a with
       | VStr M => if String.ltb M x then VStr x else VStr M
       | _ => VStr x
       end.
Proof.
  unfold ComputeAppKpis.update. intros H Hx.
  apply bind_ok in H. destruct H as ([[rated total] low] & _ & H).
  apply bind_ok in H. destruct H as ([first last] & Hd & H).
  injection H as <-. cbn [ComputeAppKpis.first_date ComputeAppKpis.last_date fst snd].
  cbn [truthy] in Hd.
  destruct (String.eqb_spec x ""); [contradiction|]. cbn [negb] in Hd.
  apply bind_ok in Hd. destruct Hd as (lt & Hlt & Hd).
  apply bind_ok in Hd. destruct Hd as (gt & Hgt & Hd).
  injection Hd as <- <-. unfold ComputeAppKpis.none_or, py_gt in *. split.
  - destruct (ComputeAppKpis.first_date a); cbn in Hlt; try discriminate Hlt.
    + now injection Hlt as <-.
    + injection Hlt as <-. destruct (String.ltb x s); reflexivity.
  - destruct (ComputeAppKpis.last_date a); cbn in Hgt; try discriminate Hgt.
    + now injection Hgt as <-.
    + injection Hgt as <-. destruct (String.ltb s x); reflexivity.
Qed.

Lemma dates_of_cons (s : string) (obj : pyval) (objs : list pyval) :
  Spec.dates_of s (obj :: objs) = (Spec.dates_of s [obj] ++ Spec.dates_of s objs)%list.
Proof. unfold Spec.dates_of. cbn [flat_map]. now rewrite app_nil_r. Qed.

(** The effect of one object on the dates kept for the app [s]. *)
Lemma kpi_process_obj_dates (s : string) (ds : list string)
    (aggs aggs' : ComputeAppKpis.aggregates) (obj : pyval) :
  ComputeAppKpis.process_obj aggs obj = Ok aggs' ->
  Spec.dates_are_strings s [obj] = true ->
  Spec.extremes VNone ds (Spec.first_of s aggs) (Spec.last_of s aggs) ->
  Spec.extremes VNone (ds ++ Spec.dates_of s [obj])%list (Spec.first_of s aggs') (Spec.last_of s aggs').
Proof.
  intros H Hstr Hinv. unfold ComputeAppKpis.process_obj in H.
  apply bind_ok in H. destruct H as (id & Hid & H).
  destruct obj as [| | | | | |d]; try discriminate Hid.
  cbn [ComputeAppKpis.obj_get] in Hid. injection Hid as <-.
  unfold Spec.dates_are_strings in Hstr. cbn [forallb] in Hstr.
  rewrite andb_true_r in Hstr.
  unfold Spec.dates_of. cbn [flat_map]. rewrite app_nil_r.
  unfold Spec.review_of in *. cbn [Spec.kpi_date] in *.
  destruct (truthy (get d "appId")) eqn:Et; cbn [negb] in H.
  2:{ injection H as <-.
      assert (Hno : match get d "appId" with
                    | VStr s' => (s' =? s)%string && negb (s =? "")%string
                    | _ => false
                    end = false).
      { destruct (get d "appId") as [| | | |s'| |]; try reflexivity.
        cbn [truthy] in Et. apply negb_false_iff, String.eqb_eq in Et. subst s'.
        destruct (String.eqb_spec "" s) as [<-|Hne]; reflexivity. }
      rewrite Hno, app_nil_r. exact Hinv. }
  apply bind_ok in H. destruct H as (score & _ & H).
  apply bind_ok in H. destruct H as (score_val & _ & H).
  apply bind_ok in H. destruct H as (at_iso & Hiso & H).
  cbn [ComputeAppKpis.obj_get] in Hiso. injection Hiso as <-.
  apply bind_ok in H. destruct H as (date_str & Hdate & H).
  assert (Hd : date_str = py_or (get d "at_iso") (get d "at")).
  { unfold py_or. destruct (truthy (get d "at_iso")).
    - now injection Hdate as <-.
    - cbn [ComputeAppKpis.obj_get] in Hdate. now injection Hdate as <-. }
  clear Hdate. rewrite <- Hd in *. clear Hd.
  destruct (hashable (get d "appId")) eqn:Eh; cbn [negb] in H; [|discriminate].
  apply bind_ok in H. destruct H as (agg' & Hup & H). injection H as <-.
  unfold Spec.first_of, Spec.last_of in *. rewrite !find_store_agg_str.
  destruct (key_eqb (get d "appId") (VStr s)) eqn:Ek.
  - apply key_eqb_str_inv in Ek. rewrite Ek in *.
    cbn [truthy] in Et. rewrite String.eqb_refl in *.
    assert (Hs : negb (s =? "")%string = true) by exact Et.
    rewrite Hs in *. cbn [andb negb orb] in *.
    set (a := match ComputeAppKpis.find_agg (VStr s) aggs with
              | Some a => a
              | None => ComputeAppKpis.new_agg (VStr s)
              end) in *.
    assert (Hinv' : Spec.extremes VNone ds (ComputeAppKpis.first_date a)
                      (ComputeAppKpis.last_date a)).
    { subst a. destruct (ComputeAppKpis.find_agg (VStr s) aggs); exact Hinv. }
    clearbody a. clear Hinv.
    destruct (truthy date_str) eqn:Etd.
    + rewrite orb_false_r in Hstr. destruct date_str; try discriminate Hstr.
      cbn [truthy] in Etd. destruct (String.eqb_spec s0 ""); [discriminate|].
      destruct (update_with_date _ _ _ _ Hup n) as [-> ->].
      pose proof (extremes_snoc _ _ _ s0 Hinv') as Hsn.
      destruct (extremes_shape _ _ _ Hinv') as [[E1 E2] | (m & M & E1 & E2)];
        rewrite E1, E2 in *; exact Hsn.
    + destruct (update_without_date _ _ _ _ Hup Etd) as [-> ->].
      assert (Hnil : match date_str with
                     | VStr x => if (x =? "")%string then [] else [x]
                     | _ => []
                     end = []).
      { destruct date_str; try reflexivity. cbn [truthy] in Etd.
        now destruct (s0 =? "")%string. }
      rewrite Hnil, app_nil_r. exact Hinv'.
  - assert (Hno : match get d "appId" with
                  | VStr s' => (s' =? s)%string && negb (s =? "")%string
                  | _ => false
                  end = false).
    { destruct (get d "appId") as [| | | |s'| |]; try reflexivity.
      simpl in Ek. now rewrite Ek. }
    rewrite Hno, app_nil_r. exact Hinv.
Qed.

Lemma kpi_aggregate_dates (s : string) (objs : list pyval) (ds : list string)
    (aggs aggs' : ComputeAppKpis.aggregates) :
  ComputeAppKpis.aggregate aggs objs = Ok aggs' ->
  Spec.dates_are_strings s objs = true ->
  Spec.extremes VNone ds (Spec.first_of s aggs) (Spec.last_of s aggs) ->
  Spec.extremes VNone (ds ++ Spec.dates_of s objs)%list (Spec.first_of s aggs') (Spec.last_of s aggs').
Proof.
  revert ds aggs. induction objs as [|obj objs IH]; intros ds aggs H Hstr Hinv.
  - injection H as <-. unfold Spec.dates_of. cbn [flat_map]. now rewrite app_nil_r.
  - cbn [ComputeAppKpis.aggregate] in H.
    apply bind_ok in H. destruct H as (aggs1 & Hp & H).
    unfold Spec.dates_are_strings in Hstr. cbn [forallb] in Hstr.
    apply andb_true_iff in Hstr. destruct Hstr as [Hobj Hrest].
    rewrite dates_of_cons, app_assoc. apply (IH _ aggs1 H Hrest).
    apply (kpi_process_obj_dates s ds aggs aggs1 obj Hp); [|exact Hinv].
    unfold Spec.dates_are_strings. cbn [forallb]. now rewrite Hobj.
Qed.

Lemma dates_of_nonempty (s : string) (objs : list pyval) (x : string) :
  In x (Spec.dates_of s objs) -> x <> "".
Proof.
  unfold Spec.dates_of. rewrite in_flat_map. intros (obj & _ & Hin).
  destruct (Spec.review_of s obj); [|destruct Hin].
  destruct (Spec.kpi_date obj); try destruct Hin.
  destruct (String.eqb_spec s0 ""); [destruct Hin|].
  destruct Hin as [<-|[]]. exact n.
Qed.

Lemma kpi_to_row_dates (a : ComputeAppKpis.AppAgg) (row : pydict) :
  ComputeAppKpis.to_row a = Ok row ->
  get row "first_review_date" = py_or (ComputeAppKpis.first_date a) (VStr "")
  /\ get row "last_review_date" = py_or (ComputeAppKpis.last_date a) (VStr "").
Proof.
  unfold ComputeAppKpis.to_row. intros H.
  apply bind_ok in H. destruct H as ([avg pct] & Hs & H).
  injection H as <-. split; reflexivity.
Qed.

(** X13.  When the dates of the reviews of an app are strings (or count as
    absent), the [first_review_date] and [last_review_date] of its row are
    the least and the greatest, in the order of strings, of the dates of
    its reviews that are not empty, each read from [at_iso] and, failing
    that, from [at]; both are the empty string when no review of the app has
    a date, and the order of the reviews in the stream does not matter. *)
Theorem kpi_row_dates (json_loads : string -> result pyval)
    (lines : list string) (rows : list pydict) :
  ComputeAppKpis.compute_app_kpis json_loads lines = Ok rows ->
  forall row s, In row rows -> get row "appId" = VStr s ->
  let objs := Spec.decoded json_loads lines in
  Spec.dates_are_strings s objs = true ->
  Spec.extremes (VStr "") (Spec.dates_of s objs)
    (get row "first_review_date") (get row "last_review_date").
Proof.
  intros H row s Hin Hs objs Hstr.
  unfold ComputeAppKpis.compute_app_kpis in H.
  apply bind_ok in H. destruct H as (aggs & Hread & Hrows).
  rewrite kpi_read_lines_aggregate in Hread. fold (Spec.decoded json_loads lines) in Hread.
  fold objs in Hread.
  destruct (kpi_aggregate_counts s _ _ _ (Forall_nil _) Hread) as (Hall & _ & _).
  pose proof (kpi_aggregate_dates s objs [] [] aggs Hread Hstr (conj eq_refl eq_refl))
    as Hext.
  cbn [app] in Hext.
  unfold ComputeAppKpis.write_rows in Hrows.
  apply bind_ok in Hrows. destruct Hrows as (ids & _ & Hrows).
  destruct (kpi_rows_for_in _ _ _ Hrows row Hin) as (id & a & Ef & Hrow).
  destruct (kpi_to_row_fields _ _ Hrow) as (Hid & _).
  destruct (kpi_to_row_dates _ _ Hrow) as (-> & ->).
  destruct (find_agg_in _ _ _ Ef) as (k & Hk & Hink).
  rewrite Forall_forall in Hall. destruct (Hall _ Hink) as [Hkey _].
  cbn [fst snd] in Hkey.
  assert (Hids : id = VStr s).
  { rewrite Hid, Hkey in Hs. subst k. now apply key_eqb_str_inv_l. }
  subst id. unfold Spec.first_of, Spec.last_of in Hext. rewrite Ef in Hext.
  pose proof (dates_of_nonempty s objs) as Hne.
  destruct (Spec.dates_of s objs) as [|d0 ds]; cbn [Spec.extremes] in *.
  - destruct Hext as [-> ->]. split; reflexivity.
  - destruct Hext as (m & M & -> & -> & Hm & HM & Hlo & Hhi).
    exists m, M. unfold py_or. cbn [truthy].
    destruct (String.eqb_spec m ""); [now apply Hne in Hm|].
    destruct (String.eqb_spec M ""); [now apply Hne in HM|].
    cbn [negb]. repeat split; assumption.
Qed.

Lemma kpi_row_dates_witness :
  Spec.extremes (VStr "")
    (Spec.dates_of "a"
       (Spec.decoded Samples.dated_lines ["late"; "early"; "undated"]))
    (VStr "2025-01-15 08:00:00") (VStr "2025-03-01T09:30:00+00:00").
Proof.
  exact (kpi_row_dates Samples.dated_lines ["late"; "early"; "undated"]
    [[(VStr "appId", VStr "a"); (VStr "num_reviews", VInt 3);
      (VStr "avg_rating", VFloat (S754_finite false 7881299347898368 (-51)));
      (VStr "low_rating_pct", VFloat (S754_finite false 7036874417766400 (-47)));
      (VStr "first_review_date", VStr "2025-01-15 08:00:00");
      (VStr "last_review_date", VStr "2025-03-01T09:30:00+00:00")]]
    ltac:(vm_compute; reflexivity) _ "a" (or_introl eq_refl) eq_refl eq_refl).
Defined.

(** ** The order of the rows of the KPI aggregator *)

Lemma store_agg_keys (s : string) (a : ComputeAppKpis.AppAgg)
    (aggs : ComputeAppKpis.aggregates) (ks : list string) :
  map fst aggs = map VStr ks ->
  map fst (ComputeAppKpis.store_agg (VStr s) a aggs)
  = map VStr (if existsb (String.eqb s) ks then ks else ks ++ [s])%list.
Proof.
  revert ks. induction aggs as [|[k a0] aggs IH]; intros [|k0 ks] H;
    try discriminate H.
  - reflexivity.
  - cbn [map fst] in H. injection H as -> H.
    cbn [ComputeAppKpis.store_agg existsb]. cbn [key_eqb].
    rewrite (String.eqb_sym s k0).
    destruct (k0 =? s)%string; cbn [orb map fst]; [now rewrite H|].
    rewrite (IH ks H). destruct (existsb (String.eqb s) ks); reflexivity.
Qed.

Lemma existsb_eqb_in (s : string) (ks : list string) :
  existsb (String.eqb s) ks = true <-> In s ks.
Proof.
  rewrite existsb_exists. split.
  - intros (x & Hin & E). apply String.eqb_eq in E. now subst.
  - intros H. exists s. split; [exact H | apply String.eqb_refl].
Qed.

Lemma kpi_process_obj_ok (aggs aggs' : ComputeAppKpis.aggregates) (obj : pyval) :
  ComputeAppKpis.process_obj aggs obj = Ok aggs' ->
  Spec.app_ids_are_strings [obj] = true ->
  Spec.aggs_ok aggs -> Spec.aggs_ok aggs'.
Proof.
  intros H Hstr (ks & Hks & Hnd). unfold ComputeAppKpis.process_obj in H.
  apply bind_ok in H. destruct H as (id & Hid & H).
  destruct obj as [| | | | | |d]; try discriminate Hid.
  cbn [ComputeAppKpis.obj_get] in Hid. injection Hid as <-.
  unfold Spec.app_ids_are_strings in Hstr. cbn [forallb] in Hstr.
  rewrite andb_true_r in Hstr.
  destruct (truthy (get d "appId")) eqn:Et; cbn [negb] in H.
  2:{ injection H as <-. now exists ks. }
  rewrite orb_false_r in Hstr.
  destruct (get d "appId") as [| | | |s| |]; try discriminate Hstr.
  apply bind_ok in H. destruct H as (score & _ & H).
  apply bind_ok in H. destruct H as (score_val & _ & H).
  apply bind_ok in H. destruct H as (at_iso & _ & H).
  apply bind_ok in H. destruct H as (date_str & _ & H).
  cbn [hashable negb] in H.
  apply bind_ok in H. destruct H as (agg' & _ & H). injection H as <-.
  eexists. split; [apply store_agg_keys; exact Hks|].
  destruct (existsb (String.eqb s) ks) eqn:E; [exact Hnd|].
  apply NoDup_app; [exact Hnd | constructor; [intros []|constructor] |].
  intros x Hx [<-|[]]. apply existsb_eqb_in in Hx. congruence.
Qed.

Lemma kpi_aggregate_ok (objs : list pyval) (aggs aggs' : ComputeAppKpis.aggregates) :
  ComputeAppKpis.aggregate aggs objs = Ok aggs' ->
  Spec.app_ids_are_strings objs = true ->
  Spec.aggs_ok aggs -> Spec.aggs_ok aggs'.
Proof.
  revert aggs. induction objs as [|obj objs IH]; intros aggs H Hstr Hok.
  - now injection H as <-.
  - cbn [ComputeAppKpis.aggregate] in H.
    apply bind_ok in H. destruct H as (aggs1 & Hp & H).
    unfold Spec.app_ids_are_strings in Hstr. cbn [forallb] in Hstr.
    apply andb_true_iff in Hstr. destruct Hstr as [Hobj Hrest].
    apply (IH aggs1 H Hrest). apply (kpi_process_obj_ok aggs aggs1 obj Hp); [|exact Hok].
    unfold Spec.app_ids_are_strings. cbn [forallb]. now rewrite Hobj.
Qed.

(** [sorted] on strings never raises: it is the sort of the strings. *)
Lemma insert_key_str (x : string) (l : list string) :
  ComputeAppKpis.insert_key (VStr x) (map VStr l)
  = Ok (map VStr (ComputeDailyMetrics.insert_str x l)).
Proof.
  induction l as [|y l IH]; [reflexivity|].
  cbn [map ComputeAppKpis.insert_key ComputeDailyMetrics.insert_str py_lt bind].
  destruct (String.ltb x y); [reflexivity|].
  rewrite IH. reflexivity.
Qed.

Lemma sorted_str (l : list string) :
  ComputeAppKpis.sorted (map VStr l) = Ok (map VStr (ComputeDailyMetrics.sorted l)).
Proof.
  induction l as [|x l IH]; [reflexivity|].
  cbn [map ComputeAppKpis.sorted]. rewrite IH. cbn [bind].
  apply insert_key_str.
Qed.

Lemma find_agg_key (s : string) (aggs : ComputeAppKpis.aggregates) :
  In (VStr s) (map fst aggs)
  <-> exists a, ComputeAppKpis.find_agg (VStr s) aggs = Some a.
Proof.
  induction aggs as [|[k a0] aggs IH]; cbn [ComputeAppKpis.find_agg map fst In].
  - split; [intros [] | intros [a H]; discriminate].
  - destruct (key_eqb k (VStr s)) eqn:E.
    + apply key_eqb_str_inv in E. subst k. split; [eauto | now left].
    + rewrite IH. split; [|now right].
      intros [->|H]; [|exact H]. now rewrite key_eqb_str_refl in E.
Qed.

Lemma kpi_rows_ids (aggs : ComputeAppKpis.aggregates) (ids : list string)
    (rows : list pydict) :
  Forall Spec.agg_entry_ok aggs ->
  (forall s, In s ids -> In (VStr s) (map fst aggs)) ->
  ComputeAppKpis.rows_for aggs (map VStr ids) = Ok rows ->
  map (fun row => get row "appId") rows = map VStr ids.
Proof.
  intros Hall. revert rows. induction ids as [|s ids IH]; intros rows Hin H.
  - now injection H as <-.
  - cbn [map ComputeAppKpis.rows_for] in H.
    destruct (proj1 (find_agg_key s aggs) (Hin s (or_introl eq_refl))) as [a Ef].
    rewrite Ef in H.
    apply bind_ok in H. destruct H as (r0 & Hr & H).
    apply bind_ok in H. destruct H as (rest & Hrest & H).
    injection H as <-. cbn [map].
    destruct (kpi_to_row_fields _ _ Hr) as [-> _].
    destruct (find_agg_in _ _ _ Ef) as (k & Hk & Hink).
    apply key_eqb_str_inv in Hk. subst k.
    rewrite Forall_forall in Hall. destruct (Hall _ Hink) as [Hid _].
    cbn [fst snd] in Hid. rewrite Hid.
    f_equal. apply IH; [|exact Hrest]. intros s' Hs'. apply Hin. now right.
Qed.

(** X14.  When the [appId] of every review is a string (or counts as
    absent), the rows the KPI aggregator writes are in strictly ascending
    order of [appId], so no app has two rows, and an app has a row exactly
    when at least one review of the stream carries its [appId]. *)
Theorem kpi_rows_sorted_by_app (json_loads : string -> result pyval)
    (lines : list string) (rows : list pydict) :
  ComputeAppKpis.compute_app_kpis json_loads lines = Ok rows ->
  Spec.app_ids_are_strings (Spec.decoded json_loads lines) = true ->
  exists ids,
    map (fun row => get row "appId") rows = map VStr ids
    /\ StronglySorted Spec.str_lt ids
    /\ forall s, In s ids
                 <-> 1 <= Spec.count (Spec.review_of s) (Spec.decoded json_loads lines).
Proof.
  intros H Hstr. unfold ComputeAppKpis.compute_app_kpis in H.
  apply bind_ok in H. destruct H as (aggs & Hread & Hrows).
  rewrite kpi_read_lines_aggregate in Hread. fold (Spec.decoded json_loads lines) in Hread.
  set (objs := Spec.decoded json_loads lines) in *.
  assert (Hok : Spec.aggs_ok aggs).
  { apply (kpi_aggregate_ok objs [] aggs Hread Hstr). exists []. split; [reflexivity|constructor]. }
  destruct Hok as (ks & Hks & Hnd).
  assert (Hall : Forall Spec.agg_entry_ok aggs)
    by (apply (kpi_aggregate_counts "" _ _ _ (Forall_nil _) Hread)).
  unfold ComputeAppKpis.write_rows in Hrows. rewrite Hks, sorted_str in Hrows.
  cbn [bind] in Hrows.
  exists (ComputeDailyMetrics.sorted ks). split; [|split].
  - apply (kpi_rows_ids aggs _ rows Hall); [|exact Hrows].
    intros s Hs. apply (proj1 (sorted_in s ks)) in Hs. rewrite Hks.
    apply in_map. exact Hs.
  - now apply sorted_strongly_sorted.
  - intros s. rewrite sorted_in.
    destruct (kpi_aggregate_counts s _ _ _ (Forall_nil _) Hread) as (_ & Hn & _).
    unfold Spec.num_of in Hn. cbn [ComputeAppKpis.find_agg] in Hn.
    assert (Hkey : In s ks <-> In (VStr s) (map fst aggs)).
    { rewrite Hks. split; [apply in_map|].
      rewrite in_map_iff. intros (x & E & Hx). injection E as E. now rewrite <- E. }
    rewrite Hkey, find_agg_key. split.
    + intros [a Ef]. rewrite Ef in Hn.
      destruct (find_agg_in _ _ _ Ef) as (k & _ & Hink).
      rewrite Forall_forall in Hall. destruct (Hall _ Hink) as [_ H1].
      cbn [snd] in H1. lia.
    + intros Hc. destruct (ComputeAppKpis.find_agg (VStr s) aggs) as [a|]; [eauto|lia].
Qed.

Lemma kpi_rows_sorted_by_app_witness :
  exists ids,
    [VStr "a"; VStr "b"] = map VStr ids
    /\ StronglySorted Spec.str_lt ids
    /\ forall s, In s ids
                 <-> 1 <= Spec.count (Spec.review_of s)
                            (Spec.decoded Samples.two_apps ["b"; "a"; "b"]).
Proof.
  exact (kpi_rows_sorted_by_app Samples.two_apps ["b"; "a"; "b"]
    [[(VStr "appId", VStr "a"); (VStr "num_reviews", VInt 1);
      (VStr "avg_rating", VFloat (S754_finite false 5629499534213120 (-50)));
      (VStr "low_rating_pct", VFloat (S754_zero false));
      (VStr "first_review_date", VStr "");
      (VStr "last_review_date", VStr "")];
     [(VStr "appId", VStr "b"); (VStr "num_reviews", VInt 2);
      (VStr "avg_rating", VFloat (S754_finite false 6755399441055744 (-51)));
      (VStr "low_rating_pct", VFloat (S754_zero false));
      (VStr "first_review_date", VStr "");
      (VStr "last_review_date", VStr "")]]
    ltac:(vm_compute; reflexivity) eq_refl).
Defined.

(** ** The second attempt of the reader of raw reviews *)

Lemma str_append_assoc (a b c : string) : (a ++ b) ++ c = a ++ b ++ c.
Proof. induction a as [|x a IH]; cbn; [reflexivity | now rewrite IH]. Qed.

Lemma len_append (a b : string) : len (a ++ b) = len a + len b.
Proof.
  unfold len. induction a as [|x a IH]; cbn [append String.length]; lia.
Qed.

Lemma len_cons (c : ascii) (s : string) : len (String c s) = 1 + len s.
Proof. unfold len. cbn [String.length]. lia. Qed.

Lemma len_nonneg (s : string) : 0 <= len s.
Proof. unfold len. lia. Qed.

(** A string of one character starts [s] exactly when it is the first
    character of [s]. *)
Lemma prefix_char (c x : ascii) (s : string) :
  prefix (String c "") (String x s) = if ascii_dec c x then true else false.
Proof. cbn [prefix]. destruct (ascii_dec c x); [now destruct s | reflexivity]. Qed.

Lemma contains_char_cons (c x : ascii) (s : string) :
  contains (String c "") (String x s) = false ->
  c <> x /\ contains (String c "") s = false.
Proof.
  cbn [contains]. rewrite prefix_char. destruct (ascii_dec c x); cbn [orb].
  - discriminate.
  - intros H. now split.
Qed.

Lemma find_from_first (c : ascii) (pre rest : string) (i : Z) :
  contains (String c "") pre = false ->
  find_from (String c "") (pre ++ String c rest) i = i + len pre.
Proof.
  revert i. induction pre as [|x pre IH]; intros i H.
  - cbn [append]. unfold find_from. rewrite prefix_char.
    destruct (ascii_dec c c); [unfold len; cbn; lia | contradiction].
  - apply contains_char_cons in H. destruct H as [Hne H].
    cbn [append find_from]. rewrite prefix_char.
    destruct (ascii_dec c x); [contradiction|].
    rewrite (IH _ H), len_cons. lia.
Qed.

Lemma rfind_from_absent (c : ascii) (s : string) (i : Z) :
  contains (String c "") s = false -> rfind_from (String c "") s i = -1.
Proof.
  revert i. induction s as [|x s IH]; intros i H.
  - reflexivity.
  - apply contains_char_cons in H. destruct H as [Hne H].
    cbn [rfind_from]. rewrite (IH _ H), prefix_char. cbn [Z.leb Z.compare].
    destruct (ascii_dec c x); [contradiction | reflexivity].
Qed.

Lemma rfind_from_last (c : ascii) (pre post : string) (i : Z) :
  0 <= i ->
  contains (String c "") post = false ->
  rfind_from (String c "") (pre ++ String c post) i = i + len pre.
Proof.
  revert i. induction pre as [|x pre IH]; intros i Hi H.
  - cbn [append rfind_from]. rewrite (rfind_from_absent _ _ _ H), prefix_char.
    cbn [Z.leb Z.compare]. destruct (ascii_dec c c); [unfold len; cbn; lia | contradiction].
  - cbn [append rfind_from]. rewrite (IH (i + 1)) by (assumption || lia).
    pose proof (len_nonneg pre). rewrite len_cons.
    destruct (Z.leb_spec 0 (i + 1 + len pre)); lia.
Qed.

Lemma substring_skip (pre s : string) (n : nat) :
  substring (String.length pre) n (pre ++ s) = substring 0 n s.
Proof. induction pre as [|x pre IH]; [reflexivity | exact IH]. Qed.

Lemma substring_take (mid post : string) :
  substring 0 (String.length mid) (mid ++ post) = mid.
Proof.
  induction mid as [|x mid IH]; cbn [String.length append substring].
  - now destruct post.
  - now rewrite IH.
Qed.

(** The slice between the lengths of a prefix and of a prefix with a middle
    part is the middle part. *)
Lemma slice_middle (pre mid post : string) :
  slice (pre ++ mid ++ post) (len pre) (len pre + len mid) = mid.
Proof.
  unfold slice, clamp_index. rewrite !len_append.
  pose proof (len_nonneg pre). pose proof (len_nonneg mid). pose proof (len_nonneg post).
  destruct (Z.ltb_spec (len pre) 0); [lia|].
  destruct (Z.ltb_spec (len pre + len mid) 0); [lia|].
  replace (Z.max 0 (Z.min (len pre + (len mid + len post)) (len pre))) with (len pre) by lia.
  replace (Z.max 0 (Z.min (len pre + (len mid + len post)) (len pre + len mid)))
    with (len pre + len mid) by lia.
  replace (len pre + len mid - len pre) with (len mid) by lia.
  unfold len. rewrite !Nat2Z.id. rewrite substring_skip. apply substring_take.
Qed.

(** X15.  A line that [json.loads] rejects is decoded again from its first
    opening brace to its last closing brace, both included: when the line,
    once stripped, reads [pre{body}post] with no opening brace in [pre] and
    no closing brace in [post], the generator yields what [json.loads]
    makes of [{body}], and it yields nothing for the line when this text is
    rejected too. *)
Theorem jsonl_fallback_outermost_braces (json_loads : string -> result pyval)
    (line pre body post : string) (rest : list string) (e : exc) :
  strip line = pre ++ "{" ++ body ++ "}" ++ post ->
  contains "{" pre = false ->
  contains "}" post = false ->
  json_loads (strip line) = Raise e ->
  TransformData._iter_reviews_jsonl json_loads (line :: rest)
  = match json_loads ("{" ++ body ++ "}") with
    | Ok obj => obj :: TransformData._iter_reviews_jsonl json_loads rest
    | Raise _ => TransformData._iter_reviews_jsonl json_loads rest
    end.
Proof.
  intros Hline Hpre Hpost Hraise.
  cbn [TransformData._iter_reviews_jsonl]. rewrite Hraise. cbn [try_except].
  rewrite Hline.
  assert (Hne : (pre ++ "{" ++ body ++ "}" ++ post =? "")%string = false).
  { destruct pre; reflexivity. }
  rewrite Hne.
  assert (Hfind : find (pre ++ "{" ++ body ++ "}" ++ post) "{" = len pre).
  { unfold find. cbn [append]. now rewrite find_from_first. }
  assert (Hrfind : rfind (pre ++ "{" ++ body ++ "}" ++ post) "}" + 1
                   = len pre + len ("{" ++ body ++ "}")).
  { unfold rfind.
    replace (pre ++ "{" ++ body ++ "}" ++ post)
      with ((pre ++ "{" ++ body) ++ String "}" post)
      by (now rewrite str_append_assoc, (str_append_assoc "{" body)).
    rewrite rfind_from_last by (assumption || lia).
    change ("{" ++ body ++ "}") with (String "{" (body ++ "}")).
    change (pre ++ "{" ++ body) with (pre ++ String "{" body).
    rewrite !len_append, !len_cons, len_append.
    change (len "}") with 1. lia. }
  rewrite Hfind, Hrfind.
  replace (pre ++ "{" ++ body ++ "}" ++ post)
    with (pre ++ ("{" ++ body ++ "}") ++ post)
    by (now rewrite (str_append_assoc "{"), (str_append_assoc body)).
  rewrite slice_middle. reflexivity.
Qed.

Lemma jsonl_fallback_outermost_braces_witness :
  TransformData._iter_reviews_jsonl Samples.braced ["  noise {dated} trailing,  "]
  = [Samples.review_dated].
Proof.
  exact (jsonl_fallback_outermost_braces Samples.braced
           "  noise {dated} trailing,  " "noise " "dated" " trailing," []
           JSONDecodeError eq_refl eq_refl eq_refl eq_refl).
Defined.

(** ** The flagger after the Review Transformer *)

(** The flagger decides for every record whose score is an integer or
    null and whose content is a text or counts as absent. *)
Lemma is_contradictory_decides (d : pydict) :
  Spec.int_or_null (get d "score") ->
  is_str (get d "content") || negb (truthy (get d "content")) = true ->
  exists b, FlagInconsistentSentiment.is_contradictory (VDict d) = Ok b.
Proof.
  intros Hscore Hcontent.
  unfold FlagInconsistentSentiment.is_contradictory,
    FlagInconsistentSentiment.obj_get, ComputeAppKpis.obj_get.
  cbn [bind].
  destruct Hscore as [-> | (z & ->)]; cbn [is_none]; [eauto|].
  assert (Htext : exists c, py_or (get d "content") (VStr "") = VStr c).
  { unfold py_or. destruct (truthy (get d "content")) eqn:Et; [|eauto].
    rewrite orb_false_r in Hcontent.
    destruct (get d "content"); try discriminate Hcontent. eauto. }
  destruct Htext as (c & ->).
  destruct (score_text_spec c) as (p & -> & _). cbn [bind].
  unfold FlagInconsistentSentiment.and_then, FlagInconsistentSentiment.ge_int,
    FlagInconsistentSentiment.le_int. cbn [as_num].
  destruct (p <? 0); destruct (0 <? p); cbn [bind];
    destruct (num_le (NInt 4) (NInt z)); destruct (num_le (NInt z) (NInt 2));
    cbn [bind]; eauto.
Qed.

Lemma transformed_record_typed (r r' : pydict) :
  TransformData.transform_record r = Ok r' ->
  Spec.int_or_null (get r' "score") /\ get r' "content" = get r "content".
Proof.
  intros H. destruct (transform_record_shape r) as (iso & epoch & _ & E).
  rewrite E in H. injection H as <-. split.
  - get_set. apply coerced_int_or_null.
  - now get_set.
Qed.

(** X16.  The flagger never aborts on what the Review Transformer writes
    for raw reviews whose content is a text or counts as absent: on such a
    stream its report holds exactly the reviews it finds contradictory, in
    the order of the stream, each with its [reviewId], [appId], [score] and
    [content]. *)
Theorem flagger_accepts_transformed_reviews (json_loads : string -> result pyval)
    (lines : list string) :
  Forall (Spec.transformed_line json_loads) lines ->
  FlagInconsistentSentiment.main json_loads lines
  = Ok (map Spec.report_row (Spec.flagged_reviews (Spec.decoded json_loads lines))).
Proof.
  induction 1 as [|line lines Hline _ IH]; [reflexivity|].
  cbn [FlagInconsistentSentiment.main]. unfold Spec.decoded, Spec.flagged_reviews.
  cbn [flat_map]. fold (Spec.decoded json_loads lines).
  destruct Hline as [Hblank | (r & r' & Hdec & Htr & Hc)].
  - rewrite Hblank. cbn [String.eqb app flat_map]. exact IH.
  - destruct (String.eqb_spec (strip line) "") as [E|_].
    + cbn [app flat_map]. exact IH.
    + rewrite Hdec. cbn [bind app flat_map].
      destruct (transformed_record_typed r r' Htr) as [Hs Hcontent].
      rewrite <- Hcontent in Hc.
      destruct (is_contradictory_decides r' Hs Hc) as (b & Hb). rewrite Hb.
      cbn [bind].
      fold (Spec.flagged_reviews (Spec.decoded json_loads lines)).
      destruct b.
      * unfold FlagInconsistentSentiment.obj_get, ComputeAppKpis.obj_get.
        cbn [bind]. rewrite IH. reflexivity.
      * exact IH.
Qed.

Lemma flagger_accepts_transformed_reviews_witness :
  FlagInconsistentSentiment.main Samples.written ["loved"; "  "; "silent"]
  = Ok [[(VStr "reviewId", VStr "r7"); (VStr "appId", VStr "a");
         (VStr "score", VInt 1); (VStr "content", VStr "I LOVE it, works well")]].
Proof.
  apply (flagger_accepts_transformed_reviews Samples.written ["loved"; "  "; "silent"]).
  constructor; [|constructor; [|constructor; [|constructor]]].
  - right. exists Samples.review_loved_low. eexists.
    split; [reflexivity|]. split; reflexivity.
  - left. reflexivity.
  - right. exists Samples.review_silent. eexists.
    split; [reflexivity|]. split; reflexivity.
Defined.

(** ** The Review Transformer on a JSONL source *)

Lemma transform_loop_objects (objs : list pyval) (count : Z) :
  forallb Spec.is_dict objs = true ->
  exists out,
    TransformData.transform_loop (map Ok objs) None count = Ok out
    /\ Forall2 Spec.record_of objs out.
Proof.
  revert count. induction objs as [|obj objs IH]; intros count H.
  - exists []. split; [reflexivity | constructor].
  - cbn [forallb] in H. apply andb_true_iff in H. destruct H as [Hobj Hrest].
    destruct obj as [| | | | | |r]; try discriminate Hobj.
    destruct (transform_record_shape r) as (iso & epoch & _ & Hr).
    destruct (IH (count + 1) Hrest) as (out & Hout & Hall).
    eexists. split.
    + cbn [map TransformData.transform_loop bind TransformData.py_dict].
      rewrite Hr. cbn [bind]. rewrite Hout. cbn [bind]. reflexivity.
    + constructor; [|exact Hall]. exists r. split; [reflexivity | exact Hr].
Qed.

Lemma transform_loop_rejected (pre post : list pyval) (obj : pyval) (e : exc)
    (count : Z) :
  forallb Spec.is_dict pre = true ->
  TransformData.py_dict obj = Raise e ->
  TransformData.transform_loop (map Ok (pre ++ obj :: post)%list) None count = Raise e.
Proof.
  revert count. induction pre as [|p pre IH]; intros count H He.
  - cbn [app map TransformData.transform_loop bind]. rewrite He. reflexivity.
  - cbn [forallb] in H. apply andb_true_iff in H. destruct H as [Hp Hrest].
    destruct p as [| | | | | |r]; try discriminate Hp.
    destruct (transform_record_shape r) as (iso & epoch & _ & Hr).
    cbn [app map TransformData.transform_loop bind TransformData.py_dict].
    rewrite Hr. cbn [bind]. rewrite (IH (count + 1) Hrest He). reflexivity.
Qed.

Lemma transform_loop_writing_objects (write : pydict -> result unit)
    (objs : list pyval) (count : Z) :
  forallb Spec.is_dict objs = true ->
  (forall obj out, In obj objs -> Spec.record_of obj out -> write out = Ok tt) ->
  exists out,
    TransformData.transform_loop_writing write (map Ok objs) None count = Ok out
    /\ Forall2 Spec.record_of objs out.
Proof.
  revert count. induction objs as [|obj objs IH]; intros count H Hw.
  - exists []. split; [reflexivity | constructor].
  - cbn [forallb] in H. apply andb_true_iff in H. destruct H as [Hobj Hrest].
    destruct obj as [| | | | | |r]; try discriminate Hobj.
    destruct (transform_record_shape r) as (iso & epoch & _ & Hr).
    match type of Hr with
    | _ = Ok ?o =>
        assert (Hrec : Spec.record_of (VDict r) o)
          by (exists r; split; [reflexivity | exact Hr])
    end.
    destruct (IH (count + 1) Hrest) as (out & Hout & Hall).
    { intros obj o Hin. apply Hw. now right. }
    eexists. split.
    + cbn [map TransformData.transform_loop_writing bind TransformData.py_dict].
      rewrite Hr. cbn [bind]. rewrite (Hw _ _ (or_introl eq_refl) Hrec).
      cbn [bind]. rewrite Hout. cbn [bind]. reflexivity.
    + constructor; [exact Hrec | exact Hall].
Qed.

(** With a write that always succeeds the loop is [transform_loop]. *)
Lemma transform_loop_writing_succeeding (objs : list (result pyval))
    (max_lines : option Z) (count : Z) :
  TransformData.transform_loop_writing (fun _ => Ok tt) objs max_lines count
  = TransformData.transform_loop objs max_lines count.
Proof.
  revert count. induction objs as [|next objs IH]; intros count; [reflexivity|].
  cbn [TransformData.transform_loop_writing TransformData.transform_loop].
  destruct next as [obj|e]; cbn [bind]; [|reflexivity].
  destruct (TransformData.py_dict obj) as [r|e]; cbn [bind]; [|reflexivity].
  destruct (TransformData.transform_record r) as [r'|e]; cbn [bind]; [|reflexivity].
  rewrite IH. reflexivity.
Qed.

(** The first write that raises ends the run with its exception, whatever
    follows and whatever the cap. *)
Lemma failed_write_aborts (write : pydict -> result unit)
    (pre : list pyval) (post : list (result pyval)) (r r' : pydict) (e : exc)
    (count : Z) :
  forallb Spec.is_dict pre = true ->
  (forall obj out, In obj pre -> Spec.record_of obj out -> write out = Ok tt) ->
  TransformData.transform_record r = Ok r' ->
  write r' = Raise e ->
  TransformData.transform_loop_writing write
    (map Ok pre ++ Ok (VDict r) :: post)%list None count = Raise e.
Proof.
  revert count. induction pre as [|p pre IH]; intros count H Hw Hr He.
  - cbn [app map TransformData.transform_loop_writing bind TransformData.py_dict].
    rewrite Hr. cbn [bind]. rewrite He. reflexivity.
  - cbn [forallb] in H. apply andb_true_iff in H. destruct H as [Hp Hrest].
    destruct p as [| | | | | |q]; try discriminate Hp.
    destruct (transform_record_shape q) as (iso & epoch & _ & Hq).
    cbn [app map TransformData.transform_loop_writing bind TransformData.py_dict].
    rewrite Hq. cbn [bind].
    rewrite (Hw (VDict q) _ (or_introl eq_refl)
               (ex_intro _ q (conj eq_refl Hq))). cbn [bind].
    rewrite (IH (count + 1) Hrest); [reflexivity | | exact Hr | exact He].
    intros obj o Hin. apply Hw. now right.
Qed.

(** X17.  On a JSON object no statement of the loop of the Review
    Transformer raises, the write apart: for a JSONL source in which every
    value the reader yields is an object, and as long as the write of each
    of their records succeeds (it raises [UnicodeEncodeError] for a string
    that holds a lone surrogate), the run without cap succeeds and writes
    exactly one record per value, in order, each being the record of that
    object. *)
Theorem jsonl_objects_one_record_each (json_loads : string -> result pyval)
    (write : pydict -> result unit) (lines : list string) :
  forallb Spec.is_dict (TransformData._iter_reviews_jsonl json_loads lines) = true ->
  (forall obj out,
     In obj (TransformData._iter_reviews_jsonl json_loads lines) ->
     Spec.record_of obj out -> write out = Ok tt) ->
  exists out,
    TransformData.transform_reviews_writing json_loads write
      (TransformData.Jsonl lines) None = Ok out
    /\ Forall2 Spec.record_of (TransformData._iter_reviews_jsonl json_loads lines) out.
Proof.
  intros H Hw.
  unfold TransformData.transform_reviews_writing, TransformData._iter_reviews.
  now apply transform_loop_writing_objects.
Qed.

Lemma jsonl_objects_one_record_each_witness :
  exists out,
    TransformData.transform_reviews_writing Samples.two_lines (fun _ => Ok tt)
      (TransformData.Jsonl ["dated"; "junk"; "undated"]) None = Ok out
    /\ Forall2 Spec.record_of [Samples.review_dated; Samples.review_undated] out.
Proof.
  apply (jsonl_objects_one_record_each Samples.two_lines (fun _ => Ok tt)
           ["dated"; "junk"; "undated"]).
  - reflexivity.
  - intros obj out _ _. reflexivity.
Defined.

(** X18.  A line of the JSONL source that holds valid JSON which is null,
    a boolean or a number is not skipped like a malformed line: the first
    such value, after objects only, makes [dict(obj)] raise [TypeError] and
    the run without cap end with this error, whatever follows. *)
Theorem jsonl_scalar_line_aborts (json_loads : string -> result pyval)
    (lines : list string) (pre post : list pyval) (obj : pyval) :
  TransformData._iter_reviews_jsonl json_loads lines = (pre ++ obj :: post)%list ->
  forallb Spec.is_dict pre = true ->
  Spec.is_scalar obj = true ->
  TransformData.transform_reviews json_loads (TransformData.Jsonl lines) None
  = Raise TypeError.
Proof.
  intros Hobjs Hpre Hobj.
  unfold TransformData.transform_reviews, TransformData._iter_reviews.
  rewrite Hobjs. apply transform_loop_rejected; [exact Hpre|].
  destruct obj; try discriminate Hobj; reflexivity.
Qed.

Lemma jsonl_scalar_line_aborts_witness :
  TransformData.transform_reviews Samples.number_line
    (TransformData.Jsonl ["dated"; "5"; "undated"]) None
  = Raise TypeError.
Proof.
  apply (jsonl_scalar_line_aborts Samples.number_line ["dated"; "5"; "undated"]
           [Samples.review_dated] [Samples.review_undated] (VInt 5));
    reflexivity.
Defined.

(** ** The layout of the dates of the Daily Metrics Aggregator *)

Lemma substring_length (n : nat) (s : string) :
  (n <= String.length s)%nat -> String.length (substring 0 n s) = n.
Proof.
  revert s. induction n as [|n IH]; intros s H.
  - now destruct s.
  - destruct s as [|c s]; cbn [String.length] in H; [lia|].
    cbn [substring String.length]. rewrite IH; lia.
Qed.

Lemma take_day_shaped (s : string) :
  Spec.date_shaped s = true -> Spec.day_shaped (take 10 s).
Proof.
  unfold Spec.date_shaped, Spec.day_shaped, take, ComputeDailyMetrics.dash_at, len.
  intros H. apply andb_true_iff in H. destruct H as [H H7].
  apply andb_true_iff in H. destruct H as [Hlen H4].
  apply Z.leb_le in Hlen. split; [|split].
  - rewrite substring_length; lia.
  - rewrite (substring_correct1 s 0 10 4) by lia. exact H4.
  - rewrite (substring_correct1 s 0 10 7) by lia. exact H7.
Qed.

Lemma date_isoformat_day_shaped (dt : datetime) : Spec.day_shaped (date_isoformat dt).
Proof. repeat split. Qed.

Lemma extract_date_shape (obj : pyval) (date : string) :
  ComputeDailyMetrics._extract_date obj = Ok (Some date) -> Spec.day_shaped date.
Proof.
  unfold ComputeDailyMetrics._extract_date. intros H.
  apply bind_ok in H. destruct H as (at_iso & _ & H).
  apply bind_ok in H. destruct H as (raw & _ & H).
  destruct (truthy raw); cbn [negb] in H; [|discriminate].
  destruct raw as [| | | |s| |]; try discriminate H.
  fold (Spec.date_shaped s) in H.
  destruct (Spec.date_shaped s) eqn:Es.
  - injection H as <-. now apply take_day_shaped.
  - destruct (strptime s "%Y-%m-%d %H:%M:%S") as [dt|e]; [|discriminate].
    injection H as <-. apply date_isoformat_day_shaped.
Qed.

Lemma count_dated_line (json_loads : string -> result pyval) (d : string)
    (lines : list string) :
  1 <= Spec.count_dated json_loads d lines ->
  exists line obj,
    In line lines /\ json_loads (strip line) = Ok obj
    /\ ComputeDailyMetrics._extract_date obj = Ok (Some d).
Proof.
  unfold Spec.count_dated. intros H.
  destruct (filter (Spec.dated_as json_loads d) lines) as [|line rest] eqn:E;
    [cbn in H; lia|].
  assert (Hin : In line (filter (Spec.dated_as json_loads d) lines))
    by (rewrite E; now left).
  apply filter_In in Hin. destruct Hin as [Hin Hd].
  unfold Spec.dated_as in Hd.
  destruct (strip line =? "")%string; [discriminate|].
  destruct (json_loads (strip line)) as [obj|e] eqn:Ej; [|discriminate].
  destruct (ComputeDailyMetrics._extract_date obj) as [[d'|]|e] eqn:Ed;
    try discriminate.
  apply String.eqb_eq in Hd. subst d'. now exists line, obj.
Qed.

(** X19.  Every [date] the Daily Metrics Aggregator writes is the date
    extracted from some review of the stream, and it has the layout
    [xxxx-xx-xx]: ten characters with a dash in fifth and in eighth place,
    whether it was cut from a string of that layout or printed from a parsed
    timestamp. *)
Theorem daily_dates_day_shaped (json_loads : string -> result pyval)
    (lines : list string) (rows : list pydict) :
  ComputeDailyMetrics.compute_daily_metrics json_loads lines = Ok rows ->
  forall row, In row rows ->
  exists date line obj,
    get row "date" = VStr date
    /\ In line lines /\ json_loads (strip line) = Ok obj
    /\ ComputeDailyMetrics._extract_date obj = Ok (Some date)
    /\ Spec.day_shaped date.
Proof.
  unfold ComputeDailyMetrics.compute_daily_metrics. intros H row Hin.
  apply bind_ok in H. destruct H as (daily & Hread & Hrows).
  unfold ComputeDailyMetrics.write_rows in Hrows.
  assert (Hok : Spec.daily_ok daily).
  { eapply daily_read_lines_ok; [|exact Hread]. split; constructor. }
  destruct (daily_rows_for_in _ _ _ Hrows row Hin) as (d & [[c r] t] & Ef & Hrow).
  destruct (daily_row_of_fields _ _ _ _ _ Hrow) as [Hdate _].
  pose proof (daily_read_lines_count _ _ _ _ Hread d) as Hc.
  unfold Spec.count_of in Hc. cbn [ComputeDailyMetrics.find_day] in Hc.
  rewrite Ef in Hc. apply find_day_entry in Ef. destruct Hok as [_ Hall].
  rewrite Forall_forall in Hall. specialize (Hall _ Ef).
  unfold Spec.day_entry_ok in Hall. cbn in Hall.
  destruct (count_dated_line json_loads d lines) as (line & obj & Hl & Hj & He); [lia|].
  exists d, line, obj. repeat split; try assumption.
  all: apply (extract_date_shape obj d He).
Qed.

Lemma daily_dates_day_shaped_witness :
  exists date line obj,
    VStr "2025-01-01" = VStr date
    /\ In line ["dated"; "undated"; "dated"]
    /\ Samples.two_lines (strip line) = Ok obj
    /\ ComputeDailyMetrics._extract_date obj = Ok (Some date)
    /\ Spec.day_shaped date.
Proof.
  apply (daily_dates_day_shaped Samples.two_lines ["dated"; "undated"; "dated"]
           [[(VStr "date", VStr "2025-01-01"); (VStr "daily_num_reviews", VInt 2);
             (VStr "daily_avg_rating", VFloat (float_of_Z 4))]]
           ltac:(vm_compute; reflexivity) _ (or_introl eq_refl)).
Defined.

(** ** The reports count every review once *)

Lemma store_day_total (d : string) (c r : Z) (t : spec_float)
    (daily : ComputeDailyMetrics.daily_map) :
  Spec.daily_total (ComputeDailyMetrics.store_day d (c, r, t) daily)
  = Spec.daily_total daily + c - Spec.count_of d daily.
Proof.
  unfold Spec.count_of.
  induction daily as [|[k [[c0 r0] t0]] daily IH];
    cbn [ComputeDailyMetrics.store_day ComputeDailyMetrics.find_day Spec.daily_total
         fold_right fst snd].
  - lia.
  - destruct (k =? d)%string; cbn [Spec.daily_total fold_right fst snd].
    + lia.
    + fold (Spec.daily_total (ComputeDailyMetrics.store_day d (c, r, t) daily)).
      fold (Spec.daily_total daily). rewrite IH. lia.
Qed.

Lemma daily_process_total (daily daily' : ComputeDailyMetrics.daily_map) (obj : pyval) :
  ComputeDailyMetrics.process_obj daily obj = Ok daily' ->
  Spec.daily_total daily'
  = Spec.daily_total daily
    + match ComputeDailyMetrics._extract_date obj with
      | Ok (Some _) => 1
      | _ => 0
      end.
Proof.
  intros H. unfold ComputeDailyMetrics.process_obj in H.
  destruct (ComputeDailyMetrics._extract_date obj) as [[d0|]|e] eqn:He;
    cbn [bind] in H; try discriminate H.
  2:{ injection H as <-. lia. }
  pose proof (extract_date_nonempty _ _ He) as Hne.
  destruct (String.eqb_spec d0 ""); [contradiction|].
  apply bind_ok in H. destruct H as (score & _ & H).
  apply bind_ok in H. destruct H as (rs & _ & H).
  unfold Spec.count_of.
  destruct (ComputeDailyMetrics.find_day d0 daily) as [[[c r] t]|] eqn:Ef;
    injection H as <-; rewrite store_day_total; unfold Spec.count_of; rewrite Ef; lia.
Qed.

Lemma daily_read_lines_total (json_loads : string -> result pyval)
    (lines : list string) (daily daily' : ComputeDailyMetrics.daily_map) :
  ComputeDailyMetrics.read_lines json_loads daily lines = Ok daily' ->
  Spec.daily_total daily' = Spec.daily_total daily + Spec.count (Spec.dated json_loads) lines.
Proof.
  revert daily. induction lines as [|line lines IH]; intros daily H.
  - injection H as <-. unfold Spec.count. cbn. lia.
  - cbn [ComputeDailyMetrics.read_lines] in H. rewrite count_cons.
    unfold Spec.dated at 1.
    destruct (strip line =? "")%string; [rewrite (IH _ H); lia|].
    destruct (json_loads (strip line)) as [obj|e]; [|rewrite (IH _ H); lia].
    apply bind_ok in H. destruct H as (daily1 & Hp & H).
    rewrite (IH _ H), (daily_process_total _ _ _ Hp).
    destruct (ComputeDailyMetrics._extract_date obj) as [[d0|]|]; lia.
Qed.

Lemma sum_over_insert (f : string -> Z) (x : string) (l : list string) :
  Spec.sum_over f (ComputeDailyMetrics.insert_str x l) = f x + Spec.sum_over f l.
Proof.
  induction l as [|y l IH]; cbn [ComputeDailyMetrics.insert_str Spec.sum_over fold_right].
  - reflexivity.
  - destruct (String.ltb x y); cbn [Spec.sum_over fold_right]; [reflexivity|].
    fold (Spec.sum_over f (ComputeDailyMetrics.insert_str x l)). fold (Spec.sum_over f l).
    rewrite IH. lia.
Qed.

Lemma sum_over_sorted (f : string -> Z) (l : list string) :
  Spec.sum_over f (ComputeDailyMetrics.sorted l) = Spec.sum_over f l.
Proof.
  induction l as [|x l IH]; [reflexivity|].
  unfold ComputeDailyMetrics.sorted. cbn [fold_right].
  fold (ComputeDailyMetrics.sorted l). rewrite sum_over_insert, IH. reflexivity.
Qed.

Lemma sum_over_ext (f g : string -> Z) (l : list string) :
  (forall x, In x l -> f x = g x) -> Spec.sum_over f l = Spec.sum_over g l.
Proof.
  induction l as [|x l IH]; intros H; [reflexivity|].
  cbn [Spec.sum_over fold_right]. fold (Spec.sum_over f l). fold (Spec.sum_over g l).
  rewrite (H x (or_introl eq_refl)), IH; [reflexivity|].
  intros y Hy. apply H. now right.
Qed.

Lemma sum_over_keys (daily : ComputeDailyMetrics.daily_map) :
  NoDup (map fst daily) ->
  Spec.sum_over (fun d => Spec.count_of d daily) (map fst daily) = Spec.daily_total daily.
Proof.
  induction daily as [|[k [[c r] t]] daily IH]; intros Hnd; [reflexivity|].
  cbn [map fst] in Hnd. inversion Hnd as [|? ? Hk Hnd']; subst.
  cbn [map fst Spec.sum_over fold_right Spec.daily_total snd].
  fold (Spec.sum_over (fun d => Spec.count_of d ((k, (c, r, t)) :: daily)) (map fst daily)).
  fold (Spec.daily_total daily).
  rewrite <- (IH Hnd'). unfold Spec.count_of at 1.
  cbn [ComputeDailyMetrics.find_day]. rewrite String.eqb_refl.
  f_equal. apply sum_over_ext. intros d Hd. unfold Spec.count_of.
  cbn [ComputeDailyMetrics.find_day].
  destruct (String.eqb_spec k d) as [->|_]; [contradiction | reflexivity].
Qed.

Lemma daily_rows_sum (daily : ComputeDailyMetrics.daily_map) (dates : list string)
    (rows : list pydict) :
  ComputeDailyMetrics.rows_for daily dates = Ok rows ->
  Spec.column_sum "daily_num_reviews" rows
  = Spec.sum_over (fun d => Spec.count_of d daily) dates.
Proof.
  revert rows. induction dates as [|d dates IH]; intros rows H.
  - now injection H as <-.
  - cbn [ComputeDailyMetrics.rows_for] in H. cbn [Spec.sum_over fold_right].
    fold (Spec.sum_over (fun d => Spec.count_of d daily) dates).
    unfold Spec.count_of at 1.
    destruct (ComputeDailyMetrics.find_day d daily) as [[[c r] t]|] eqn:Ef.
    + apply bind_ok in H. destruct H as (r0 & Hr & H).
      apply bind_ok in H. destruct H as (rest & Hrest & H).
      injection H as <-. cbn [Spec.column_sum fold_right].
      fold (Spec.column_sum "daily_num_reviews" rest).
      destruct (daily_row_of_fields _ _ _ _ _ Hr) as [_ ->].
      rewrite (IH _ Hrest). reflexivity.
    + rewrite (IH _ H). lia.
Qed.

(** X20.  The Daily Metrics Aggregator counts every dated review once: the
    [daily_num_reviews] of the rows written add up to the number of lines
    that hold a review from which a date is extracted. *)
Theorem daily_counts_every_dated_review_once (json_loads : string -> result pyval)
    (lines : list string) (rows : list pydict) :
  ComputeDailyMetrics.compute_daily_metrics json_loads lines = Ok rows ->
  Spec.column_sum "daily_num_reviews" rows = Spec.count (Spec.dated json_loads) lines.
Proof.
  unfold ComputeDailyMetrics.compute_daily_metrics. intros H.
  apply bind_ok in H. destruct H as (daily & Hread & Hrows).
  unfold ComputeDailyMetrics.write_rows in Hrows.
  assert (Hok : Spec.daily_ok daily).
  { eapply daily_read_lines_ok; [|exact Hread]. split; constructor. }
  rewrite (daily_rows_sum _ _ _ Hrows), sum_over_sorted, sum_over_keys by apply Hok.
  rewrite (daily_read_lines_total _ _ _ _ Hread). reflexivity.
Qed.

Lemma daily_counts_every_dated_review_once_witness :
  Spec.column_sum "daily_num_reviews"
    [[(VStr "date", VStr "2025-01-01"); (VStr "daily_num_reviews", VInt 2);
      (VStr "daily_avg_rating", VFloat (float_of_Z 4))]]
  = Spec.count (Spec.dated Samples.two_lines) ["dated"; "undated"; "dated"].
Proof.
  apply (daily_counts_every_dated_review_once Samples.two_lines
           ["dated"; "undated"; "dated"]).
  vm_compute. reflexivity.
Defined.

Lemma store_agg_total (s : string) (a : ComputeAppKpis.AppAgg)
    (aggs : ComputeAppKpis.aggregates) :
  Spec.kpi_total (ComputeAppKpis.store_agg (VStr s) a aggs)
  = Spec.kpi_total aggs + ComputeAppKpis.num_reviews a - Spec.num_of s aggs.
Proof.
  unfold Spec.num_of.
  induction aggs as [|[k a0] aggs IH];
    cbn [ComputeAppKpis.store_agg ComputeAppKpis.find_agg Spec.kpi_total fold_right snd].
  - lia.
  - destruct (key_eqb k (VStr s)); cbn [Spec.kpi_total fold_right snd].
    + lia.
    + fold (Spec.kpi_total (ComputeAppKpis.store_agg (VStr s) a aggs)).
      fold (Spec.kpi_total aggs). rewrite IH. lia.
Qed.

Lemma kpi_process_obj_total (aggs aggs' : ComputeAppKpis.aggregates) (obj : pyval) :
  ComputeAppKpis.process_obj aggs obj = Ok aggs' ->
  Spec.app_ids_are_strings [obj] = true ->
  Spec.kpi_total aggs' = Spec.kpi_total aggs + (if Spec.has_app_id obj then 1 else 0).
Proof.
  intros H Hstr. unfold ComputeAppKpis.process_obj in H.
  apply bind_ok in H. destruct H as (id & Hid & H).
  destruct obj as [| | | | | |d]; try discriminate Hid.
  cbn [ComputeAppKpis.obj_get] in Hid. injection Hid as <-.
  unfold Spec.app_ids_are_strings in Hstr. cbn [forallb] in Hstr.
  rewrite andb_true_r in Hstr. cbn [Spec.has_app_id].
  destruct (truthy (get d "appId")) eqn:Et; cbn [negb] in H.
  2:{ injection H as <-. lia. }
  rewrite orb_false_r in Hstr.
  destruct (get d "appId") as [| | | |s| |]; try discriminate Hstr.
  apply bind_ok in H. destruct H as (score & _ & H).
  apply bind_ok in H. destruct H as (score_val & _ & H).
  apply bind_ok in H. destruct H as (at_iso & _ & H).
  apply bind_ok in H. destruct H as (date_str & _ & H).
  cbn [hashable negb] in H.
  apply bind_ok in H. destruct H as (agg' & Hup & H). injection H as <-.
  apply update_counts in Hup. destruct Hup as (_ & Hnum & _).
  rewrite store_agg_total, Hnum. unfold Spec.num_of.
  destruct (ComputeAppKpis.find_agg (VStr s) aggs); cbn; lia.
Qed.

Lemma kpi_aggregate_total (objs : list pyval) (aggs aggs' : ComputeAppKpis.aggregates) :
  ComputeAppKpis.aggregate aggs objs = Ok aggs' ->
  Spec.app_ids_are_strings objs = true ->
  Spec.kpi_total aggs' = Spec.kpi_total aggs + Spec.count Spec.has_app_id objs.
Proof.
  revert aggs. induction objs as [|obj objs IH]; intros aggs H Hstr.
  - injection H as <-. unfold Spec.count. cbn. lia.
  - cbn [ComputeAppKpis.aggregate] in H.
    apply bind_ok in H. destruct H as (aggs1 & Hp & H).
    unfold Spec.app_ids_are_strings in Hstr. cbn [forallb] in Hstr.
    apply andb_true_iff in Hstr. destruct Hstr as [Hobj Hrest].
    rewrite count_cons, (IH _ H Hrest), (kpi_process_obj_total _ _ _ Hp); [lia|].
    unfold Spec.app_ids_are_strings. cbn [forallb]. now rewrite Hobj.
Qed.

Lemma sum_over_agg_keys (aggs : ComputeAppKpis.aggregates) (ks : list string) :
  map fst aggs = map VStr ks -> NoDup ks ->
  Spec.sum_over (fun s => Spec.num_of s aggs) ks = Spec.kpi_total aggs.
Proof.
  revert ks. induction aggs as [|[k a] aggs IH]; intros [|k0 ks] Hks Hnd;
    try discriminate Hks; [reflexivity|].
  cbn [map fst] in Hks. injection Hks as -> Hks.
  inversion Hnd as [|? ? Hk Hnd']; subst.
  cbn [Spec.sum_over fold_right Spec.kpi_total snd].
  fold (Spec.sum_over (fun s => Spec.num_of s ((VStr k0, a) :: aggs)) ks).
  fold (Spec.kpi_total aggs).
  rewrite <- (IH ks Hks Hnd'). unfold Spec.num_of at 1.
  cbn [ComputeAppKpis.find_agg]. rewrite key_eqb_str_refl.
  f_equal. apply sum_over_ext. intros s Hs. unfold Spec.num_of.
  cbn [ComputeAppKpis.find_agg key_eqb].
  destruct (String.eqb_spec k0 s) as [->|_]; [contradiction | reflexivity].
Qed.

Lemma kpi_rows_sum (aggs : ComputeAppKpis.aggregates) (ids : list string)
    (rows : list pydict) :
  ComputeAppKpis.rows_for aggs (map VStr ids) = Ok rows ->
  Spec.column_sum "num_reviews" rows = Spec.sum_over (fun s => Spec.num_of s aggs) ids.
Proof.
  revert rows. induction ids as [|s ids IH]; intros rows H.
  - now injection H as <-.
  - cbn [map ComputeAppKpis.rows_for] in H. cbn [Spec.sum_over fold_right].
    fold (Spec.sum_over (fun s => Spec.num_of s aggs) ids).
    unfold Spec.num_of at 1.
    destruct (ComputeAppKpis.find_agg (VStr s) aggs) as [a|] eqn:Ef.
    + apply bind_ok in H. destruct H as (r0 & Hr & H).
      apply bind_ok in H. destruct H as (rest & Hrest & H).
      injection H as <-. cbn [Spec.column_sum fold_right].
      fold (Spec.column_sum "num_reviews" rest).
      destruct (kpi_to_row_fields _ _ Hr) as (_ & -> & _).
      rewrite (IH _ Hrest). reflexivity.
    + rewrite (IH _ H). lia.
Qed.

(** X21.  The KPI aggregator counts every review once: when the [appId] of
    every review is a string (or counts as absent), the [num_reviews] of the
    rows written add up to the number of reviews that carry an [appId]. *)
Theorem kpi_counts_every_review_once (json_loads : string -> result pyval)
    (lines : list string) (rows : list pydict) :
  ComputeAppKpis.compute_app_kpis json_loads lines = Ok rows ->
  Spec.app_ids_are_strings (Spec.decoded json_loads lines) = true ->
  Spec.column_sum "num_reviews" rows
  = Spec.count Spec.has_app_id (Spec.decoded json_loads lines).
Proof.
  intros H Hstr. unfold ComputeAppKpis.compute_app_kpis in H.
  apply bind_ok in H. destruct H as (aggs & Hread & Hrows).
  rewrite kpi_read_lines_aggregate in Hread. fold (Spec.decoded json_loads lines) in Hread.
  set (objs := Spec.decoded json_loads lines) in *.
  assert (Hok : Spec.aggs_ok aggs).
  { apply (kpi_aggregate_ok objs [] aggs Hread Hstr). exists []. split; [reflexivity|constructor]. }
  destruct Hok as (ks & Hks & Hnd).
  unfold ComputeAppKpis.write_rows in Hrows. rewrite Hks, sorted_str in Hrows.
  cbn [bind] in Hrows.
  rewrite (kpi_rows_sum _ _ _ Hrows), sum_over_sorted, (sum_over_agg_keys _ _ Hks Hnd).
  rewrite (kpi_aggregate_total _ _ _ Hread Hstr). reflexivity.
Qed.

Lemma kpi_counts_every_review_once_witness :
  Spec.column_sum "num_reviews"
    [[(VStr "appId", VStr "a"); (VStr "num_reviews", VInt 1);
      (VStr "avg_rating", VFloat (S754_finite false 5629499534213120 (-50)));
      (VStr "low_rating_pct", VFloat (S754_zero false));
      (VStr "first_review_date", VStr "");
      (VStr "last_review_date", VStr "")];
     [(VStr "appId", VStr "b"); (VStr "num_reviews", VInt 2);
      (VStr "avg_rating", VFloat (S754_finite false 6755399441055744 (-51)));
      (VStr "low_rating_pct", VFloat (S754_zero false));
      (VStr "first_review_date", VStr "");
      (VStr "last_review_date", VStr "")]]
  = Spec.count Spec.has_app_id (Spec.decoded Samples.two_apps ["b"; "a"; "b"]).
Proof.
  apply (kpi_counts_every_review_once Samples.two_apps ["b"; "a"; "b"]).
  - vm_compute. reflexivity.
  - reflexivity.
Defined.

(** ** From an epoch to an ISO string: [updated_iso] of [transform_apps] *)

Lemma month_day_checked (leap : bool) (k : Z) :
  0 <= k <= 364 -> Spec.month_day_ok leap k = true.
Proof.
  intros Hk.
  assert (Hall : forallb (fun i => Spec.month_day_ok true (Z.of_nat i)
                                   && Spec.month_day_ok false (Z.of_nat i))
                   (seq 0 365) = true) by (vm_compute; reflexivity).
  rewrite forallb_forall in Hall.
  specialize (Hall (Z.to_nat k)). rewrite Z2Nat.id in Hall by lia.
  assert (Hin : In (Z.to_nat k) (seq 0 365)) by (apply in_seq; lia).
  apply Hall in Hin. apply andb_true_iff in Hin. destruct leap; tauto.
Qed.

Lemma month_day_spec (leap : bool) (k m d : Z) :
  0 <= k <= 364 -> month_day leap k = (m, d) ->
  1 <= m <= 12
  /\ 1 <= d <= Spec.month_length m + (if (m =? 2) && leap then 1 else 0)
  /\ Spec.month_offset m + (if (2 <? m) && leap then 1 else 0) + d = k + 1.
Proof.
  intros Hk E. pose proof (month_day_checked leap k Hk) as H.
  unfold Spec.month_day_ok in H. rewrite E in H.
  repeat (apply andb_true_iff in H; destruct H as [H ?]).
  repeat match goal with
         | H : (_ <=? _) = true |- _ => apply Z.leb_le in H
         | H : (_ =? _) = true |- _ => apply Z.eqb_eq in H
         end.
  lia.
Qed.

Lemma mod_is_zero (x m : Z) : 1 <= x <= m -> (x mod m =? 0) = (x =? m).
Proof.
  intros H. destruct (Z.eqb_spec x m) as [->|Hne].
  - rewrite Z.mod_same by lia. reflexivity.
  - rewrite Z.mod_small by lia. apply Z.eqb_neq. lia.
Qed.

(** A year written as [400 a + 100 b + 4 c + e + 1], as [_ord2ymd] finds
    it. *)
Lemma is_leap_digits (a b c e : Z) :
  0 <= b <= 3 -> 0 <= c <= 24 -> 0 <= e <= 3 ->
  is_leap (a * 400 + 1 + b * 100 + c * 4 + e)
  = (e =? 3) && (negb (c =? 24) || (b =? 3)).
Proof.
  intros Hb Hc He. unfold is_leap.
  replace (a * 400 + 1 + b * 100 + c * 4 + e)
    with ((e + 1) + (a * 100 + b * 25 + c) * 4) at 1 by lia.
  replace (a * 400 + 1 + b * 100 + c * 4 + e)
    with ((c * 4 + e + 1) + (a * 4 + b) * 100) at 1 by lia.
  replace (a * 400 + 1 + b * 100 + c * 4 + e)
    with ((b * 100 + c * 4 + e + 1) + a * 400) by lia.
  rewrite !Z.mod_add by lia. rewrite !mod_is_zero by lia.
  destruct (Z.eqb_spec e 3), (Z.eqb_spec c 24), (Z.eqb_spec b 3);
    repeat match goal with
           | |- context [?x =? ?y] => destruct (Z.eqb_spec x y); try lia
           end; reflexivity.
Qed.

Lemma days_before_year_digits (a b c e : Z) :
  0 <= b <= 3 -> 0 <= c <= 24 -> 0 <= e <= 3 ->
  days_before_year (a * 400 + 1 + b * 100 + c * 4 + e)
  = 146097 * a + 36524 * b + 1461 * c + 365 * e.
Proof.
  intros Hb Hc He. unfold days_before_year. cbv zeta.
  replace ((a * 400 + 1 + b * 100 + c * 4 + e - 1) / 4)
    with (a * 100 + b * 25 + c).
  2:{ replace (a * 400 + 1 + b * 100 + c * 4 + e - 1)
        with (e + (a * 100 + b * 25 + c) * 4) by lia.
      rewrite Z.div_add, Z.div_small by lia. lia. }
  replace ((a * 400 + 1 + b * 100 + c * 4 + e - 1) / 100) with (a * 4 + b).
  2:{ replace (a * 400 + 1 + b * 100 + c * 4 + e - 1)
        with ((c * 4 + e) + (a * 4 + b) * 100) by lia.
      rewrite Z.div_add, Z.div_small by lia. lia. }
  replace ((a * 400 + 1 + b * 100 + c * 4 + e - 1) / 400) with a.
  2:{ replace (a * 400 + 1 + b * 100 + c * 4 + e - 1)
        with ((b * 100 + c * 4 + e) + a * 400) by lia.
      rewrite Z.div_add, Z.div_small by lia. lia. }
  lia.
Qed.

(** The date of a day number has that day number. *)
Lemma ord2ymd_inverse (n y m d : Z) :
  ord2ymd n = (y, m, d) ->
  1 <= m <= 12 /\ 1 <= d <= days_in_month y m /\ ymd2ord y m d = n.
Proof.
  unfold ord2ymd.
  set (n0 := n - 1). set (a := n0 / 146097). set (r1 := n0 mod 146097).
  set (b := r1 / 36524). set (r2 := r1 mod 36524).
  set (c := r2 / 1461). set (r3 := r2 mod 1461).
  set (e := r3 / 365). set (k := r3 mod 365).
  assert (Hn0 : n0 = 146097 * a + r1 /\ 0 <= r1 < 146097)
    by (subst a r1; split; [apply Z.div_mod; lia | apply Z.mod_pos_bound; lia]).
  assert (Hr1 : r1 = 36524 * b + r2 /\ 0 <= r2 < 36524)
    by (subst b r2; split; [apply Z.div_mod; lia | apply Z.mod_pos_bound; lia]).
  assert (Hr2 : r2 = 1461 * c + r3 /\ 0 <= r3 < 1461)
    by (subst c r3; split; [apply Z.div_mod; lia | apply Z.mod_pos_bound; lia]).
  assert (Hr3 : r3 = 365 * e + k /\ 0 <= k < 365)
    by (subst e k; split; [apply Z.div_mod; lia | apply Z.mod_pos_bound; lia]).
  assert (Hn : n = n0 + 1) by (subst n0; lia).
  clearbody n0 a r1 b r2 c r3 e k.
  assert (Hb : 0 <= b <= 4) by lia.
  assert (Hc : 0 <= c <= 24) by lia.
  assert (He : 0 <= e <= 4) by lia.
  destruct ((e =? 4) || (b =? 4)) eqn:Esp.
  - intros H. injection H as <- <- <-.
    (* the last day of a leap year: the year is [400 a + 100 b' + 4 c' + 4] *)
    assert (Hy : exists b' c',
                   0 <= b' <= 3 /\ 0 <= c' <= 24 /\ (c' <> 24 \/ b' = 3)
                   /\ a * 400 + 1 + b * 100 + c * 4 + e - 1
                      = a * 400 + 1 + b' * 100 + c' * 4 + 3
                   /\ n0 = 146097 * a + 36524 * b' + 1461 * c' + 1460).
    { destruct (Z.eq_dec b 4) as [->|Hb4].
      - exists 3, 24. lia.
      - apply orb_true_iff in Esp. destruct Esp as [E|E]; apply Z.eqb_eq in E; [|lia].
        exists b, c. lia. }
    destruct Hy as (b' & c' & Hb' & Hc' & Hcb & -> & Hn0').
    assert (Hleap : is_leap (a * 400 + 1 + b' * 100 + c' * 4 + 3) = true).
    { rewrite is_leap_digits by lia. cbn [Z.eqb Pos.eqb andb].
      destruct Hcb as [Hne| ->].
      - apply Z.eqb_neq in Hne. now rewrite Hne.
      - apply orb_true_r. }
    split; [lia|]. split; [cbn; lia|].
    unfold ymd2ord. rewrite days_before_month_table by lia.
    rewrite Hleap, days_before_year_digits by lia.
    cbn [Spec.month_offset Z.ltb Z.compare Pos.compare Pos.compare_cont andb].
    lia.
  - apply orb_false_iff in Esp. destruct Esp as [E4 B4].
    apply Z.eqb_neq in E4. apply Z.eqb_neq in B4.
    set (leapyear := (e =? 3) && (negb (c =? 24) || (b =? 3))).
    destruct (month_day leapyear k) as [m0 d0] eqn:Emd.
    intros H. injection H as <- <- <-.
    assert (Hleap : is_leap (a * 400 + 1 + b * 100 + c * 4 + e) = leapyear)
      by (apply is_leap_digits; lia).
    destruct (month_day_spec leapyear k m0 d0 ltac:(lia) Emd) as (Hm & Hd & Hoff).
    split; [exact Hm|]. split.
    + rewrite days_in_month_table, Hleap by lia. exact Hd.
    + unfold ymd2ord. rewrite days_before_month_table, Hleap by lia.
      rewrite days_before_year_digits by lia. lia.
Qed.

Lemma day_of_year_range (y m d : Z) :
  1 <= m <= 12 -> 1 <= d <= days_in_month y m ->
  1 <= days_before_month y m + d <= Spec.days_in_year y.
Proof.
  intros Hm Hd. rewrite days_in_month_table in Hd by lia.
  rewrite days_before_month_table by lia.
  unfold Spec.days_in_year. revert Hd. generalize (is_leap y). intros l Hd.
  apply month_cases in Hm.
  repeat destruct Hm as [Hm | Hm]; subst m; destruct l;
    cbn -[Z.add] in *; lia.
Qed.

Lemma ymd2ord_range (y m d : Z) :
  valid_date y m d = true -> 1 <= ymd2ord y m d <= 3652059.
Proof.
  intros Hv. pose proof (day_of_year_bounds y m d Hv) as Hdoy.
  destruct (valid_date_bounds y m d Hv) as (Hy & _).
  unfold ymd2ord.
  pose proof (days_before_year_mono 1 y ltac:(lia)) as Hlo.
  pose proof (days_before_year_mono (y + 1) 10000 ltac:(lia)) as Hhi.
  rewrite year_step in Hhi.
  change (days_before_year 1) with 0 in Hlo.
  change (days_before_year 10000) with 3652059 in Hhi. lia.
Qed.

(** The year of a day number in the range of [datetime]. *)
Lemma ord2ymd_year (n y m d : Z) :
  1 <= n <= 3652059 -> ord2ymd n = (y, m, d) -> 1 <= y <= 9999.
Proof.
  intros Hn H. destruct (ord2ymd_inverse n y m d H) as (Hm & Hd & Hord).
  pose proof (day_of_year_range y m d Hm Hd) as Hdoy.
  unfold ymd2ord in Hord.
  destruct (Z_le_gt_dec y 0) as [Hy0|Hy0].
  - pose proof (days_before_year_mono (y + 1) 1 ltac:(lia)) as Hlo.
    rewrite year_step in Hlo. change (days_before_year 1) with 0 in Hlo. lia.
  - destruct (Z_le_gt_dec 10000 y) as [Hy1|Hy1]; [|lia].
    pose proof (days_before_year_mono 10000 y Hy1) as Hhi.
    change (days_before_year 10000) with 3652059 in Hhi. lia.
Qed.

Lemma lexc_eq (c k : comparison) : Spec.lexc c k = Eq -> c = Eq /\ k = Eq.
Proof. destruct c; cbn; intros H; try discriminate; now split. Qed.

(** [_ord2ymd] inverts [_ymd2ord] on the dates of [datetime]. *)
Lemma ord2ymd_ymd2ord (y m d : Z) :
  valid_date y m d = true -> ord2ymd (ymd2ord y m d) = (y, m, d).
Proof.
  intros Hv. destruct (ord2ymd (ymd2ord y m d)) as [[y' m'] d'] eqn:E.
  destruct (ord2ymd_inverse _ _ _ _ E) as (Hm & Hd & Hord).
  pose proof (ord2ymd_year _ _ _ _ (ymd2ord_range _ _ _ Hv) E) as Hy.
  assert (Hv' : valid_date y' m' d' = true).
  { unfold valid_date. repeat (apply andb_true_iff; split); apply Z.leb_le; lia. }
  pose proof (ymd2ord_compare y' m' d' y m d Hv' Hv) as Hc.
  rewrite Hord, Z.compare_refl in Hc. symmetry in Hc.
  apply lexc_eq in Hc. destruct Hc as [Hc1 Hc]. apply lexc_eq in Hc.
  destruct Hc as [Hc2 Hc3].
  apply Z.compare_eq in Hc1, Hc2, Hc3. now subst.
Qed.

Lemma valid_time_bounds (H M S : Z) :
  valid_time H M S = true -> 0 <= H <= 23 /\ 0 <= M <= 59 /\ 0 <= S <= 59.
Proof.
  unfold valid_time. intros Hv.
  repeat (apply andb_true_iff in Hv; destruct Hv as [Hv ?]).
  repeat match goal with
         | H : (_ <=? _) = true |- _ => apply Z.leb_le in H
         end.
  lia.
Qed.

(** [fromtimestamp] inverts the number of seconds of a date and time. *)
Lemma fromtimestamp_of_seconds (dt : datetime) :
  valid dt = true -> fromtimestamp_utc (seconds_since_epoch dt) = Ok dt.
Proof.
  destruct dt as [y m d H M S]. unfold valid. cbn [year month day hour minute second].
  intros Hv. apply andb_true_iff in Hv. destruct Hv as [Hd Ht].
  pose proof (valid_time_bounds _ _ _ Ht) as (HH & HM & HS).
  unfold fromtimestamp_utc, seconds_since_epoch.
  cbn [year month day hour minute second].
  set (n := ymd2ord y m d) in *.
  replace ((n - epoch_ordinal) * 86400 + H * 3600 + M * 60 + S)
    with ((H * 3600 + M * 60 + S) + (n - epoch_ordinal) * 86400) by lia.
  rewrite Z.div_add, Z.mod_add by lia.
  rewrite Z.div_small, Z.mod_small by lia.
  replace (0 + (n - epoch_ordinal) + epoch_ordinal) with n by lia.
  subst n. rewrite (ord2ymd_ymd2ord y m d Hd).
  replace ((H * 3600 + M * 60 + S) / 3600) with H.
  2:{ replace (H * 3600 + M * 60 + S) with ((M * 60 + S) + H * 3600) by lia.
      rewrite Z.div_add, Z.div_small by lia. lia. }
  replace ((H * 3600 + M * 60 + S) mod 3600) with (M * 60 + S).
  2:{ replace (H * 3600 + M * 60 + S) with ((M * 60 + S) + H * 3600) by lia.
      rewrite Z.mod_add, Z.mod_small by lia. lia. }
  replace ((M * 60 + S) / 60) with M.
  2:{ replace (M * 60 + S) with (S + M * 60) by lia.
      rewrite Z.div_add, Z.div_small by lia. lia. }
  replace ((H * 3600 + M * 60 + S) mod 60) with S.
  2:{ replace (H * 3600 + M * 60 + S) with (S + (H * 60 + M) * 60) by lia.
      rewrite Z.mod_add, Z.mod_small by lia. lia. }
  unfold datetime_new. now rewrite Hd, Ht.
Qed.

(** What [fromtimestamp] returns is a date and time of that number of
    seconds. *)
Lemma fromtimestamp_seconds (t : Z) (dt : datetime) :
  fromtimestamp_utc t = Ok dt -> valid dt = true /\ seconds_since_epoch dt = t.
Proof.
  unfold fromtimestamp_utc.
  destruct (ord2ymd (t / 86400 + epoch_ordinal)) as [[y m] d] eqn:E.
  unfold datetime_new.
  destruct (valid_date y m d && valid_time (t mod 86400 / 3600)
              (t mod 86400 mod 3600 / 60) (t mod 86400 mod 60)) eqn:Hv;
    [|discriminate].
  intros H. injection H as <-. split; [exact Hv|].
  destruct (ord2ymd_inverse _ _ _ _ E) as (_ & _ & Hord).
  unfold seconds_since_epoch. cbn [year month day hour minute second].
  rewrite Hord. Z.div_mod_to_equations. lia.
Qed.

Lemma parse_epoch_int_coerced (v : pyval) :
  TransformData.parse_epoch_int v = Ok (Spec.coerced v).
Proof.
  unfold TransformData.parse_epoch_int, Spec.coerced.
  destruct v; simpl; try reflexivity.
  - destruct (int_of_float f); reflexivity.
  - destruct (int_of_str s); reflexivity.
Qed.

Lemma seconds_range (dt : datetime) :
  valid dt = true ->
  Spec.min_timestamp <= seconds_since_epoch dt <= Spec.max_timestamp.
Proof.
  destruct dt as [y m d H M S]. unfold valid. cbn [year month day hour minute second].
  intros Hv. apply andb_true_iff in Hv. destruct Hv as [Hd Ht].
  pose proof (valid_time_bounds _ _ _ Ht) as (HH & HM & HS).
  pose proof (ymd2ord_range _ _ _ Hd) as Hn.
  unfold seconds_since_epoch, Spec.min_timestamp, Spec.max_timestamp, epoch_ordinal.
  cbn [year month day hour minute second]. lia.
Qed.

Lemma fromtimestamp_in_range (t : Z) :
  Spec.min_timestamp <= t <= Spec.max_timestamp ->
  exists dt, fromtimestamp_utc t = Ok dt.
Proof.
  unfold Spec.min_timestamp, Spec.max_timestamp. intros Ht.
  unfold fromtimestamp_utc.
  destruct (ord2ymd (t / 86400 + epoch_ordinal)) as [[y m] d] eqn:E.
  assert (Hn : 1 <= t / 86400 + epoch_ordinal <= 3652059)
    by (unfold epoch_ordinal; Z.div_mod_to_equations; lia).
  destruct (ord2ymd_inverse _ _ _ _ E) as (Hm & Hd & _).
  pose proof (ord2ymd_year _ _ _ _ Hn E) as Hy.
  unfold datetime_new.
  assert (Hv : valid_date y m d = true).
  { unfold valid_date. repeat (apply andb_true_iff; split); apply Z.leb_le; lia. }
  assert (Hvt : valid_time (t mod 86400 / 3600) (t mod 86400 mod 3600 / 60)
                  (t mod 86400 mod 60) = true).
  { unfold valid_time. repeat (apply andb_true_iff; split); apply Z.leb_le;
      Z.div_mod_to_equations; lia. }
  rewrite Hv, Hvt. cbn [andb]. eauto.
Qed.

(** X22.  [updated_iso] is the inverse of the count of seconds: for an app
    whose [updated] is the number of seconds from the epoch to a date and
    time of the calendar, [transform_apps] stores the ISO string of exactly
    this date and time in UTC; the one exception is the epoch itself, whose
    count 0 is taken for a missing value and gives null. *)
Theorem updated_iso_inverts_seconds (app : pydict) (dt : datetime) :
  valid dt = true ->
  get app "updated" = VInt (seconds_since_epoch dt) ->
  TransformData.updated_iso app
  = Ok (if seconds_since_epoch dt =? 0 then VNone else VStr (isoformat_utc dt)).
Proof.
  intros Hv Hu. unfold TransformData.updated_iso. rewrite Hu. cbn [TransformData.parse_epoch_int is_none py_int
    bind try_except]. unfold TransformData.epoch_to_iso. cbn [truthy].
  destruct (seconds_since_epoch dt =? 0) eqn:E0; cbn [negb]; [reflexivity|].
  cbn [py_int bind]. rewrite (fromtimestamp_of_seconds dt Hv). reflexivity.
Qed.

Lemma updated_iso_inverts_seconds_witness :
  TransformData.updated_iso [(VStr "updated", VInt 1735689600)]
  = Ok (VStr "2025-01-01T00:00:00+00:00").
Proof.
  exact (updated_iso_inverts_seconds [(VStr "updated", VInt 1735689600)]
           Samples.new_year_2025 eq_refl eq_refl).
Defined.

(** X23.  [epoch_to_iso(parse_epoch_int(updated))] never raises.  It is
    null when [int()] rejects [updated] (also when [updated] is null), when
    the integer is 0, and when it lies before year 1 or after year 9999;
    for every other integer it is a string of the form
    [YYYY-MM-DDTHH:MM:SS+00:00], that of the date and time in UTC which has
    this count of seconds. *)
Theorem updated_iso_null_or_utc (app : pydict) :
  exists v,
    TransformData.updated_iso app = Ok v
    /\ match Spec.coerced (get app "updated") with
       | VInt t =>
           if (t =? 0) || (t <? Spec.min_timestamp) || (Spec.max_timestamp <? t)
           then v = VNone
           else exists dt, valid dt = true /\ seconds_since_epoch dt = t
                           /\ v = VStr (isoformat_utc dt)
                           /\ Spec.is_iso_utc (isoformat_utc dt) = true
       | _ => v = VNone
       end.
Proof.
  unfold TransformData.updated_iso. rewrite parse_epoch_int_coerced. cbn [bind].
  destruct (coerced_int_or_null (get app "updated")) as [-> | (t & ->)].
  - exists VNone. split; reflexivity.
  - unfold TransformData.epoch_to_iso. cbn [truthy py_int bind].
    destruct (Z.eqb_spec t 0) as [->|Ht0]; cbn [negb orb].
    + exists VNone. split; reflexivity.
    + destruct (Z.ltb_spec t Spec.min_timestamp) as [Hlo|Hlo]; cbn [orb].
      * destruct (fromtimestamp_utc t) as [dt|e] eqn:E; cbn [bind try_except];
          [|exists VNone; split; reflexivity].
        destruct (fromtimestamp_seconds _ _ E) as [Hv Hs].
        pose proof (seconds_range dt Hv). lia.
      * destruct (Z.ltb_spec Spec.max_timestamp t) as [Hhi|Hhi].
        -- destruct (fromtimestamp_utc t) as [dt|e] eqn:E; cbn [bind try_except];
             [|exists VNone; split; reflexivity].
           destruct (fromtimestamp_seconds _ _ E) as [Hv Hs].
           pose proof (seconds_range dt Hv). lia.
        -- destruct (fromtimestamp_in_range t ltac:(lia)) as (dt & E).
           rewrite E. cbn [bind try_except]. eexists. split; [reflexivity|].
           destruct (fromtimestamp_seconds _ _ E) as [Hv Hs].
           exists dt. repeat split; try assumption.
           now apply isoformat_utc_is_iso.
Qed.

(** ** Calls of [int()] that are not guarded *)

(** X24.  [normalize_installs] does not guard its calls of [int()]: when
    [minInstalls] is a value that counts as present and [int()] rejects it,
    or [realInstalls] is not null and [int()] rejects it (an empty cell of a
    CSV file, a word), the function raises instead of writing null, unlike
    [safe_int]. *)
Theorem normalize_installs_unguarded_int (app : pydict) (e : exc) :
  (truthy (get app "minInstalls") = true
   /\ Spec.rejected_count (get app "minInstalls") e)
  \/ Spec.rejected_count (get app "realInstalls") e ->
  exists e', TransformData.normalize_installs app = Raise e'.
Proof.
  unfold Spec.rejected_count, TransformData.normalize_installs.
  intros [(Ht & Hn & He) | (Hn & He)].
  - rewrite Ht. cbn [negb].
    assert (Hmin : match get app "installs" with
                   | VStr _ => get app "minInstalls"
                   | _ => get app "minInstalls"
                   end = get app "minInstalls")
      by (destruct (get app "installs"); reflexivity).
    rewrite Hmin. unfold TransformData.int_or_none at 1. rewrite Hn, He.
    cbn [bind]. eauto.
  - match goal with
    | |- exists e', bind ?m _ = _ => destruct m as [m0|e0]
    end; cbn [bind]; [|eauto].
    unfold TransformData.int_or_none. rewrite Hn, He. cbn [bind]. eauto.
Qed.

Lemma normalize_installs_unguarded_int_witness :
  exists e', TransformData.normalize_installs Samples.app_empty_cell = Raise e'.
Proof.
  apply (normalize_installs_unguarded_int Samples.app_empty_cell ValueError).
  right. split; reflexivity.
Defined.

(** X25.  The KPI aggregator does not guard [int(score)]: a review with an
    [appId] whose score is a float that [int()] rejects (a NaN, an
    infinity) ends the run with the error of [int()], after the lines before
    it were read without error and whatever follows. *)
Theorem kpi_unreadable_score_aborts (json_loads : string -> result pyval)
    (pre post : list string) (line : string) (d : pydict)
    (aggs : ComputeAppKpis.aggregates) (f : spec_float) (e : exc) :
  ComputeAppKpis.read_lines json_loads [] pre = Ok aggs ->
  strip line <> "" ->
  json_loads (strip line) = Ok (VDict d) ->
  truthy (get d "appId") = true ->
  get d "score" = VFloat f ->
  int_of_float f = Raise e ->
  ComputeAppKpis.compute_app_kpis json_loads (pre ++ line :: post)%list = Raise e.
Proof.
  intros Hpre Hne Hdec Hid Hscore Hint.
  unfold ComputeAppKpis.compute_app_kpis.
  rewrite kpi_read_lines_app, Hpre. cbn [bind ComputeAppKpis.read_lines].
  destruct (String.eqb_spec (strip line) ""); [contradiction|].
  rewrite Hdec. unfold ComputeAppKpis.process_obj.
  cbn [ComputeAppKpis.obj_get bind]. rewrite Hid. cbn [negb].
  rewrite Hscore. cbn [is_int_or_float py_int]. rewrite Hint. reflexivity.
Qed.

Lemma kpi_unreadable_score_aborts_witness :
  ComputeAppKpis.compute_app_kpis Samples.nan_line ["dated"; "nan"; "undated"]
  = Raise ValueError.
Proof.
  apply (kpi_unreadable_score_aborts Samples.nan_line ["dated"] ["undated"] "nan"
           [(VStr "appId", VStr "a"); (VStr "score", VFloat S754_nan)]
           [(VStr "a", ComputeAppKpis.mkAppAgg (VStr "a") 1 1 (float_of_Z 4) 0
                         (VStr "2025-01-01T10:00:00+00:00")
                         (VStr "2025-01-01T10:00:00+00:00"))]
           S754_nan ValueError);
    try reflexivity.
  discriminate.
Defined.

(** ** The average of a day without rated review *)

Lemma daily_process_rated (daily daily' : ComputeDailyMetrics.daily_map)
    (r : pydict) (d0 : string) :
  ComputeDailyMetrics._extract_date (VDict r) = Ok (Some d0) ->
  ComputeDailyMetrics.process_obj daily (VDict r) = Ok daily' ->
  forall d, Spec.rated_on_day d daily'
            = Spec.rated_on_day d daily
              + (if (d0 =? d)%string && is_int_or_float (get r "score") then 1 else 0).
Proof.
  intros He Hp d. pose proof (extract_date_nonempty _ _ He) as Hne.
  unfold ComputeDailyMetrics.process_obj in Hp. rewrite He in Hp. cbn [bind] in Hp.
  destruct (String.eqb_spec d0 ""); [contradiction|].
  apply bind_ok in Hp. destruct Hp as (score & Hscore & Hp).
  cbn in Hscore. injection Hscore as <-.
  apply bind_ok in Hp. destruct Hp as (rs & Hrs & Hp).
  assert (Hfst : fst rs = if is_int_or_float (get r "score") then 1 else 0).
  { destruct (get r "score"); cbn [is_int_or_float] in *;
      try (injection Hrs as <-; reflexivity).
    apply bind_ok in Hrs. destruct Hrs as (f & _ & Hrs). now injection Hrs as <-. }
  unfold Spec.rated_on_day.
  destruct (ComputeDailyMetrics.find_day d0 daily) as [[[c r0] t]|] eqn:Ef;
    injection Hp as <-; rewrite find_store_day;
    destruct (String.eqb_spec d0 d) as [->|Hd]; cbn [andb]; try rewrite Ef;
    try rewrite Hfst;
    try (destruct (ComputeDailyMetrics.find_day d daily) as [[[? ?] ?]|]);
    destruct (is_int_or_float (get r "score")); lia.
Qed.

Lemma daily_read_lines_rated (json_loads : string -> result pyval)
    (lines : list string) (daily daily' : ComputeDailyMetrics.daily_map) :
  ComputeDailyMetrics.read_lines json_loads daily lines = Ok daily' ->
  forall d, Spec.rated_on_day d daily'
            = Spec.rated_on_day d daily + Spec.count (Spec.rated_on json_loads d) lines.
Proof.
  revert daily. induction lines as [|line lines IH]; intros daily H d.
  - injection H as <-. unfold Spec.count. cbn. lia.
  - cbn [ComputeDailyMetrics.read_lines] in H. rewrite count_cons.
    unfold Spec.rated_on at 1, Spec.dated_as.
    destruct (strip line =? "")%string; [rewrite (IH _ H d); cbn [andb]; lia|].
    destruct (json_loads (strip line)) as [obj|e];
      [|rewrite (IH _ H d); cbn [andb]; lia].
    apply bind_ok in H. destruct H as (daily1 & Hp & H).
    rewrite (IH _ H d).
    destruct (ComputeDailyMetrics._extract_date obj) as [[d0|]|] eqn:He.
    + destruct obj as [| | | | | |r]; try discriminate He.
      rewrite (daily_process_rated _ _ _ _ He Hp d). lia.
    + rewrite (daily_process_undated _ _ He) in Hp. injection Hp as <-.
      cbn [andb]. lia.
    + unfold ComputeDailyMetrics.process_obj in Hp. rewrite He in Hp. discriminate.
Qed.

Lemma daily_row_of_avg (d : string) (c r : Z) (t : spec_float) (row : pydict) :
  ComputeDailyMetrics.row_of d (c, r, t) = Ok row ->
  (get row "daily_avg_rating" = VStr "" <-> r <= 0).
Proof.
  unfold ComputeDailyMetrics.row_of. intros H.
  apply bind_ok in H. destruct H as (avg & Havg & H). injection H as <-.
  change (get _ "daily_avg_rating") with avg.
  destruct (Z.ltb_spec 0 r) as [Hpos|Hle].
  - apply bind_ok in Havg. destruct Havg as (n & _ & Havg).
    apply bind_ok in Havg. destruct Havg as (q & _ & Havg).
    injection Havg as <-. split; [discriminate | lia].
  - injection Havg as <-. split; [intros _; exact Hle | reflexivity].
Qed.

(** X26.  In a row of the Daily Metrics Aggregator [daily_avg_rating] is
    empty exactly when no review of that day has a number as score (an
    integer, a float or a boolean); the reviews without a score are counted
    in [daily_num_reviews] only. *)
Theorem daily_avg_empty_iff_unrated (json_loads : string -> result pyval)
    (lines : list string) (rows : list pydict) :
  ComputeDailyMetrics.compute_daily_metrics json_loads lines = Ok rows ->
  forall row d, In row rows -> get row "date" = VStr d ->
  (get row "daily_avg_rating" = VStr ""
   <-> Spec.count (Spec.rated_on json_loads d) lines = 0).
Proof.
  unfold ComputeDailyMetrics.compute_daily_metrics. intros H row d Hin Hdate.
  apply bind_ok in H. destruct H as (daily & Hread & Hrows).
  unfold ComputeDailyMetrics.write_rows in Hrows.
  destruct (daily_rows_for_in _ _ _ Hrows row Hin) as (d' & [[c r] t] & Ef & Hrow).
  destruct (daily_row_of_fields _ _ _ _ _ Hrow) as [Hd' _].
  rewrite Hd' in Hdate. injection Hdate as ->.
  pose proof (daily_read_lines_rated _ _ _ _ Hread d) as Hr.
  unfold Spec.rated_on_day in Hr. cbn [ComputeDailyMetrics.find_day] in Hr.
  rewrite Ef in Hr. rewrite (daily_row_of_avg _ _ _ _ _ Hrow).
  assert (0 <= Spec.count (Spec.rated_on json_loads d) lines) by (unfold Spec.count; lia).
  lia.
Qed.

Lemma daily_avg_empty_iff_unrated_witness :
  VFloat (float_of_Z 4) = VStr ""
  <-> Spec.count (Spec.rated_on Samples.two_lines "2025-01-01")
        ["dated"; "undated"; "dated"] = 0.
Proof.
  apply (daily_avg_empty_iff_unrated Samples.two_lines ["dated"; "undated"; "dated"]
           [[(VStr "date", VStr "2025-01-01"); (VStr "daily_num_reviews", VInt 2);
             (VStr "daily_avg_rating", VFloat (float_of_Z 4))]]
           ltac:(vm_compute; reflexivity) _ "2025-01-01" (or_introl eq_refl) eq_refl).
Defined.

(** ** Reading the exact format, and the seconds it gives *)

Lemma pattern_exact : pattern Spec.exact_format = Some Spec.exact_re.
Proof. vm_compute. reflexivity. Qed.

Lemma length_append (a b : string) :
  String.length (a ++ b) = (String.length a + String.length b)%nat.
Proof. induction a as [|c a IH]; cbn [append String.length]; [reflexivity | now rewrite IH]. Qed.

Lemma str_append_nil (s : string) : s ++ "" = s.
Proof. induction s as [|c s IH]; cbn [append]; [reflexivity | now rewrite IH]. Qed.

Lemma take_consumed (pre rest : string) :
  take (String.length (pre ++ rest) - String.length rest) (pre ++ rest) = pre.
Proof.
  unfold take. rewrite length_append.
  replace (String.length pre + String.length rest - String.length rest)%nat
    with (String.length pre) by lia.
  apply substring_take.
Qed.

(** A group matches when its expression matches the text [pre] and what
    follows accepts the capture. *)
Lemma rmatch_group {A : Type} (name : ascii) (a : re) (pre rest : string)
    (caps : captures) (k : string -> captures -> option A) (res : A) :
  (forall k', k' rest caps = Some res ->
              rmatch a (pre ++ rest) caps k' = Some res) ->
  k rest ((name, pre) :: caps) = Some res ->
  rmatch (RGroup name a) (pre ++ rest) caps k = Some res.
Proof.
  intros Ha Hk. cbn [rmatch]. apply Ha. rewrite take_consumed. exact Hk.
Qed.

Lemma rmatch_chr {A : Type} (c : ascii) (s : string) (caps : captures)
    (k : string -> captures -> option A) :
  rmatch (chr c) (String c s) caps k = k s caps.
Proof. cbn [rmatch chr]. now rewrite Ascii.eqb_refl. Qed.

Lemma rmatch_digit {A : Type} (c : ascii) (s : string) (caps : captures)
    (k : string -> captures -> option A) :
  is_digit c = true -> rmatch digit (String c s) caps k = k s caps.
Proof. intros H. cbn [rmatch digit]. now rewrite H. Qed.

Lemma digit_not_space (c : ascii) : is_digit c = true -> is_space c = false.
Proof.
  destruct c as [[] [] [] [] [] [] [] []]; intros H;
    try discriminate H; reflexivity.
Qed.

Lemma plus_space_digits {A : Type} (v : Z) (s : string) (k : string -> option A) :
  0 <= v <= 99 ->
  plus_greedy is_space (String " " (pad2 v ++ s)) k = k (pad2 v ++ s).
Proof.
  intros Hv. unfold pad2. cbn [append plus_greedy].
  change (is_space " ") with true. cbn iota.
  rewrite (digit_not_space (digit_char (v / 10))); [reflexivity|].
  apply digit_char_spec. Z.div_mod_to_equations. lia.
Qed.

(** Every value below 62 is one of finitely many. *)
Lemma below_62 (P : Z -> Prop) :
  (forall n : nat, (n < 62)%nat -> P (Z.of_nat n)) ->
  forall v, 0 <= v <= 61 -> P v.
Proof.
  intros H v Hv. rewrite <- (Z2Nat.id v) by lia. apply H. lia.
Qed.

(** Settles a goal about a two-digit field by going through its values. *)
Ltac each_field v Hk :=
  let n := fresh "n" in
  let Hn := fresh "Hn" in
  let Hr := fresh "Hr" in
  pattern v; apply below_62; [|lia];
  intros n Hn Hr;
  do 62 (destruct n as [|n];
         [first [exfalso; lia | vm_compute; rewrite Hk; reflexivity]|]);
  exfalso; lia.

Section Fields.

Context {A : Type}.
Variables (rest : string) (caps : captures) (k : string -> captures -> option A)
  (res : A).

Lemma month_matches (v : Z) :
  1 <= v <= 12 ->
  k rest (("m"%char, pad2 v) :: caps) = Some res ->
  rmatch (Spec.dir "m") (pad2 v ++ rest) caps k = Some res.
Proof.
  intros Hv Hk. unfold Spec.dir. cbn [directive].
  apply rmatch_group; [|exact Hk]. clear Hk. intros k' Hk'.
  generalize Hv. each_field v Hk'.
Qed.

Lemma day_matches (v : Z) :
  1 <= v <= 31 ->
  k rest (("d"%char, pad2 v) :: caps) = Some res ->
  rmatch (Spec.dir "d") (pad2 v ++ rest) caps k = Some res.
Proof.
  intros Hv Hk. unfold Spec.dir. cbn [directive].
  apply rmatch_group; [|exact Hk]. clear Hk. intros k' Hk'.
  generalize Hv. each_field v Hk'.
Qed.

Lemma hour_matches (v : Z) :
  0 <= v <= 23 ->
  k rest (("H"%char, pad2 v) :: caps) = Some res ->
  rmatch (Spec.dir "H") (pad2 v ++ rest) caps k = Some res.
Proof.
  intros Hv Hk. unfold Spec.dir. cbn [directive].
  apply rmatch_group; [|exact Hk]. clear Hk. intros k' Hk'.
  generalize Hv. each_field v Hk'.
Qed.

Lemma minute_matches (v : Z) :
  0 <= v <= 59 ->
  k rest (("M"%char, pad2 v) :: caps) = Some res ->
  rmatch (Spec.dir "M") (pad2 v ++ rest) caps k = Some res.
Proof.
  intros Hv Hk. unfold Spec.dir. cbn [directive].
  apply rmatch_group; [|exact Hk]. clear Hk. intros k' Hk'.
  generalize Hv. each_field v Hk'.
Qed.

Lemma second_matches (v : Z) :
  0 <= v <= 59 ->
  k rest (("S"%char, pad2 v) :: caps) = Some res ->
  rmatch (Spec.dir "S") (pad2 v ++ rest) caps k = Some res.
Proof.
  intros Hv Hk. unfold Spec.dir. cbn [directive].
  apply rmatch_group; [|exact Hk]. clear Hk. intros k' Hk'.
  generalize Hv. each_field v Hk'.
Qed.

Lemma year_matches (y : Z) :
  0 <= y <= 9999 ->
  k rest (("Y"%char, pad4 y) :: caps) = Some res ->
  rmatch (Spec.dir "Y") (pad4 y ++ rest) caps k = Some res.
Proof.
  intros Hy Hk. unfold Spec.dir. cbn [directive].
  apply rmatch_group; [|exact Hk]. clear Hk. intros k' Hk'.
  unfold pad4, pad2. cbn [append seq_of rmatch].
  rewrite !rmatch_digit; [exact Hk' | | | |];
    apply digit_char_spec; Z.div_mod_to_equations; lia.
Qed.

End Fields.

Lemma pad2_digits (v : Z) : 0 <= v <= 99 -> int_of_str (pad2 v) = Ok v.
Proof.
  intros Hv.
  destruct (int_of_str_digits (pad2 v)) as (z & Hz & Hd & _).
  - unfold pad2. cbn [str_forall].
    rewrite (proj1 (digit_char_spec (v / 10) ltac:(Z.div_mod_to_equations; lia))).
    rewrite (proj1 (digit_char_spec (v mod 10) ltac:(Z.div_mod_to_equations; lia))).
    reflexivity.
  - discriminate.
  - unfold pad2, len, max_str_digits. cbn [String.length]. lia.
  - rewrite decimal_pad2 in Hd by lia. injection Hd as <-. exact Hz.
Qed.

Lemma pad4_digits (v : Z) : 0 <= v <= 9999 -> int_of_str (pad4 v) = Ok v.
Proof.
  intros Hv.
  destruct (int_of_str_digits (pad4 v)) as (z & Hz & Hd & _).
  - unfold pad4, pad2. cbn [str_forall].
    rewrite !(fun a H => proj1 (digit_char_spec a H));
      [reflexivity | | | |]; Z.div_mod_to_equations; lia.
  - discriminate.
  - unfold pad4, pad2, len, max_str_digits. cbn [String.length]. lia.
  - rewrite decimal_pad4 in Hd by lia. injection Hd as <-. exact Hz.
Qed.

(** [strptime] reads the canonical text of a date and time back. *)
Lemma strptime_canonical (dt : datetime) :
  valid dt = true -> strptime (Spec.canonical_text dt) Spec.exact_format = Ok dt.
Proof.
  intros Hv. pose proof (valid_bounds dt Hv) as (Hy & Hm & Hd & HH & HM & HS).
  destruct dt as [y m d H M S]. cbn [year month day hour minute second] in *.
  unfold strptime. rewrite pattern_exact.
  set (caps := [("S"%char, pad2 S); ("M"%char, pad2 M); ("H"%char, pad2 H);
                ("d"%char, pad2 d); ("m"%char, pad2 m); ("Y"%char, pad4 y)]).
  assert (Hmatch : re_match Spec.exact_re (Spec.canonical_text (mk_datetime y m d H M S))
                   = Some (caps, "")).
  { unfold re_match, Spec.exact_re, Spec.canonical_text.
    cbn [year month day hour minute second rmatch].
    apply year_matches; [lia|]. cbn beta. cbn [append]. rewrite rmatch_chr.
    apply month_matches; [lia|]. cbn beta. cbn [append]. rewrite rmatch_chr.
    apply day_matches; [lia|]. cbn beta. cbn [append].
    rewrite plus_space_digits by lia.
    apply hour_matches; [lia|]. cbn beta. cbn [append]. rewrite rmatch_chr.
    apply minute_matches; [lia|]. cbn beta. cbn [append]. rewrite rmatch_chr.
    rewrite <- (str_append_nil (pad2 S)) at 1.
    apply second_matches; [lia|]. reflexivity. }
  rewrite Hmatch. cbn [String.eqb negb].
  subst caps. unfold group_int, group_month. cbn [group Ascii.eqb Bool.eqb].
  rewrite pad4_digits, !pad2_digits by lia. cbn [bind].
  unfold datetime_new. unfold valid in Hv. cbn [year month day hour minute second] in Hv.
  now rewrite Hv.
Qed.

(** ** Floats that hold an integer exactly *)

Lemma digits2_log2 (p : positive) :
  Zpos (digits2_pos p) = Z.log2 (Zpos p) + 1.
Proof.
  assert (Hsize : forall q, digits2_pos q = Pos.size q)
    by (induction q as [q IH|q IH|]; cbn; now rewrite ?IH).
  destruct p as [p|p|]; cbn [digits2_pos Z.log2]; rewrite ?Hsize, ?Pos2Z.inj_succ;
    reflexivity.
Qed.

Lemma iter_xO_value (m d : positive) :
  Zpos (Pos.iter xO m d) = Zpos m * 2 ^ Zpos d.
Proof.
  induction d as [|d IH] using Pos.peano_ind.
  - cbn [Pos.iter]. lia.
  - rewrite Pos.iter_succ, Pos2Z.inj_xO, IH, Pos2Z.inj_succ, Z.pow_succ_r by lia. lia.
Qed.

Lemma iter_pos_iter {A : Type} (f : A -> A) (n : positive) (x : A) :
  iter_pos f n x = Pos.iter f x n.
Proof.
  revert x. induction n as [n IH|n IH|]; intros x; cbn [iter_pos Pos.iter].
  - rewrite !IH. rewrite <- !Pos.iter_swap. reflexivity.
  - now rewrite !IH.
  - reflexivity.
Qed.

(** Shifting right a mantissa that ends in enough zeros loses nothing. *)
Lemma shr_exact (m : positive) (n : positive) :
  iter_pos shr_1 n (Build_shr_record (Zpos (Pos.iter xO m n)) false false)
  = Build_shr_record (Zpos m) false false.
Proof.
  rewrite iter_pos_iter.
  induction n as [|n IH] using Pos.peano_ind.
  - reflexivity.
  - rewrite Pos.iter_succ_r. rewrite (Pos.iter_succ n positive xO).
    cbn [shr_1 orb]. exact IH.
Qed.

Lemma to_pos_shift (m : positive) (d : positive) :
  Pos.iter xO m d = Z.to_pos (Zpos m * 2 ^ Zpos d).
Proof. rewrite <- iter_xO_value. reflexivity. Qed.

(** The float nearest to an integer of at most 53 bits, given with [j]
    more binary places, is that integer. *)
Lemma binary_round_exact (sx : bool) (p : positive) (j : Z) :
  0 <= j -> Z.log2 (Zpos p) < 53 ->
  exists M E,
    binary_round prec emax sx (Z.to_pos (Zpos p * 2 ^ j)) (- j) = S754_finite sx M E
    /\ E <= 0 /\ Zpos M = Zpos p * 2 ^ (- E).
Proof.
  intros Hj Hp.
  set (dv := Z.log2 (Zpos p) + 1).
  assert (Hdv : 1 <= dv <= 53) by (pose proof (Z.log2_nonneg (Zpos p)); lia).
  set (m := Z.to_pos (Zpos p * 2 ^ j)).
  assert (Hm : Zpos m = Zpos p * 2 ^ j) by (subst m; rewrite Z2Pos.id; lia).
  assert (Hdm : Zpos (digits2_pos m) = dv + j).
  { rewrite digits2_log2, Hm, Z.log2_mul_pow2 by lia. lia. }
  set (M := Z.to_pos (Zpos p * 2 ^ (53 - dv))).
  assert (HM : Zpos M = Zpos p * 2 ^ (53 - dv)) by (subst M; rewrite Z2Pos.id; lia).
  assert (HdM : Zpos (digits2_pos M) = 53).
  { rewrite digits2_log2, HM, Z.log2_mul_pow2 by lia. lia. }
  exists M, (dv - 53). split;
    [|split; [lia | replace (- (dv - 53)) with (53 - dv) by lia; exact HM]].
  assert (Hfexp : fexp prec emax dv = dv - 53)
    by (unfold fexp, emin, prec, emax; lia).
  (* after the alignment and the first shift the mantissa is [M] *)
  assert (Haux : forall mz ez,
            Zpos mz = Zpos p * 2 ^ (- ez) -> ez <= dv - 53 ->
            binary_round_aux prec emax sx (Zpos mz) ez loc_Exact
            = S754_finite sx M (dv - 53)).
  { intros mz ez Hmz Hez. unfold binary_round_aux, shr_fexp.
    assert (Hdz : Zdigits2 (Zpos mz) = dv - ez).
    { cbn [Zdigits2]. rewrite digits2_log2, Hmz, Z.log2_mul_pow2 by lia. lia. }
    rewrite Hdz. replace (dv - ez + ez) with dv by lia. rewrite Hfexp.
    cbn [shr_record_of_loc].
    assert (Hshr : shr (Build_shr_record (Zpos mz) false false) ez (dv - 53 - ez)
                   = (Build_shr_record (Zpos M) false false, dv - 53)).
    { unfold shr. destruct (dv - 53 - ez) as [|n|n] eqn:En; try lia.
      - assert (ez = dv - 53) by lia. subst ez. f_equal. f_equal.
        rewrite Hmz, HM. f_equal. f_equal. lia.
      - assert (Hmz' : mz = Pos.iter xO M n).
        { apply Pos2Z.inj.
          rewrite iter_xO_value, HM, Hmz, <- Z.mul_assoc, <- Z.pow_add_r by lia.
          f_equal. f_equal. lia. }
        rewrite Hmz', shr_exact. f_equal. lia. }
    rewrite Hshr. cbn [shr_m loc_of_shr_record round_nearest_even Zdigits2].
    rewrite HdM. replace (53 + (dv - 53)) with dv by lia. rewrite Hfexp.
    replace (dv - 53 - (dv - 53)) with 0 by lia. cbn [shr shr_m shr_record_of_loc].
    destruct (Z.leb_spec (dv - 53) (emax - prec)) as [_|Hc];
      [reflexivity | unfold emax, prec in Hc; lia]. }
  unfold binary_round. fold m. rewrite Hdm.
  replace (dv + j + - j) with dv by lia. rewrite Hfexp.
  unfold shl_align.
  destruct (dv - 53 - - j) as [|d|d] eqn:Ed.
  - apply Haux; [rewrite Hm; f_equal; f_equal; lia | lia].
  - apply Haux; [rewrite Hm; f_equal; f_equal; lia | lia].
  - apply Haux; [|lia].
    rewrite iter_xO_value, Hm, <- Z.mul_assoc, <- Z.pow_add_r by lia.
    f_equal. f_equal. lia.
Qed.

(** The quotient [v b / b] is computed without error. *)
Lemma ratio_to_float_exact (s : bool) (v b : Z) :
  0 < v -> Z.log2 v < 53 -> 0 < b ->
  exists M E,
    ratio_to_float s (v * b) b = S754_finite s M E
    /\ E <= 0 /\ Zpos M = v * 2 ^ (- E).
Proof.
  intros Hv Hlog Hb. unfold ratio_to_float.
  destruct (Z.eqb_spec (v * b) 0) as [E0|_]; [nia|].
  set (k := Z.max 0 (Z.log2 b - Z.log2 (v * b) + prec + 3)).
  assert (Hk : 0 <= k) by (subst k; lia). clearbody k.
  replace (v * b * 2 ^ k) with (v * 2 ^ k * b) by ring.
  rewrite Z.div_mul, Z.mod_mul by lia. cbn [Z.eqb].
  replace (2 * (v * 2 ^ k) + 0) with (v * 2 ^ (k + 1))
    by (rewrite Z.pow_add_r by lia; ring).
  destruct v as [|p|p]; try lia.
  destruct (binary_round_exact s p (k + 1) ltac:(lia) Hlog) as (M & E & HM & HE & Hval).
  exists M, E. split; [|split; assumption].
  replace (- k - 1) with (- (k + 1)) by lia.
  assert (Hpos : 0 < Zpos p * 2 ^ (k + 1)) by (apply Z.mul_pos_pos; [lia|]; apply Z.pow_pos_nonneg; lia).
  destruct (Zpos p * 2 ^ (k + 1)) as [|mp|mp] eqn:Emp; try lia.
  cbn [Z.to_pos] in HM. destruct s; cbn [cond_Zopp Z.opp binary_normalize]; exact HM.
Qed.

Lemma int_of_float_exact (s : bool) (M : positive) (E v : Z) :
  E <= 0 -> Zpos M = v * 2 ^ (- E) ->
  int_of_float (S754_finite s M E) = Ok (cond_Zopp s v).
Proof.
  intros HE HM. cbn [int_of_float]. f_equal. f_equal.
  rewrite Z.shiftl_div_pow2, HM by lia.
  apply Z.div_mul. apply Z.pow_nonzero; lia.
Qed.

(** [int(dt.timestamp())] is the count of seconds of [dt], without any
    rounding. *)
Lemma timestamp_seconds (dt : datetime) :
  valid dt = true ->
  exists t, timestamp_utc dt = Ok t
            /\ int_of_float t = Ok (seconds_since_epoch dt).
Proof.
  intros Hv. pose proof (seconds_range dt Hv) as Hr.
  unfold Spec.min_timestamp, Spec.max_timestamp in Hr.
  unfold timestamp_utc, true_div. cbn [Z.eqb].
  set (n := seconds_since_epoch dt) in *. clearbody n.
  destruct (Z.eq_dec n 0) as [->|Hn0].
  - cbn. eexists. split; reflexivity.
  - assert (Habs : Z.abs (n * 1000000) = Z.abs n * 1000000) by lia.
    rewrite Habs. change (Z.abs 1000000) with 1000000.
    change (1000000 <? 0) with false. rewrite xorb_false_r.
    assert (Hlog : Z.log2 (Z.abs n) < 53).
    { apply Z.log2_lt_pow2; [lia|]. change (2 ^ 53) with 9007199254740992. lia. }
    destruct (ratio_to_float_exact (n * 1000000 <? 0) (Z.abs n) 1000000
                ltac:(lia) Hlog ltac:(lia)) as (M & E & HM & HE & Hval).
    rewrite HM. eexists. split; [reflexivity|].
    rewrite (int_of_float_exact _ M E (Z.abs n) HE Hval). f_equal.
    destruct (Z.ltb_spec (n * 1000000) 0); cbn [cond_Zopp]; lia.
Qed.

(** ** The timestamp fields of a record *)

Lemma strptime_empty : strptime "" Spec.exact_format = Raise ValueError.
Proof. vm_compute. reflexivity. Qed.

(** When the exact format parses, both fields are written. *)
Lemma at_fields_exact (s : string) (dt : datetime) :
  strptime s Spec.exact_format = Ok dt ->
  TransformData.at_fields (VStr s)
  = Ok (VStr (isoformat_utc dt), VInt (seconds_since_epoch dt)).
Proof.
  intros Hp. unfold TransformData.at_fields.
  destruct (String.eqb_spec s "") as [->|_].
  - rewrite strptime_empty in Hp. discriminate.
  - cbn [negb]. fold Spec.exact_format. rewrite Hp. cbn [bind].
    destruct (timestamp_seconds dt (strptime_valid _ _ _ Hp)) as (t & -> & Hi).
    cbn [bind]. rewrite Hi. reflexivity.
Qed.

Lemma at_fields_epoch (a iso : pyval) (t : Z) :
  TransformData.at_fields a = Ok (iso, VInt t) ->
  exists s dt, a = VStr s /\ strptime s Spec.exact_format = Ok dt
               /\ iso = VStr (isoformat_utc dt) /\ t = seconds_since_epoch dt.
Proof.
  intros H. pose proof (at_fields_spec _ _ _ H) as Hs.
  destruct a as [| | | |s| |]; try (destruct Hs as [_ Hs]; discriminate Hs).
  destruct (s =? "")%string; [destruct Hs as [_ Hs]; discriminate Hs|].
  destruct Hs as [(dt & z & Hp & -> & Hz) | (Hn & _)]; [|discriminate Hn].
  rewrite (at_fields_exact s dt Hp) in H. injection H as <-.
  exists s, dt. repeat split; assumption.
Qed.

(** X27.  In every record the Review Transformer writes, [at_epoch] and
    [at_iso] name the same instant: when the exact format parses the raw
    [at], [at_epoch] is the whole number of seconds from the epoch to the
    parsed date and time, computed through a float without any rounding;
    and an [at_epoch] that is an integer comes with the [at_iso] of a date
    and time of the calendar which has exactly this number of seconds, so
    that [epoch_to_iso] gives the same string back, the epoch itself
    apart. *)
Theorem at_epoch_is_instant_of_at_iso (r : pydict) :
  exists r',
    TransformData.transform_record r = Ok r'
    /\ (forall s dt, get r "at" = VStr s -> strptime s Spec.exact_format = Ok dt ->
        get r' "at_epoch" = VInt (seconds_since_epoch dt))
    /\ (forall t, get r' "at_epoch" = VInt t ->
        exists dt,
          valid dt = true
          /\ get r' "at_iso" = VStr (isoformat_utc dt)
          /\ t = seconds_since_epoch dt
          /\ (t <> 0 -> TransformData.epoch_to_iso (VInt t) = Ok (get r' "at_iso"))).
Proof.
  destruct (transform_record_shape r) as (iso & epoch & Hat & Hr).
  eexists. split; [exact Hr|]. split.
  - intros s dt Hs Hp. get_set. rewrite Hs, (at_fields_exact s dt Hp) in Hat.
    now injection Hat as _ <-.
  - intros t. get_set. intros ->.
    destruct (at_fields_epoch _ _ _ Hat) as (s & dt & _ & Hp & -> & ->).
    pose proof (strptime_valid _ _ _ Hp) as Hv.
    exists dt. repeat split; try assumption.
    intros Hne. unfold TransformData.epoch_to_iso. cbn [truthy].
    destruct (Z.eqb_spec (seconds_since_epoch dt) 0); [contradiction|].
    cbn [negb py_int bind]. rewrite (fromtimestamp_of_seconds dt Hv). reflexivity.
Qed.

(** X28.  Round trip of the exact format: for every date and time of the
    calendar (years 1 to 9999), a review whose [at] is its text
    [YYYY-MM-DD HH:MM:SS] is written with the ISO string of this date and
    time in UTC as [at_iso] and its number of seconds from the epoch as
    [at_epoch], and the Daily Metrics Aggregator files it under its date. *)
Theorem canonical_timestamp_round_trip (r : pydict) (dt : datetime) :
  valid dt = true ->
  get r "at" = VStr (Spec.canonical_text dt) ->
  exists r',
    TransformData.transform_record r = Ok r'
    /\ get r' "at_iso" = VStr (isoformat_utc dt)
    /\ get r' "at_epoch" = VInt (seconds_since_epoch dt)
    /\ ComputeDailyMetrics._extract_date (VDict r') = Ok (Some (date_isoformat dt)).
Proof.
  intros Hv Hat. pose proof (strptime_canonical dt Hv) as Hp.
  destruct (transform_record_shape r) as (iso & epoch & Hf & Hr).
  rewrite Hat, (at_fields_exact _ dt Hp) in Hf. injection Hf as <- <-.
  eexists. split; [exact Hr|].
  assert (Hiso : get (set (set (set (set r "at_iso" (VStr (isoformat_utc dt)))
                                     "at_epoch" (VInt (seconds_since_epoch dt)))
                                "score" (Spec.coerced (get r "score")))
                           "thumbsUpCount" (Spec.coerced (get r "thumbsUpCount")))
                     "at_iso" = VStr (isoformat_utc dt)) by now get_set.
  split; [exact Hiso|]. split; [now get_set|].
  now apply extract_date_of_iso.
Qed.

Lemma canonical_timestamp_round_trip_witness :
  exists r',
    TransformData.transform_record [(VStr "at", VStr "2025-01-01 00:00:00")] = Ok r'
    /\ get r' "at_iso" = VStr "2025-01-01T00:00:00+00:00"
    /\ get r' "at_epoch" = VInt 1735689600
    /\ ComputeDailyMetrics._extract_date (VDict r') = Ok (Some "2025-01-01").
Proof.
  exact (canonical_timestamp_round_trip [(VStr "at", VStr "2025-01-01 00:00:00")]
           Samples.new_year_2025 eq_refl eq_refl).
Defined.
